(** * LEI lookup service: a model of [capstone_project.py]

    The program fetches a Legal Entity Identifier record from the GLEIF
    API ([get_lei_information]), flattens it into a one-row table
    ([json_to_dataframe]), follows the record's relationship links
    ([fetch_relationship_data]), collects the identifiers found behind
    them ([extract_related_leis]) and displays everything with Streamlit.

    Python values are modelled by the inductive type [value], Python
    exceptions by the error monad [result], and the two effects of the
    program (HTTP requests and Streamlit output) by a state-and-exception
    monad [IO] over a [world] that counts the requests made and records
    every effect in order. *)

From Stdlib Require Import String Ascii ZArith List Bool QArith Permutation Lia.
From Stdlib Require Import DecimalString.
From ExtLib Require Import Structures.Monad.
Import ListNotations.
Local Open Scope string_scope.
Local Open Scope Z_scope.

(** ** Python values *)

(** A Python [float]: a finite value (every finite double is a rational),
    an infinity, or NaN. *)
Inductive pyfloat : Type :=
| FNum (q : Q)
| FInf (negative : bool)
| FNaN.

(** The values the program handles: what [response.json()] produces
    ([None], [bool], [int], [float], [str], [list], [dict] with string
    keys) and pandas' missing-cell marker, the float NaN.  A [dict] is
    the list of its items in insertion order, one item per key: the
    order is what [items()], [join] and the columns of a table follow;
    [dict_lookup] finds the item of a key.  A [str] is its sequence of
    characters. *)
Local Unset Elimination Schemes.

Inductive value : Type :=
| VNone
| VBool (b : bool)
| VInt (z : Z)
| VFloat (f : pyfloat)
| VStr (s : string)
| VList (l : list value)
| VDict (d : list (string * value)).

Local Set Elimination Schemes.

Definition NaN : value := VFloat FNaN.

(** What may stand between the brackets of a subscription in this
    program: a string literal or an integer literal. *)
Inductive index : Type :=
| Key (k : string)
| Idx (i : Z).

Coercion Key : string >-> index.

(** The exceptions the program can meet.  [RequestException] stands for
    the whole [requests.exceptions.RequestException] family (connection
    errors, [HTTPError] from [raise_for_status], [JSONDecodeError] from
    [response.json()]) and carries [str(e)]: it is the only one the
    program catches.  [ValueError] and [RecursionError] are what the
    JSON decoder raises besides (an integer of too many digits, a
    nesting too deep), and what pandas answers to a table it cannot
    style. *)
Inductive exn : Type :=
| KeyError (k : index)
| IndexError
| TypeError
| AttributeError
| ValueError
| RecursionError
| RequestException (msg : string).

(** ** Exceptions as an error monad *)

Inductive result (A : Type) : Type :=
| Ok (a : A)
| Raise (e : exn).

Arguments Ok {A} a.
Arguments Raise {A} e.

#[export] Instance Monad_result : Monad result :=
  {| ret := @Ok;
     bind := fun A B (m : result A) (k : A -> result B) =>
               match m with
               | Ok a => k a
               | Raise e => Raise e
               end |}.

Declare Scope result_scope.
Delimit Scope result_scope with result.
Bind Scope result_scope with result.

Notation "x <- c ;; k" := (@bind result _ _ _ c (fun x => k))
  (at level 61, c at next level, right associativity) : result_scope.

Local Open Scope result_scope.

Definition returned (v : value) : result value := Ok v.
Coercion returned : value >-> result.

(** ** Built-in operations *)

(** The empty string, [''] in Python. *)
Definition empty : string := EmptyString.

Fixpoint dict_lookup (k : string) (d : list (string * value)) : option value :=
  match d with
  | [] => None
  | (k', v) :: d' => if String.eqb k k' then Some v else dict_lookup k d'
  end.

Definition dict_keys (d : list (string * value)) : list string := map fst d.

(** [bool(v)]: the truth value Python's [if], [and] and conditional
    expressions test. *)
Definition truthy (v : value) : bool :=
  match v with
  | VNone => false
  | VBool b => b
  | VInt z => negb (z =? 0)
  | VFloat (FNum q) => negb (Qeq_bool q 0)
  | VFloat _ => true
  | VStr s => negb (String.eqb s empty)
  | VList l => match l with [] => false | _ => true end
  | VDict d => match d with [] => false | _ => true end
  end.

(** [seq[i]] on a sequence of length [n]: a negative index counts from
    the end. *)
Definition seq_index {A : Type} (l : list A) (i : Z) : option A :=
  let n := Z.of_nat (length l) in
  if (0 <=? i) && (i <? n) then nth_error l (Z.to_nat i)
  else if (i <? 0) && (0 <=? i + n) then nth_error l (Z.to_nat (i + n))
  else None.

Definition string_of_char (c : ascii) : string := String c EmptyString.

(** [v[i]] *)
Definition getitem (v : value) (i : index) : result value :=
  match v with
  | VDict d =>
      match i with
      | Key k => match dict_lookup k d with
                 | Some x => Ok x
                 | None => Raise (KeyError i)
                 end
      | Idx _ => Raise (KeyError i)
      end
  | VList l =>
      match i with
      | Idx z => match seq_index l z with
                 | Some x => Ok x
                 | None => Raise IndexError
                 end
      | Key _ => Raise TypeError
      end
  | VStr s =>
      match i with
      | Idx z => match seq_index (list_ascii_of_string s) z with
                 | Some c => Ok (VStr (string_of_char c))
                 | None => Raise IndexError
                 end
      | Key _ => Raise TypeError
      end
  | _ => Raise TypeError
  end.

(** [e[i]] where [e] is itself an expression that may raise. *)
Definition subscript (e : result value) (i : index) : result value :=
  v <- e ;; getitem v i.

Notation "e .[ i ]" := (subscript e i)
  (at level 1, left associativity, format "e .[ i ]").

(** [v.get(k)] and [v.get(k, default)]: only a [dict] has the method. *)
Definition dict_get (v : value) (k : string) (default : value) : result value :=
  match v with
  | VDict d => Ok (match dict_lookup k d with Some x => x | None => default end)
  | _ => Raise AttributeError
  end.

(** [sep.join(iterable)]: the iterable must yield strings.  A list
    yields its elements, a string its characters, a dict its keys. *)
Fixpoint all_strings (l : list value) : result (list string) :=
  match l with
  | [] => Ok []
  | VStr s :: l' => ss <- all_strings l' ;; ret (s :: ss)
  | _ :: _ => Raise TypeError
  end.

Definition str_join (sep : string) (iterable : value) : result value :=
  match iterable with
  | VList l => ss <- all_strings l ;; ret (VStr (String.concat sep ss))
  | VStr s => Ok (VStr (String.concat sep (map string_of_char (list_ascii_of_string s))))
  | VDict d => Ok (VStr (String.concat sep (dict_keys d)))
  | _ => Raise TypeError
  end.

Definition join (sep : string) (e : result value) : result value :=
  v <- e ;; str_join sep v.

(** [a if c else b]: the condition is evaluated first, then one branch. *)
Definition if_else (a c b : result value) : result value :=
  t <- c ;; if truthy t then a else b.

Notation "a 'IF' c 'ELSE' b" := (if_else a c b) (at level 90, c at level 89).

(** A dict display [{k1: e1, k2: e2, ...}]: the entries are evaluated
    in order and the first exception propagates. *)
Fixpoint dict_display (entries : list (string * result value))
  : result (list (string * value)) :=
  match entries with
  | [] => Ok []
  | (k, e) :: rest =>
      v <- e ;;
      d <- dict_display rest ;;
      ret ((k, v) :: d)
  end.

(** ** The part of pandas the program uses *)

(** A table is the list of its rows; a row has an index label and the
    cells it was built with.  The columns of a table are the keys of
    its rows in order of first appearance, and a row that lacks a
    column shows NaN there. *)
Record row : Type := { row_index : value; row_cells : list (string * value) }.

Definition DataFrame : Type := list row.

Definition mem_string (k : string) (l : list string) : bool :=
  existsb (String.eqb k) l.

Fixpoint add_columns (seen : list string) (keys : list string) : list string :=
  match keys with
  | [] => seen
  | k :: keys' =>
      if mem_string k seen then add_columns seen keys'
      else add_columns (seen ++ [k])%list keys'
  end.

Definition columns (df : DataFrame) : list string :=
  fold_left (fun seen r => add_columns seen (dict_keys (row_cells r))) df [].

Definition cell (col : string) (r : row) : value :=
  match dict_lookup col (row_cells r) with
  | Some v => v
  | None => NaN
  end.

Fixpoint number_rows (i : Z) (records : list (list (string * value))) : DataFrame :=
  match records with
  | [] => []
  | d :: records' =>
      {| row_index := VInt i; row_cells := d |} :: number_rows (i + 1) records'
  end.

(** [pd.DataFrame(records)] for a list of dicts: one row per dict,
    labelled 0, 1, 2, ... *)
Definition pd_DataFrame (records : list (list (string * value))) : DataFrame :=
  number_rows 0 records.

(** [df.empty] *)
Definition df_empty (df : DataFrame) : bool :=
  match df, columns df with
  | [], _ | _, [] => true
  | _, _ => false
  end.

(** [df[col]]: the column as a sequence of cells. *)
Definition df_getitem (df : DataFrame) (col : string) : result (list value) :=
  if mem_string col (columns df) then Ok (map (cell col) df)
  else Raise (KeyError col).

Definition remove_key (k : string) (d : list (string * value)) : list (string * value) :=
  filter (fun kv => negb (String.eqb k (fst kv))) d.

(** [df.set_index(col)]: the column becomes the row labels. *)
Definition set_index (col : string) (df : DataFrame) : result DataFrame :=
  if mem_string col (columns df)
  then Ok (map (fun r => {| row_index := cell col r;
                            row_cells := remove_key col (row_cells r) |}) df)
  else Raise (KeyError col).

(** [pd.concat([a, b], ignore_index=False)] *)
Definition pd_concat (a b : DataFrame) : DataFrame := (a ++ b)%list.

(** ** [json_to_dataframe] *)

(** The dict display [flat_data = {...}]: every column with the
    expression that computes it. *)
Definition flat_data_entries (attributes entity registration : value)
  : list (string * result value) :=
  [
    ("LEI", attributes.["lei"]);
    ("Legal Name", entity.["legalName"].["name"]);
    ("Legal Name Language", entity.["legalName"].["language"]);
    ("Transliterated Legal Name",
       entity.["transliteratedOtherNames"].[Idx 0].["name"]
       IF entity.["transliteratedOtherNames"] ELSE VNone);
    ("Transliterated Legal Name Language",
       entity.["transliteratedOtherNames"].[Idx 0].["language"]
       IF entity.["transliteratedOtherNames"] ELSE VNone);
    ("Transliterated Legal Name Type",
       entity.["transliteratedOtherNames"].[Idx 0].["type"]
       IF entity.["transliteratedOtherNames"] ELSE VNone);
    ("Legal Address", join ", " entity.["legalAddress"].["addressLines"]);
    ("Legal Address Language", entity.["legalAddress"].["language"]);
    ("Legal Address City", entity.["legalAddress"].["city"]);
    ("Legal Address Region", entity.["legalAddress"].["region"]);
    ("Legal Address Country", entity.["legalAddress"].["country"]);
    ("Legal Address Postal Code", entity.["legalAddress"].["postalCode"]);
    ("Headquarters Address", join ", " entity.["headquartersAddress"].["addressLines"]);
    ("Headquarters Address Language", entity.["headquartersAddress"].["language"]);
    ("Headquarters Address City", entity.["headquartersAddress"].["city"]);
    ("Headquarters Address Region", entity.["headquartersAddress"].["region"]);
    ("Headquarters Address Country", entity.["headquartersAddress"].["country"]);
    ("Headquarters Address Postal Code", entity.["headquartersAddress"].["postalCode"]);
    ("Jurisdiction", entity.["jurisdiction"]);
    ("Category", entity.["category"]);
    ("Legal Form ID", entity.["legalForm"].["id"]);
    ("Registered At ID", entity.["registeredAt"].["id"]);
    ("Registered As", entity.["registeredAs"]);
    ("Entity Status", entity.["status"]);
    ("Creation Date", entity.["creationDate"]);
    ("Expiration Date", entity.["expiration"].["date"]);
    ("Expiration Reason", entity.["expiration"].["reason"]);
    ("Associated Entity LEI", entity.["associatedEntity"].["lei"]);
    ("Associated Entity Name", entity.["associatedEntity"].["name"]);
    ("BIC Codes", join ", " attributes.["bic"] IF attributes.["bic"] ELSE VNone);
    ("MIC", attributes.["mic"]);
    ("OCID", attributes.["ocid"]);
    ("SP Global IDs", join ", " attributes.["spglobal"] IF attributes.["spglobal"] ELSE VNone);
    ("Conformity Flag", attributes.["conformityFlag"]);
    ("Initial Registration Date", registration.["initialRegistrationDate"]);
    ("Last Update Date", registration.["lastUpdateDate"]);
    ("Next Renewal Date", registration.["nextRenewalDate"]);
    ("Registration Status", registration.["status"]);
    ("Managing LOU", registration.["managingLou"]);
    ("Corroboration Level", registration.["corroborationLevel"]);
    ("Validated At ID", registration.["validatedAt"].["id"]);
    ("Validated As", registration.["validatedAs"])
  ].

Definition json_to_dataframe (data : value) : result DataFrame :=
  attributes <- data.["data"].["attributes"] ;;
  entity <- attributes.["entity"] ;;
  registration <- attributes.["registration"] ;;
  flat_data <- dict_display (flat_data_entries attributes entity registration) ;;
  let df := pd_DataFrame [flat_data] in
  set_index "Legal Name" df.

(** ** Sets of hashable values *)

(** What a [set] compares: [None], numbers by their numeric value
    ([True == 1 == 1.0]), strings by their characters.  NaN is equal
    to nothing, but a set looks at identity first and the decoder has
    one NaN object: it is kept once.  Lists and dicts are unhashable. *)
Inductive hkey : Type :=
| HNone
| HNum (q : Q)
| HInf (negative : bool)
| HNaN
| HStr (s : string).

Definition hash_key (v : value) : option hkey :=
  match v with
  | VNone => Some HNone
  | VBool b => Some (HNum (if b then 1%Q else 0%Q))
  | VInt z => Some (HNum (inject_Z z))
  | VFloat (FNum q) => Some (HNum q)
  | VFloat (FInf n) => Some (HInf n)
  | VFloat FNaN => Some HNaN
  | VStr s => Some (HStr s)
  | VList _ | VDict _ => None
  end.

Definition hkey_eqb (a b : hkey) : bool :=
  match a, b with
  | HNone, HNone => true
  | HNum p, HNum q => Qeq_bool p q
  | HInf m, HInf n => Bool.eqb m n
  | HNaN, HNaN => true
  | HStr s, HStr t => String.eqb s t
  | _, _ => false
  end.

(** Two hashable values are the same element of a set. *)
Definition same_element (a b : value) : bool :=
  match hash_key a, hash_key b with
  | Some x, Some y => hkey_eqb x y
  | _, _ => false
  end.

(** [set(l)]: the elements are added one by one; an element equal to
    one already present is dropped, an unhashable one raises
    [TypeError].  The result lists the members in order of insertion. *)
Fixpoint set_add_all (members : list value) (l : list value) : result (list value) :=
  match l with
  | [] => Ok members
  | x :: l' =>
      match hash_key x with
      | None => Raise TypeError
      | Some _ =>
          if existsb (same_element x) members then set_add_all members l'
          else set_add_all (members ++ [x])%list l'
      end
  end.

Definition py_set (l : list value) : result (list value) := set_add_all [] l.

(** [v == s] for a string [s]: only an equal string is equal to it. *)
Definition eq_str (v : value) (s : string) : bool :=
  match v with
  | VStr t => String.eqb t s
  | _ => false
  end.

(** [for x in xs: body], the body updating the loop's state. *)
Fixpoint for_each {A S : Type} (xs : list A) (s : S) (body : S -> A -> result S)
  : result S :=
  match xs with
  | [] => Ok s
  | x :: xs' => s' <- body s x ;; for_each xs' s' body
  end.

(** ** [extract_related_leis] *)

(** The body shared by both branches:
    [lei = entry.get("attributes", {}).get("lei")], then
    [if lei and lei != input_lei: related_leis.append(lei)]. *)
Definition collect_lei (input_lei : string) (related_leis : list value) (entry : value)
  : result (list value) :=
  attributes <- dict_get entry "attributes" (VDict []) ;;
  lei <- dict_get attributes "lei" VNone ;;
  if truthy lei && negb (eq_str lei input_lei)
  then ret (related_leis ++ [lei])%list
  else ret related_leis.

Definition collect_relationship (input_lei : string) (related_leis : list value)
  (relationship : value) : result (list value) :=
  data_field <- dict_get relationship "data" VNone ;;
  match data_field with
  | VList entries => for_each entries related_leis (collect_lei input_lei)
  | VDict _ => collect_lei input_lei related_leis data_field
  | _ => ret related_leis
  end.

(** The list [related_leis] once the loop is over. *)
Definition collected_leis (relationship_data : list value) (input_lei : string)
  : result (list value) :=
  for_each relationship_data [] (collect_relationship input_lei).

(** The identifier an entry carries,
    [entry.get("attributes", {}).get("lei")], and the entries of a
    relationship payload: the elements of its ["data"] list, or its
    ["data"] object itself. *)
Definition entry_lei (entry : value) : result value :=
  attributes <- dict_get entry "attributes" (VDict []) ;;
  dict_get attributes "lei" VNone.

Definition payload_entries (relationship : value) : list value :=
  match dict_get relationship "data" VNone with
  | Ok (VList entries) => entries
  | Ok (VDict d) => [VDict d]
  | _ => []
  end.

(** The payload has an entry whose identifier is [lei]. *)
Definition mentions (relationship lei : value) : Prop :=
  exists entry, In entry (payload_entries relationship) /\ entry_lei entry = Ok lei.

(** [s in container] for a string [s]: a key of a dict, an element of
    a list, a substring of a string. *)
Definition is_substring (s t : string) : bool :=
  match String.index 0 s t with
  | Some _ => true
  | None => false
  end.

Definition contains (container : value) (s : string) : result bool :=
  match container with
  | VDict d => Ok (mem_string s (dict_keys d))
  | VList l => Ok (existsb (fun v => eq_str v s) l)
  | VStr t => Ok (is_substring s t)
  | _ => Raise TypeError
  end.

(** [str(z)] for an [int]: its decimal digits. *)
Definition str_int (z : Z) : string := NilZero.string_of_int (Z.to_int z).

(** [v.items()] *)
Definition dict_items (v : value) : result (list (string * value)) :=
  match v with
  | VDict d => Ok d
  | _ => Raise AttributeError
  end.

(** ** The outside world: HTTP and the Streamlit page *)

Record request : Type := { url : value; headers : list (string * string) }.

(** A [requests.Response]: [json] is what [response.json()] does, it
    returns the parsed body or raises.  A body that is no JSON raises
    [JSONDecodeError], a [RequestException]; the decoder may also raise
    an exception of its own, which is none.  [http_error] is the
    message of the [HTTPError] that [raise_for_status] raises for this
    response. *)
Record response : Type :=
  { status_code : Z;
    text : string;
    json : exn + value;
    http_error : string }.

(** What [requests.get] does: it raises a [RequestException] or returns
    a response. *)
Inductive outcome : Type :=
| Failed (msg : string)
| Received (r : response).

(** Everything the program does to the outside, in order.  The labels
    are the source's without their leading pictogram; [StError v] is
    [st.error] of the message built from [v], [StWrite v] likewise. *)
Inductive event : Type :=
| HttpGet (req : request)
| StTitle (label : string)
| StText (body : string)
| StTextInput (label default : string)
| StButton (label : string)
| StSpinner (label : string)
| StError (v : value)
| StWrite (v : value)
| StSubheader (label : string)
| StDataframe (df : DataFrame)
| StInfo (label : string).

Record world : Type := { requests_sent : nat; effects : list event }.

Definition start : world := {| requests_sent := 0; effects := [] |}.

(** A computation with effects: it may raise, and what it did before
    raising stays done. *)
Definition IO (A : Type) : Type := world -> result A * world.

#[export] Instance Monad_IO : Monad IO :=
  {| ret := fun A (a : A) (w : world) => (Ok a, w);
     bind := fun A B (m : IO A) (k : A -> IO B) (w : world) =>
               match m w with
               | (Ok a, w') => k a w'
               | (Raise e, w') => (Raise e, w')
               end |}.

Declare Scope io_scope.
Delimit Scope io_scope with io.
Bind Scope io_scope with IO.

Notation "x <- c ;; k" := (@bind IO _ _ _ c (fun x => k))
  (at level 61, c at next level, right associativity) : io_scope.
Notation "c ;; k" := (@bind IO _ _ _ c (fun _ => k))
  (at level 61, right associativity) : io_scope.

(** A pure computation inside an effectful one. *)
Definition lift {A : Type} (r : result A) : IO A := fun w => (r, w).

Definition emit (e : event) : IO unit :=
  fun w => (Ok tt, {| requests_sent := requests_sent w;
                      effects := (effects w ++ [e])%list |}).

(** [try: body / except requests.exceptions.RequestException as e: handler],
    the handler receiving [str(e)]. *)
Definition try_except {A : Type} (body : IO A) (handler : string -> IO A) : IO A :=
  fun w =>
    match body w with
    | (Raise (RequestException msg), w') => handler msg w'
    | other => other
    end.

(** [for x in xs: body] with effects. *)
Fixpoint for_each_io {A S : Type} (xs : list A) (s : S) (body : S -> A -> IO S)
  : IO S :=
  match xs with
  | [] => ret s
  | x :: xs' => (s' <- body s x ;; for_each_io xs' s' body)%io
  end.

(** [response.raise_for_status()]: statuses 400 to 599 raise. *)
Definition raise_for_status (r : response) : result unit :=
  if (400 <=? status_code r) && (status_code r <? 600)
  then Raise (RequestException (http_error r))
  else Ok tt.

(** [response.json()] *)
Definition response_json (r : response) : result value :=
  match json r with
  | inl e => Raise e
  | inr v => Ok v
  end.

Section Program.

(** The network: what the [n]-th call of [requests.get] (counting from
    0) meets for a given request. *)
Variable net : nat -> request -> outcome.

(** [str(v)], as string formatting applies it to an identifier. *)
Variable py_str : value -> string.

(** The order in which a set is iterated is not specified: it is a
    parameter, some rearrangement of the members. *)
Variable iteration_order : list value -> list value.
Hypothesis iteration_order_perm : forall l, Permutation (iteration_order l) l.

(** What becomes of a table that is handed over for display: pandas
    builds the [Styler] of the transposed table and Streamlit renders
    it, and either may refuse the table with an exception.  Which
    tables are refused is theirs to say: it is a parameter. *)
Variable display_error : DataFrame -> option exn.

Definition requests_get (u : value) (hs : list (string * string)) : IO response :=
  fun w =>
    let req := {| url := u; headers := hs |} in
    let w' := {| requests_sent := S (requests_sent w);
                 effects := (effects w ++ [HttpGet req])%list |} in
    match net (requests_sent w) req with
    | Failed msg => (Raise (RequestException msg), w')
    | Received r => (Ok r, w')
    end.

(** ** [get_lei_information] *)

Definition lei_url (lei : value) : value :=
  VStr ("https://api.gleif.org/api/v1/lei-records/" ++ py_str lei).

Definition upstream_error (r : response) : value :=
  VDict [("error", VStr ("Error retrieving data (status code "
                         ++ str_int (status_code r) ++ ")."));
         ("details", VStr (text r))].

Definition request_error (details : string) : value :=
  VDict [("error", VStr "An error occurred during the request.");
         ("details", VStr details)].

Definition get_lei_information (lei : value) : IO value :=
  let url := lei_url lei in
  let headers := [("Accept", "application/vnd.api+json")] in
  try_except
    (response <- requests_get url headers ;;
     if status_code response =? 200
     then lift (response_json response)
     else ret (upstream_error response))%io
    (fun e => ret (request_error e)).

(** ** [fetch_relationship_data] *)

Definition fetch_link (results : list (list (string * value)))
  (item : string * value) : IO (list (list (string * value))) :=
  let (rel_name, rel_data) := item in
  (related_link <- lift (links <- dict_get rel_data "links" (VDict []) ;;
                         dict_get links "related" VNone) ;;
   if truthy related_link then
     try_except
       (response <- requests_get related_link [] ;;
        lift (raise_for_status response) ;;
        fetched_data <- lift (response_json response) ;;
        ret (results ++ [[("Relationship Name", VStr rel_name);
                          ("Link", related_link);
                          ("Data", fetched_data)]])%list)
       (fun e =>
        ret (results ++ [[("Relationship Name", VStr rel_name);
                          ("Link", related_link);
                          ("Error", VStr e)]])%list)
   else ret results)%io.

Definition fetch_relationship_data (base_data : value) : IO DataFrame :=
  (relationships <- lift (d <- base_data.["data"] ;;
                          dict_get d "relationships" (VDict [])) ;;
   items <- lift (dict_items relationships) ;;
   results <- for_each_io items [] fetch_link ;;
   ret (pd_DataFrame results))%io.

(** ** [extract_related_leis] *)

Definition extract_related_leis (relationship_data : list value) (input_lei : string)
  : result (list value) :=
  related_leis <- collected_leis relationship_data input_lei ;;
  members <- py_set related_leis ;;
  ret (iteration_order members).

(** ** The page *)

(** [st.error(... data['error'])] then [st.write(... data['details'])] *)
Definition show_error (data : value) : IO unit :=
  (error <- lift data.["error"] ;;
   emit (StError error) ;;
   details <- lift data.["details"] ;;
   emit (StWrite details))%io.

Definition add_related (relationship_df_display : DataFrame) (related_lei : value)
  : IO DataFrame :=
  (data <- get_lei_information related_lei ;;
   has_error <- lift (contains data "error") ;;
   if has_error : bool then
     show_error data ;;
     ret relationship_df_display
   else
     df <- lift (json_to_dataframe data) ;;
     ret (pd_concat relationship_df_display df))%io.

(** [st.dataframe(df.T.style.format(na_rep="N/A"), use_container_width=True)] *)
Definition st_dataframe (df : DataFrame) : IO unit :=
  match display_error df with
  | Some e => lift (Raise e)
  | None => emit (StDataframe df)
  end.

(** The body of [if st.button(...)]: one lookup. *)
Definition lookup (input_lei : string) : IO unit :=
  (emit (StSpinner "Retrieving data...") ;;
   data <- get_lei_information (VStr input_lei) ;;
   has_error <- lift (contains data "error") ;;
   if has_error : bool then
     show_error data
   else
     emit (StSubheader "Company Information") ;;
     company_df <- lift (json_to_dataframe data) ;;
     st_dataframe company_df ;;
     emit (StSubheader "Company Relationships") ;;
     relationship_df <- fetch_relationship_data data ;;
     if negb (df_empty relationship_df) then
       relationship_data <- lift (df_getitem relationship_df "Data") ;;
       related_leis <- lift (extract_related_leis relationship_data input_lei) ;;
       relationship_df_display <- for_each_io related_leis [] add_related ;;
       if negb (df_empty relationship_df_display) then
         st_dataframe relationship_df_display
       else
         emit (StInfo "No relationships found.")
     else
       emit (StInfo "No relationships found."))%io.

(** The script, run once: [input_lei] is what the text field holds and
    [clicked] whether the button was pressed. *)
Definition main (input_lei : string) (clicked : bool) : IO unit :=
  (emit (StTitle "LEI Lookup Service") ;;
   emit (StText "This application allows you to search for company information using its **LEI (Legal Entity Identifier)**.") ;;
   emit (StTextInput "Enter the LEI to look up:" "529900W18LQJJN6SJ336") ;;
   emit (StButton "Fetch Company Information") ;;
   if clicked then lookup input_lei else ret tt)%io.

End Program.

(** ** Vocabulary of the properties *)

(** The members of a set are pairwise different elements. *)
Inductive distinct : list value -> Prop :=
| distinct_nil : distinct []
| distinct_cons x l :
    hash_key x <> None ->
    (forall y, In y l -> same_element x y = false) ->
    distinct l ->
    distinct (x :: l).

(** What the test [if lei and lei != input_lei] lets through. *)
Definition kept (input_lei : string) (v : value) : Prop :=
  truthy v = true /\ eq_str v input_lei = false.

(** A payload as the API sends it: an object whose entries, if any,
    carry a hashable identifier (or none). *)
Definition well_shaped (relationship : value) : Prop :=
  (exists d, relationship = VDict d)
  /\ forall entry, In entry (payload_entries relationship) ->
                   exists lei, entry_lei entry = Ok lei /\ hash_key lei <> None.

(** The expression a dict display gives for a key. *)
Fixpoint entry_of (k : string) (entries : list (string * result value))
  : option (result value) :=
  match entries with
  | [] => None
  | (k', e) :: rest => if String.eqb k k' then Some e else entry_of k rest
  end.

(** The three objects the function starts from. *)
Definition parts (data attributes entity registration : value) : Prop :=
  data.["data"].["attributes"] = Ok attributes
  /\ attributes.["entity"] = Ok entity
  /\ attributes.["registration"] = Ok registration.

(** The three columns filled from the transliterated names. *)
Definition transliterated_columns : list string :=
  ["Transliterated Legal Name";
   "Transliterated Legal Name Language";
   "Transliterated Legal Name Type"].

(** ** What a run leaves behind *)

(** The request of [get_lei_information] for an identifier whose
    formatted text is [lei]. *)
Definition lei_request (lei : string) : request :=
  {| url := VStr ("https://api.gleif.org/api/v1/lei-records/" ++ lei);
     headers := [("Accept", "application/vnd.api+json")] |}.

(** The world after [n] more requests and the effects [evs]. *)
Definition after (w : world) (n : nat) (evs : list event) : world :=
  {| requests_sent := (n + requests_sent w)%nat;
     effects := (effects w ++ evs)%list |}.

(** What the page shows before the button is looked at. *)
Definition page_header : list event :=
  [StTitle "LEI Lookup Service";
   StText "This application allows you to search for company information using its **LEI (Legal Entity Identifier)**.";
   StTextInput "Enter the LEI to look up:" "529900W18LQJJN6SJ336";
   StButton "Fetch Company Information"].

(** The tables shown and the requests sent among some effects. *)
Fixpoint shown_tables (evs : list event) : list DataFrame :=
  match evs with
  | [] => []
  | StDataframe df :: evs' => df :: shown_tables evs'
  | _ :: evs' => shown_tables evs'
  end.

Fixpoint requests_of (evs : list event) : list request :=
  match evs with
  | [] => []
  | HttpGet req :: evs' => req :: requests_of evs'
  | _ :: evs' => requests_of evs'
  end.

(** The exception that escapes the request of a link: the one that
    [response.json()] raises on a response that passed
    [raise_for_status], when it is no [RequestException]. *)
Definition link_escape (o : outcome) : option exn :=
  match o with
  | Failed _ => None
  | Received r =>
      if (400 <=? status_code r) && (status_code r <? 600) then None
      else match json r with
           | inl (RequestException _) | inr _ => None
           | inl e => Some e
           end
  end.

(** The row that [fetch_relationship_data] records for a relationship
    whose link met the outcome [o]; no row is recorded when an
    exception escapes, which the empty row stands for. *)
Definition link_row (rel_name : string) (related_link : value) (o : outcome)
  : list (string * value) :=
  let error msg := [("Relationship Name", VStr rel_name);
                    ("Link", related_link);
                    ("Error", VStr msg)] in
  match o with
  | Failed msg => error msg
  | Received r =>
      if (400 <=? status_code r) && (status_code r <? 600) then error (http_error r)
      else match json r with
           | inl (RequestException msg) => error msg
           | inl _ => []
           | inr fetched_data => [("Relationship Name", VStr rel_name);
                                  ("Link", related_link);
                                  ("Data", fetched_data)]
           end
  end.

(** ** The paths that [json_to_dataframe] reads *)

(** Following a path of subscriptions from a value: [v[i1][i2]...]. *)
Definition walk (v : value) (path : list index) : result value :=
  fold_left subscript path (returned v).

(** Every path that the function reads whatever the record holds: the
    three objects it starts from, the path of every column and the
    path of every condition. *)
Definition required_paths : list (list index) :=
  map (map Key) [
   ["data"; "attributes"];
   ["data"; "attributes"; "entity"];
   ["data"; "attributes"; "registration"];
   ["data"; "attributes"; "lei"];
   ["data"; "attributes"; "entity"; "legalName"; "name"];
   ["data"; "attributes"; "entity"; "legalName"; "language"];
   ["data"; "attributes"; "entity"; "transliteratedOtherNames"];
   ["data"; "attributes"; "entity"; "legalAddress"; "addressLines"];
   ["data"; "attributes"; "entity"; "legalAddress"; "language"];
   ["data"; "attributes"; "entity"; "legalAddress"; "city"];
   ["data"; "attributes"; "entity"; "legalAddress"; "region"];
   ["data"; "attributes"; "entity"; "legalAddress"; "country"];
   ["data"; "attributes"; "entity"; "legalAddress"; "postalCode"];
   ["data"; "attributes"; "entity"; "headquartersAddress"; "addressLines"];
   ["data"; "attributes"; "entity"; "headquartersAddress"; "language"];
   ["data"; "attributes"; "entity"; "headquartersAddress"; "city"];
   ["data"; "attributes"; "entity"; "headquartersAddress"; "region"];
   ["data"; "attributes"; "entity"; "headquartersAddress"; "country"];
   ["data"; "attributes"; "entity"; "headquartersAddress"; "postalCode"];
   ["data"; "attributes"; "entity"; "jurisdiction"];
   ["data"; "attributes"; "entity"; "category"];
   ["data"; "attributes"; "entity"; "legalForm"; "id"];
   ["data"; "attributes"; "entity"; "registeredAt"; "id"];
   ["data"; "attributes"; "entity"; "registeredAs"];
   ["data"; "attributes"; "entity"; "status"];
   ["data"; "attributes"; "entity"; "creationDate"];
   ["data"; "attributes"; "entity"; "expiration"; "date"];
   ["data"; "attributes"; "entity"; "expiration"; "reason"];
   ["data"; "attributes"; "entity"; "associatedEntity"; "lei"];
   ["data"; "attributes"; "entity"; "associatedEntity"; "name"];
   ["data"; "attributes"; "bic"];
   ["data"; "attributes"; "mic"];
   ["data"; "attributes"; "ocid"];
   ["data"; "attributes"; "spglobal"];
   ["data"; "attributes"; "conformityFlag"];
   ["data"; "attributes"; "registration"; "initialRegistrationDate"];
   ["data"; "attributes"; "registration"; "lastUpdateDate"];
   ["data"; "attributes"; "registration"; "nextRenewalDate"];
   ["data"; "attributes"; "registration"; "status"];
   ["data"; "attributes"; "registration"; "managingLou"];
   ["data"; "attributes"; "registration"; "corroborationLevel"];
   ["data"; "attributes"; "registration"; "validatedAt"; "id"];
   ["data"; "attributes"; "registration"; "validatedAs"]
  ].

(** The paths read only when the list of transliterated names is not
    empty. *)
Definition conditional_paths : list (list index) :=
  map (fun k => map Key ["data"; "attributes"; "entity"; "transliteratedOtherNames"]
                ++ [Idx 0; Key k])%list
      ["name"; "language"; "type"].

Definition read_paths : list (list index) :=
  (required_paths ++ conditional_paths)%list.

(** A path is absent from a record when following it raises. *)
Definition absent (data : value) (path : list index) : Prop :=
  exists e, walk data path = Raise e.

(** The key [k] is what is missing on one of the paths read: the path
    leads to a dict up to [k], and the dict has no [k]. *)
Definition names_missing_key (data : value) (k : index) : Prop :=
  exists path before after d,
    In path read_paths
    /\ path = (before ++ k :: after)%list
    /\ walk data before = Ok (VDict d)
    /\ getitem (VDict d) k = Raise (KeyError k).

(** What the exception of a failed flattening says: a [TypeError]
    names nothing, a [KeyError] carries the missing key. *)
Definition explained (data : value) (e : exn) : Prop :=
  e = TypeError \/ exists k, e = KeyError k /\ names_missing_key data k.

(** The four forms an entry of the dict display takes, each reading
    one path from one of the three objects. *)
Inductive root : Type := Attributes | Entity | Registration.

Inductive shape : Type :=
| Get (x : root) (ks : list string)                 (* x[k1][k2] *)
| Join (x : root) (ks : list string)                (* ", ".join(x[k1][k2]) *)
| JoinIfAny (x : root) (ks : list string)           (* ", ".join(x[k]) if x[k] else None *)
| FirstIfAny (x : root) (ks : list string) (k : string).  (* x[k][0][k'] if x[k] else None *)

Definition root_value (x : root) (attributes entity registration : value) : value :=
  match x with
  | Attributes => attributes
  | Entity => entity
  | Registration => registration
  end.

Definition root_keys (x : root) : list string :=
  match x with
  | Attributes => ["data"; "attributes"]
  | Entity => ["data"; "attributes"; "entity"]
  | Registration => ["data"; "attributes"; "registration"]
  end.

Definition root_path (x : root) : list index := map Key (root_keys x).

Definition shape_path (sh : shape) : list index :=
  match sh with
  | Get x ks | Join x ks | JoinIfAny x ks | FirstIfAny x ks _ =>
      (root_path x ++ map Key ks)%list
  end.

Definition denote (sh : shape) (attributes entity registration : value) : result value :=
  match sh with
  | Get x ks => walk (root_value x attributes entity registration) (map Key ks)
  | Join x ks => join ", " (walk (root_value x attributes entity registration) (map Key ks))
  | JoinIfAny x ks =>
      let c := walk (root_value x attributes entity registration) (map Key ks) in
      join ", " c IF c ELSE VNone
  | FirstIfAny x ks k =>
      let c := walk (root_value x attributes entity registration) (map Key ks) in
      c.[Idx 0].[k] IF c ELSE VNone
  end.


(** The dict display of [json_to_dataframe], column by column. *)
Definition columns_table : list (string * shape) :=
  [
   ("LEI", Get Attributes ["lei"]);
   ("Legal Name", Get Entity ["legalName"; "name"]);
   ("Legal Name Language", Get Entity ["legalName"; "language"]);
   ("Transliterated Legal Name", FirstIfAny Entity ["transliteratedOtherNames"] "name");
   ("Transliterated Legal Name Language", FirstIfAny Entity ["transliteratedOtherNames"] "language");
   ("Transliterated Legal Name Type", FirstIfAny Entity ["transliteratedOtherNames"] "type");
   ("Legal Address", Join Entity ["legalAddress"; "addressLines"]);
   ("Legal Address Language", Get Entity ["legalAddress"; "language"]);
   ("Legal Address City", Get Entity ["legalAddress"; "city"]);
   ("Legal Address Region", Get Entity ["legalAddress"; "region"]);
   ("Legal Address Country", Get Entity ["legalAddress"; "country"]);
   ("Legal Address Postal Code", Get Entity ["legalAddress"; "postalCode"]);
   ("Headquarters Address", Join Entity ["headquartersAddress"; "addressLines"]);
   ("Headquarters Address Language", Get Entity ["headquartersAddress"; "language"]);
   ("Headquarters Address City", Get Entity ["headquartersAddress"; "city"]);
   ("Headquarters Address Region", Get Entity ["headquartersAddress"; "region"]);
   ("Headquarters Address Country", Get Entity ["headquartersAddress"; "country"]);
   ("Headquarters Address Postal Code", Get Entity ["headquartersAddress"; "postalCode"]);
   ("Jurisdiction", Get Entity ["jurisdiction"]);
   ("Category", Get Entity ["category"]);
   ("Legal Form ID", Get Entity ["legalForm"; "id"]);
   ("Registered At ID", Get Entity ["registeredAt"; "id"]);
   ("Registered As", Get Entity ["registeredAs"]);
   ("Entity Status", Get Entity ["status"]);
   ("Creation Date", Get Entity ["creationDate"]);
   ("Expiration Date", Get Entity ["expiration"; "date"]);
   ("Expiration Reason", Get Entity ["expiration"; "reason"]);
   ("Associated Entity LEI", Get Entity ["associatedEntity"; "lei"]);
   ("Associated Entity Name", Get Entity ["associatedEntity"; "name"]);
   ("BIC Codes", JoinIfAny Attributes ["bic"]);
   ("MIC", Get Attributes ["mic"]);
   ("OCID", Get Attributes ["ocid"]);
   ("SP Global IDs", JoinIfAny Attributes ["spglobal"]);
   ("Conformity Flag", Get Attributes ["conformityFlag"]);
   ("Initial Registration Date", Get Registration ["initialRegistrationDate"]);
   ("Last Update Date", Get Registration ["lastUpdateDate"]);
   ("Next Renewal Date", Get Registration ["nextRenewalDate"]);
   ("Registration Status", Get Registration ["status"]);
   ("Managing LOU", Get Registration ["managingLou"]);
   ("Corroboration Level", Get Registration ["corroborationLevel"]);
   ("Validated At ID", Get Registration ["validatedAt"; "id"]);
   ("Validated As", Get Registration ["validatedAs"])
  ].


(** ** Vocabulary of the further properties *)

(** The columns of the table that [json_to_dataframe] returns, in
    order: the keys of the dict display but ["Legal Name"], which
    becomes the label of the row. *)
Definition flat_columns : list string :=
  ["LEI"; "Legal Name Language";
   "Transliterated Legal Name"; "Transliterated Legal Name Language";
   "Transliterated Legal Name Type";
   "Legal Address"; "Legal Address Language"; "Legal Address City";
   "Legal Address Region"; "Legal Address Country"; "Legal Address Postal Code";
   "Headquarters Address"; "Headquarters Address Language";
   "Headquarters Address City"; "Headquarters Address Region";
   "Headquarters Address Country"; "Headquarters Address Postal Code";
   "Jurisdiction"; "Category"; "Legal Form ID"; "Registered At ID";
   "Registered As"; "Entity Status"; "Creation Date";
   "Expiration Date"; "Expiration Reason";
   "Associated Entity LEI"; "Associated Entity Name";
   "BIC Codes"; "MIC"; "OCID"; "SP Global IDs"; "Conformity Flag";
   "Initial Registration Date"; "Last Update Date"; "Next Renewal Date";
   "Registration Status"; "Managing LOU"; "Corroboration Level";
   "Validated At ID"; "Validated As"].

(** The link of a relationship,
    [rel_data.get("links", {}).get("related")]. *)
Definition related_link (rel_data : value) : result value :=
  links <- dict_get rel_data "links" (VDict []) ;;
  dict_get links "related" VNone.

(** The relationships that have a link, each with its link. *)
Fixpoint linked (items : list (string * value)) : list (string * value) :=
  match items with
  | [] => []
  | (rel_name, rel_data) :: rest =>
      match related_link rel_data with
      | Ok l => if truthy l then (rel_name, l) :: linked rest else linked rest
      | Raise _ => linked rest
      end
  end.

Definition link_request (l : value) : request := {| url := l; headers := [] |}.

(** The rows recorded for the linked relationships when the first of
    their requests is the [n]-th of the run. *)
Fixpoint link_rows (net : nat -> request -> outcome) (n : nat)
  (links : list (string * value)) : list (list (string * value)) :=
  match links with
  | [] => []
  | (rel_name, l) :: rest =>
      link_row rel_name l (net n (link_request l)) :: link_rows net (S n) rest
  end.

(** No request of the links lets an exception escape, the first of
    these requests being the [n]-th of the run. *)
Fixpoint links_answered (net : nat -> request -> outcome) (n : nat)
  (links : list (string * value)) : Prop :=
  match links with
  | [] => True
  | (_, l) :: rest =>
      link_escape (net n (link_request l)) = None /\ links_answered net (S n) rest
  end.

(** What the link of a relationship delivers: the parsed body, unless
    the request fails, the status is 400 to 599 or the body does not
    parse. *)
Definition delivered (o : outcome) : option value :=
  match o with
  | Failed _ => None
  | Received r =>
      if (400 <=? status_code r) && (status_code r <? 600) then None
      else match json r with
           | inl _ => None
           | inr fetched_data => Some fetched_data
           end
  end.

(** What [get_lei_information] makes of the outcome of its request:
    only an exception of the decoder that is no [RequestException]
    escapes it. *)
Definition fetched (o : outcome) : result value :=
  match o with
  | Failed msg => Ok (request_error msg)
  | Received r =>
      if status_code r =? 200 then
        match json r with
        | inr v => Ok v
        | inl (RequestException msg) => Ok (request_error msg)
        | inl e => Raise e
        end
      else Ok (upstream_error r)
  end.

(** A row of the table of relationships: the name, the link, and
    either the payload under ["Data"] or a text under ["Error"]. *)
Definition relationship_row (cells : list (string * value)) : Prop :=
  exists rel_name l,
    dict_lookup "Relationship Name" cells = Some (VStr rel_name)
    /\ dict_lookup "Link" cells = Some l
    /\ truthy l = true
    /\ ((exists payload, dict_lookup "Data" cells = Some payload
                         /\ dict_lookup "Error" cells = None)
        \/ (exists msg, dict_lookup "Error" cells = Some (VStr msg)
                        /\ dict_lookup "Data" cells = None)).

(** An exception that is not a [RequestException]. *)
Definition not_request (e : exn) : Prop := forall msg, e <> RequestException msg.




(** The fetch of the identifier delivers [data] and the page takes it
    for a record: status 200, a body that parses to [data], and no
    ["error"] in it. *)
Definition record_fetched (net : nat -> request -> outcome) (py_str : value -> string)
  (input_lei : string) (w : world) (data : value) : Prop :=
  exists r, net (requests_sent w) (lei_request (py_str (VStr input_lei))) = Received r
            /\ status_code r = 200
            /\ json r = inr data
            /\ contains data "error" = Ok false.

(** The relationships of a record: objects whose links, if any, are
    an object. *)
Definition relationships_of (data : value) (rels : list (string * value)) : Prop :=
  (d <- data.["data"] ;; dict_get d "relationships" (VDict [])) = Ok (VDict rels)
  /\ forall rel_name rel_data, In (rel_name, rel_data) rels ->
                               exists l, related_link rel_data = Ok l.

(** The effects of a lookup up to the relationships, for a record
    that flattens to [company_df]. *)
Definition company_shown (lei : string) (company_df : DataFrame) : list event :=
  (page_header
   ++ [StSpinner "Retrieving data...";
       HttpGet (lei_request lei);
       StSubheader "Company Information";
       StDataframe company_df;
       StSubheader "Company Relationships"])%list.

(** ** Sample data *)

Module Sample.

(** The identifier looked up, and the one of a related entity. *)
Definition lei : string := "529900W18LQJJN6SJ336".
Definition lou_lei : string := "5299000J2N45DDNE4Y28".
Definition parent_lei : string := "529900T8BM49AURSDO55".

Definition address (lines : value) : value :=
  VDict [("language", VStr "de");
         ("addressLines", lines);
         ("city", VStr "Frankfurt");
         ("region", VStr "DE-HE");
         ("country", VStr "DE");
         ("postalCode", VStr "60311")].

Definition entity (names lines legal_form : value) : value :=
  VDict [("legalName", VDict [("name", VStr "Muster AG"); ("language", VStr "de")]);
         ("transliteratedOtherNames", names);
         ("legalAddress", address lines);
         ("headquartersAddress", address (VList [VStr "Hauptstrasse 1"]));
         ("jurisdiction", VStr "DE");
         ("category", VStr "GENERAL");
         ("legalForm", legal_form);
         ("registeredAt", VDict [("id", VStr "RA000242"); ("other", VNone)]);
         ("registeredAs", VStr "HRB 12345");
         ("status", VStr "ACTIVE");
         ("creationDate", VStr "1999-04-01T00:00:00Z");
         ("expiration", VDict [("date", VNone); ("reason", VNone)]);
         ("associatedEntity", VDict [("lei", VNone); ("name", VNone)])].

Definition registration : value :=
  VDict [("initialRegistrationDate", VStr "2014-01-27T00:00:00Z");
         ("lastUpdateDate", VStr "2024-02-01T00:00:00Z");
         ("status", VStr "ISSUED");
         ("nextRenewalDate", VStr "2025-02-01T00:00:00Z");
         ("managingLou", VStr "5299000J2N45DDNE4Y28");
         ("corroborationLevel", VStr "FULLY_CORROBORATED");
         ("validatedAt", VDict [("id", VStr "RA000242"); ("other", VNone)]);
         ("validatedAs", VStr "HRB 12345")].

(** The attributes of a record; [codes] holds the entries for ["bic"]
    and ["spglobal"], if any. *)
Definition attributes (ent : value) (codes : list (string * value)) : value :=
  VDict ([("lei", VStr lei);
          ("entity", ent);
          ("registration", registration)]
         ++ codes
         ++ [("mic", VNone);
             ("ocid", VNone);
             ("conformityFlag", VStr "CONFORMING")])%list.

(** A record with the shape of a GLEIF answer. *)
Definition record_of (attrs : value) (rels : list (string * value)) : value :=
  VDict [("meta", VDict []);
         ("data",
            VDict ([("type", VStr "lei-records");
                    ("id", VStr lei);
                    ("attributes", attrs)]
                   ++ rels)%list)].

Definition names : value :=
  VList [VDict [("name", VStr "MUSTER AG"); ("language", VStr "en");
                ("type", VStr "AUTO_ASCII_TRANSLITERATED_LEGAL_NAME")];
         VDict [("name", VStr "MUSTER"); ("language", VStr "fr");
                ("type", VStr "PREFERRED_ASCII_TRANSLITERATED_LEGAL_NAME")]].

Definition lines : value := VList [VStr "Hauptstrasse 1"; VStr "2. Stock"].

Definition legal_form : value := VDict [("id", VStr "6QQB"); ("other", VNone)].

Definition codes : list (string * value) :=
  [("bic", VList [VStr "MUSTDEFFXXX"; VStr "MUSTDEFF500"]);
   ("spglobal", VList [VStr "4295869482"])].

Definition link (u : string) : value :=
  VDict [("links", VDict [("related", VStr u)])].

Definition relationships : list (string * value) :=
  [("relationships",
      VDict [("managing-lou", link "https://api.gleif.org/lou");
             ("direct-parent", link "https://api.gleif.org/parent")])].

(** A complete record. *)
Definition record : value :=
  record_of (attributes (entity names lines legal_form) codes) relationships.

(** Its lists are all empty. *)
Definition record_empty_lists : value :=
  record_of (attributes (entity (VList []) (VList []) legal_form)
                        [("bic", VList []); ("spglobal", VList [])]) [].

(** The API's way of saying that there are no codes: [null]. *)
Definition record_null_codes : value :=
  record_of (attributes (entity names lines legal_form)
                        [("bic", VNone); ("spglobal", VNone)]) [].

(** The key ["bic"] is missing. *)
Definition record_without_bic : value :=
  record_of (attributes (entity names lines legal_form)
                        [("spglobal", VList [])]) [].

(** The legal form is [null], so that [entity.legalForm.id] is absent. *)
Definition record_null_legal_form : value :=
  record_of (attributes (entity names lines VNone) codes) [].

(** What the relationship links answer: the managing LOU as one
    object, the parent as a list that also names the entity itself. *)
Definition entry (id : string) : value :=
  VDict [("type", VStr "lei-records"); ("id", VStr id);
         ("attributes", VDict [("lei", VStr id)])].

Definition lou_payload : value := VDict [("data", entry lou_lei)].

Definition parent_payload : value :=
  VDict [("data", VList [entry parent_lei; entry lei; entry lou_lei])].

(** A body with status 200 that carries a key ["error"]. *)
Definition error_body : list (string * value) :=
  [("error", VStr "maintenance"); ("data", VList [])].

(** The record of the related entity: nothing about it matters here
    but that it flattens. *)
Definition lou_record : value := record_empty_lists.

(** [str(v)] for the samples, which only format strings. *)
Definition str (v : value) : string :=
  match v with
  | VStr s => s
  | _ => empty
  end.

(** A response with status 200 and the given parsed body. *)
Definition ok (body : value) : outcome :=
  Received {| status_code := 200; text := "{...}"; json := inr body; http_error := empty |}.

Definition not_found : outcome :=
  Received {| status_code := 404;
              text := "Not Found";
              json := inl (RequestException "Expecting value: line 1 column 1 (char 0)");
              http_error := "404 Client Error: Not Found for url: https://api.gleif.org/parent" |}.

Definition unreachable : outcome :=
  Failed "HTTPSConnectionPool(host='api.gleif.org', port=443): Max retries exceeded".

(** A server that knows the two records and the two links; [parent]
    is what the parent link answers. *)
Definition net (parent : outcome) (n : nat) (req : request) : outcome :=
  match url req with
  | VStr u =>
      if String.eqb u ("https://api.gleif.org/api/v1/lei-records/" ++ lei) then ok record
      else if String.eqb u ("https://api.gleif.org/api/v1/lei-records/" ++ lou_lei)
           then ok lou_record
      else if String.eqb u "https://api.gleif.org/lou" then ok lou_payload
      else if String.eqb u "https://api.gleif.org/parent" then parent
      else not_found
  | _ => Failed "Invalid URL"
  end.

(** A network on which every request meets the same outcome. *)
Definition always (o : outcome) (n : nat) (req : request) : outcome := o.

(** The table a record flattens to (no row if it does not). *)
Definition flattened (data : value) : DataFrame :=
  match json_to_dataframe data with
  | Ok df => df
  | Raise _ => []
  end.


(** A payload whose identifier is a list. *)
Definition odd_payload : value :=
  VDict [("data", VDict [("attributes", VDict [("lei", VList [VStr lou_lei])])])].

(** Status 200 with a body that is no JSON. *)
Definition garbled : outcome :=
  Received {| status_code := 200;
              text := "<html>";
              json := inl (RequestException "Expecting value: line 1 column 1 (char 0)");
              http_error := empty |}.

(** A server that knows the record and nothing else. *)
Definition links_down (n : nat) (req : request) : outcome :=
  match url req with
  | VStr u =>
      if String.eqb u ("https://api.gleif.org/api/v1/lei-records/" ++ lei) then ok record
      else not_found
  | _ => Failed "Invalid URL"
  end.


(** Status 200 with a body that the decoder refuses with an exception
    of its own: an integer of five thousand digits. *)
Definition oversized : outcome :=
  Received {| status_code := 200;
              text := "{...}";
              json := inl ValueError;
              http_error := empty |}.

(** A display that refuses what the [Styler] of pandas refuses, a
    table with a label that cannot be hashed or with a label that
    repeats, and shows every other table. *)
Fixpoint repeats (labels : list value) : bool :=
  match labels with
  | [] => false
  | l :: rest => existsb (same_element l) rest || repeats rest
  end.

Definition styler (df : DataFrame) : option exn :=
  let labels := map row_index df in
  if forallb (fun l => match hash_key l with Some _ => true | None => false end) labels
  then if repeats labels then Some ValueError else None
  else Some TypeError.

(** The legal name is a list. *)
Definition record_odd_name : value :=
  VDict [("data",
          VDict [("attributes",
                  VDict [("lei", VStr lei);
                         ("entity",
                          VDict [("legalName", VDict [("name", VList [VStr "Muster AG"]);
                                                      ("language", VStr "de")]);
                                 ("transliteratedOtherNames", VList []);
                                 ("legalAddress", address (VList []));
                                 ("headquartersAddress", address (VList []));
                                 ("jurisdiction", VStr "DE");
                                 ("category", VStr "GENERAL");
                                 ("legalForm", legal_form);
                                 ("registeredAt", VDict [("id", VStr "RA000242")]);
                                 ("registeredAs", VStr "HRB 12345");
                                 ("status", VStr "ACTIVE");
                                 ("creationDate", VStr "1999-04-01T00:00:00Z");
                                 ("expiration", VDict [("date", VNone); ("reason", VNone)]);
                                 ("associatedEntity", VDict [("lei", VNone); ("name", VNone)])]);
                         ("registration", registration);
                         ("bic", VNone); ("mic", VNone); ("ocid", VNone);
                         ("spglobal", VNone);
                         ("conformityFlag", VStr "CONFORMING")])])].

End Sample.

(** * Properties *)

(** ** The error monad *)

Lemma bind_ok {A B : Type} (m : result A) (k : A -> result B) (b : B) :
  (x <- m ;; k x) = Ok b -> exists a, m = Ok a /\ k a = Ok b.
Proof.
  destruct m as [a | e]; simpl; intros H; [eauto | discriminate].
Qed.

Lemma bind_raise {A B : Type} (m : result A) (k : A -> result B) (e : exn) :
  (x <- m ;; k x) = Raise e -> m = Raise e \/ exists a, m = Ok a /\ k a = Raise e.
Proof.
  destruct m as [a | e']; simpl; intros H; [right; eauto | left; congruence].
Qed.

Ltac bind_inv H :=
  let a := fresh "a" in
  let Ha := fresh "Ha" in
  apply bind_ok in H; destruct H as (a & Ha & H).

(** ** Loops *)

Lemma for_each_invariant {A S : Type} (P : S -> Prop) (body : S -> A -> result S) :
  (forall s x s', P s -> body s x = Ok s' -> P s') ->
  forall xs s s', P s -> for_each xs s body = Ok s' -> P s'.
Proof.
  intros Hbody xs; induction xs as [| x xs IH]; simpl; intros s s' Hs H.
  - congruence.
  - bind_inv H. eauto.
Qed.

Lemma for_each_invariant_in {A S : Type} (P : S -> Prop) (body : S -> A -> result S)
  (xs : list A) :
  (forall s x s', In x xs -> P s -> body s x = Ok s' -> P s') ->
  forall s s', P s -> for_each xs s body = Ok s' -> P s'.
Proof.
  induction xs as [| x xs IH]; simpl; intros Hbody s s' Hs H.
  - congruence.
  - bind_inv H. apply (IH (fun s x0 s' Hin => Hbody s x0 s' (or_intror Hin)) a s').
    + apply (Hbody s x a); auto.
    + exact H.
Qed.

Lemma for_each_total {A S : Type} (body : S -> A -> result S) (xs : list A) :
  (forall s x, In x xs -> exists s', body s x = Ok s') ->
  forall s, exists s', for_each xs s body = Ok s'.
Proof.
  induction xs as [| x xs IH]; simpl; intros Hbody s.
  - eauto.
  - destruct (Hbody s x (or_introl eq_refl)) as [s1 ->]. simpl. eauto.
Qed.

Lemma for_each_raise_in {A S : Type} (body : S -> A -> result S) (e : exn) (bad : A) :
  (forall s, body s bad = Raise e) ->
  (forall s x e', body s x = Raise e' -> e' = e) ->
  forall xs s, In bad xs -> for_each xs s body = Raise e.
Proof.
  intros Hbad Honly xs; induction xs as [| x xs IH]; simpl; intros s Hin.
  - contradiction.
  - destruct (body s x) as [s' | e'] eqn:Hx; simpl.
    + destruct Hin as [-> | Hin]; [rewrite Hbad in Hx; discriminate | auto].
    + f_equal; eauto.
Qed.

(** ** Sets *)

Lemma hkey_eqb_refl (a : hkey) : hkey_eqb a a = true.
Proof.
  destruct a; simpl; auto using Qeq_bool_refl, eqb_reflx, String.eqb_refl.
Qed.

Lemma hkey_eqb_sym (a b : hkey) : hkey_eqb a b = hkey_eqb b a.
Proof.
  destruct a, b; simpl; auto using Qeq_bool_comm, String.eqb_sym.
  destruct negative, negative0; reflexivity.
Qed.

Lemma hkey_eqb_trans (a b c : hkey) :
  hkey_eqb a b = true -> hkey_eqb b c = true -> hkey_eqb a c = true.
Proof.
  destruct a, b, c; simpl; try congruence.
  - intros H1 H2. apply Qeq_bool_iff in H1, H2. apply Qeq_bool_iff.
    now rewrite H1.
  - intros H1 H2. apply eqb_prop in H1, H2. subst. apply eqb_reflx.
  - intros H1 H2. apply String.eqb_eq in H1, H2. subst. apply String.eqb_refl.
Qed.

Lemma same_element_sym (a b : value) : same_element a b = same_element b a.
Proof.
  unfold same_element. destruct (hash_key a), (hash_key b); auto using hkey_eqb_sym.
Qed.

Lemma same_element_trans (a b c : value) :
  same_element a b = true -> same_element b c = true -> same_element a c = true.
Proof.
  unfold same_element.
  destruct (hash_key a), (hash_key b), (hash_key c); try congruence.
  apply hkey_eqb_trans.
Qed.

Lemma same_element_refl (a : value) :
  hash_key a <> None -> same_element a a = true.
Proof.
  unfold same_element. destruct (hash_key a); [intros _; apply hkey_eqb_refl | congruence].
Qed.

Lemma same_element_hashable (a b : value) :
  same_element a b = true -> hash_key a <> None /\ hash_key b <> None.
Proof.
  unfold same_element. destruct (hash_key a), (hash_key b); try discriminate.
  split; discriminate.
Qed.

(** For an identifier, being the same element is being the same string. *)
Lemma same_element_str (s : string) (v : value) :
  same_element (VStr s) v = true <-> v = VStr s.
Proof.
  unfold same_element; simpl. split.
  - destruct v as [| b | z | [q | n |] | t | l | d]; simpl; try discriminate.
    intros H. apply String.eqb_eq in H. now subst.
  - intros ->. simpl. apply String.eqb_refl.
Qed.

Lemma distinct_snoc (l : list value) (x : value) :
  distinct l -> hash_key x <> None -> existsb (same_element x) l = false ->
  distinct (l ++ [x]).
Proof.
  intros Hl Hx Hnew. induction Hl as [| y l Hy Hfresh Hl IH]; simpl in *.
  - constructor; [assumption | intros ? [] | constructor].
  - apply orb_false_elim in Hnew as [Hxy Hnew].
    constructor; auto.
    intros z Hz. apply in_app_or in Hz as [Hz | [<- | []]]; auto.
    now rewrite same_element_sym.
Qed.

Lemma distinct_Permutation (l l' : list value) :
  Permutation l l' -> distinct l -> distinct l'.
Proof.
  induction 1 as [| x l l' Hp IH | x y l | l l' l'' _ IH1 _ IH2]; intros Hd.
  - assumption.
  - inversion Hd; subst. constructor; auto.
    intros y Hy. eauto using Permutation_in, Permutation_sym.
  - inversion Hd as [| ? ? Hy Hfy Hd']; subst.
    inversion Hd' as [| ? ? Hx Hfx Hd'']; subst.
    constructor; [assumption | | constructor; auto].
    + intros z [<- | Hz]; [| auto].
      rewrite same_element_sym. apply Hfy. now left.
    + intros z Hz. apply Hfy. now right.
  - auto.
Qed.

Lemma distinct_NoDup (l : list value) : distinct l -> NoDup l.
Proof.
  induction 1 as [| x l Hx Hfresh _ IH]; constructor; auto.
  intros Hin. apply Hfresh in Hin. rewrite same_element_refl in Hin; congruence.
Qed.

Lemma filter_none {A : Type} (f : A -> bool) (l : list A) :
  (forall y, In y l -> f y = false) -> filter f l = [].
Proof.
  induction l as [| x l IH]; simpl; intros H; [reflexivity |].
  rewrite (H x (or_introl eq_refl)). auto.
Qed.

(** A member occurs once: no other member is the same element. *)
Lemma distinct_count (l : list value) (v m : value) :
  distinct l -> In m l -> same_element v m = true ->
  length (filter (same_element v) l) = 1%nat.
Proof.
  intros Hd; revert m. induction Hd as [| x l Hx Hfresh Hd IH]; intros m Hin Hvm.
  - contradiction.
  - simpl. destruct Hin as [-> | Hin].
    + rewrite Hvm. simpl. f_equal.
      rewrite filter_none; [reflexivity |].
      intros y Hy. destruct (same_element v y) eqn:Hvy; [| reflexivity].
      rewrite <- (Hfresh y Hy). symmetry.
      rewrite same_element_sym in Hvm. eauto using same_element_trans.
    + destruct (same_element v x) eqn:Hvx; [| eauto].
      exfalso. specialize (Hfresh m Hin).
      rewrite same_element_sym in Hvx.
      rewrite (same_element_trans _ _ _ Hvx Hvm) in Hfresh. discriminate.
Qed.

Lemma filter_length_Permutation {A : Type} (f : A -> bool) (l l' : list A) :
  Permutation l l' -> length (filter f l) = length (filter f l').
Proof.
  induction 1; simpl; try congruence.
  - destruct (f x); simpl; congruence.
  - destruct (f x), (f y); reflexivity.
Qed.

(** What [set(l)] holds when [l] is added to [members]. *)
Lemma set_add_all_spec (l members out : list value) :
  set_add_all members l = Ok out ->
  distinct members ->
  distinct out
  /\ (forall m, In m out -> In m members \/ In m l)
  /\ (forall x, In x members \/ In x l -> exists m, In m out /\ same_element x m = true).
Proof.
  revert members. induction l as [| x l IH]; simpl; intros members H Hd.
  - injection H as <-. split; [assumption |]. split; [auto |].
    intros x [Hx | []]. exists x. split; [assumption |].
    clear -Hd Hx. induction Hd as [| y l Hy _ _ IH]; [contradiction |].
    destruct Hx as [-> | Hx]; auto using same_element_refl.
  - destruct (hash_key x) as [k |] eqn:Hk; [| discriminate].
    destruct (existsb (same_element x) members) eqn:Hex.
    + destruct (IH _ H Hd) as (Hout & Hsub & Hall).
      split; [assumption |]. split.
      * intros m Hm. destruct (Hsub m Hm); auto.
      * intros y [Hy | [<- | Hy]]; auto.
        apply existsb_exists in Hex as (m & Hm & Hxm).
        destruct (Hall m (or_introl Hm)) as (m' & Hm' & Hmm').
        exists m'. eauto using same_element_trans.
    + assert (Hd' : distinct (members ++ [x])).
      { apply distinct_snoc; auto. congruence. }
      destruct (IH _ H Hd') as (Hout & Hsub & Hall).
      split; [assumption |]. split.
      * intros m Hm. destruct (Hsub m Hm) as [Hin | Hin]; auto.
        apply in_app_or in Hin as [Hin | [<- | []]]; auto.
      * intros y [Hy | [<- | Hy]]; apply Hall; auto using in_or_app.
        left. apply in_or_app. right. now left.
Qed.

Lemma py_set_spec (l out : list value) :
  py_set l = Ok out ->
  distinct out
  /\ (forall m, In m out -> In m l)
  /\ (forall x, In x l -> exists m, In m out /\ same_element x m = true).
Proof.
  intros H. destruct (set_add_all_spec _ _ _ H distinct_nil) as (Hd & Hsub & Hall).
  split; [assumption |]. split.
  - intros m Hm. destruct (Hsub m Hm) as [[] | ?]; assumption.
  - intros x Hx. apply Hall. now right.
Qed.

(** A set of hashable values can always be built. *)
Lemma py_set_total (l : list value) :
  Forall (fun v => hash_key v <> None) l -> exists out, py_set l = Ok out.
Proof.
  intros H. unfold py_set. generalize (@nil value).
  induction H as [| x l Hx _ IH]; simpl; intros members.
  - eauto.
  - destruct (hash_key x); [| congruence].
    destruct (existsb (same_element x) members); auto.
Qed.

Lemma for_each_member {A S : Type} (body : S -> A -> result S) (R : A -> S -> Prop) :
  (forall s x s', body s x = Ok s' -> R x s') ->
  (forall x s y s', R x s -> body s y = Ok s' -> R x s') ->
  forall xs s s' x, In x xs -> for_each xs s body = Ok s' -> R x s'.
Proof.
  intros Hnew Hkeep xs; induction xs as [| y xs IH]; simpl; intros s s' x Hin H.
  - contradiction.
  - bind_inv H. destruct Hin as [-> | Hin]; [| eauto].
    apply Hnew in Ha. clear IH. revert a Ha H.
    induction xs as [| z xs IH]; simpl; intros a Ha H.
    + congruence.
    + bind_inv H. eauto.
Qed.

(** ** [extract_related_leis]: what the loop collects *)

Lemma kept_not_input (input_lei : string) (v : value) :
  kept input_lei v -> v <> VStr input_lei /\ v <> VNone /\ v <> VStr empty.
Proof.
  intros [Ht Hne]. repeat split; intros ->; simpl in *; try discriminate.
  rewrite String.eqb_refl in Hne. discriminate.
Qed.

Lemma collect_lei_kept (input_lei : string) (acc acc' : list value) (entry : value) :
  Forall (kept input_lei) acc -> collect_lei input_lei acc entry = Ok acc' ->
  Forall (kept input_lei) acc'.
Proof.
  unfold collect_lei. intros Hacc H. bind_inv H. bind_inv H.
  destruct (truthy a0 && negb (eq_str a0 input_lei)) eqn:Htest;
    simpl in H; injection H as <-; [| assumption].
  apply andb_prop in Htest as [Ht Hne]. apply negb_true_iff in Hne.
  apply Forall_app. split; [assumption |]. repeat constructor; assumption.
Qed.

Lemma collect_relationship_kept (input_lei : string) (acc acc' : list value)
  (relationship : value) :
  Forall (kept input_lei) acc -> collect_relationship input_lei acc relationship = Ok acc' ->
  Forall (kept input_lei) acc'.
Proof.
  unfold collect_relationship. intros Hacc H. bind_inv H.
  destruct a as [| b | z | f | s | entries | d]; simpl in H;
    try (injection H as <-; assumption).
  - eapply (for_each_invariant (Forall (kept input_lei))); eauto using collect_lei_kept.
  - eauto using collect_lei_kept.
Qed.

Lemma collected_leis_kept (relationship_data leis : list value) (input_lei : string) :
  collected_leis relationship_data input_lei = Ok leis -> Forall (kept input_lei) leis.
Proof.
  unfold collected_leis. intros H.
  eapply (for_each_invariant (Forall (kept input_lei))); eauto using collect_relationship_kept.
Qed.

Lemma collect_lei_incl (input_lei : string) (acc acc' : list value) (entry : value) :
  collect_lei input_lei acc entry = Ok acc' -> incl acc acc'.
Proof.
  unfold collect_lei. intros H. bind_inv H. bind_inv H.
  destruct (truthy a0 && negb (eq_str a0 input_lei)); simpl in H; injection H as <-.
  - apply incl_appl, incl_refl.
  - apply incl_refl.
Qed.

Lemma collect_lei_adds (input_lei : string) (acc acc' : list value) (entry lei : value) :
  collect_lei input_lei acc entry = Ok acc' ->
  entry_lei entry = Ok lei -> kept input_lei lei -> In lei acc'.
Proof.
  unfold collect_lei, entry_lei. intros H Hlei [Ht Hne].
  bind_inv H. rewrite Ha in Hlei. simpl in Hlei. rewrite Hlei in H. simpl in H.
  rewrite Ht, Hne in H. simpl in H. injection H as <-.
  apply in_or_app. right. now left.
Qed.

Lemma collect_relationship_incl (input_lei : string) (acc acc' : list value)
  (relationship : value) :
  collect_relationship input_lei acc relationship = Ok acc' -> incl acc acc'.
Proof.
  unfold collect_relationship. intros H. bind_inv H.
  destruct a as [| b | z | f | s | entries | d]; simpl in H;
    try (injection H as <-; apply incl_refl).
  - revert H. apply (for_each_invariant (incl acc)); [| apply incl_refl].
    intros s x s' Hs Hx. eapply incl_tran; eauto using collect_lei_incl.
  - eauto using collect_lei_incl.
Qed.

Lemma collect_relationship_adds (input_lei : string) (acc acc' : list value)
  (relationship lei : value) :
  collect_relationship input_lei acc relationship = Ok acc' ->
  mentions relationship lei -> kept input_lei lei -> In lei acc'.
Proof.
  unfold collect_relationship, mentions, payload_entries.
  intros H (entry & Hentry & Hlei) Hkept. bind_inv H. rewrite Ha in Hentry.
  destruct a as [| b | z | f | s | entries | d]; simpl in Hentry; try contradiction.
  - eapply (for_each_member (collect_lei input_lei)
              (fun e acc => forall lei, entry_lei e = Ok lei -> kept input_lei lei -> In lei acc));
      eauto using collect_lei_adds.
    intros x s y s' Hx Hy lei' Hlei' Hkept'.
    eapply collect_lei_incl; eauto.
  - destruct Hentry as [<- | []]. eauto using collect_lei_adds.
Qed.

(** Every identifier that a payload mentions and the test lets through
    is collected. *)
Lemma collected_leis_complete (relationship_data leis : list value) (input_lei : string)
  (relationship lei : value) :
  collected_leis relationship_data input_lei = Ok leis ->
  In relationship relationship_data -> mentions relationship lei -> kept input_lei lei ->
  In lei leis.
Proof.
  unfold collected_leis. intros H Hin Hm Hkept.
  eapply (for_each_member (collect_relationship input_lei)
            (fun r acc => forall lei, mentions r lei -> kept input_lei lei -> In lei acc));
    eauto using collect_relationship_adds.
  intros x s y s' Hx Hy lei' Hm' Hkept'.
  eapply collect_relationship_incl; eauto.
Qed.

(** Conversely, whatever is collected is an identifier that some
    payload mentions. *)
Lemma collect_lei_sound (input_lei : string) (acc acc' : list value) (entry v : value) :
  collect_lei input_lei acc entry = Ok acc' -> In v acc' ->
  In v acc \/ entry_lei entry = Ok v.
Proof.
  unfold collect_lei, entry_lei. intros H Hv. bind_inv H. rewrite Ha. simpl.
  bind_inv H. rewrite Ha0.
  destruct (truthy a0 && negb (eq_str a0 input_lei)); simpl in H; injection H as <-.
  - apply in_app_or in Hv as [Hv | [<- | []]]; auto.
  - auto.
Qed.

Lemma collect_relationship_sound (input_lei : string) (acc acc' : list value)
  (relationship v : value) :
  collect_relationship input_lei acc relationship = Ok acc' -> In v acc' ->
  In v acc \/ mentions relationship v.
Proof.
  unfold collect_relationship, mentions, payload_entries. intros H Hv. bind_inv H.
  rewrite Ha.
  destruct a as [| b | z | f | s | entries | d]; simpl in H;
    try (injection H as <-; auto; fail).
  - revert Hv. revert H.
    apply (for_each_invariant_in
             (fun acc' => In v acc' ->
                          In v acc \/ exists entry, In entry entries /\ entry_lei entry = Ok v));
      [| auto].
    intros s x s' Hx Hs Hbody Hv.
    destruct (collect_lei_sound _ _ _ _ _ Hbody Hv) as [Hold | Hnew]; eauto.
  - destruct (collect_lei_sound _ _ _ _ _ H Hv) as [Hold | Hnew]; [auto |].
    right. exists (VDict d). split; [now left | assumption].
Qed.

Lemma collected_leis_sound (relationship_data leis : list value) (input_lei : string)
  (v : value) :
  collected_leis relationship_data input_lei = Ok leis -> In v leis ->
  exists relationship, In relationship relationship_data /\ mentions relationship v.
Proof.
  unfold collected_leis. intros H. revert H.
  apply (for_each_invariant_in
           (fun leis => In v leis ->
                        exists relationship,
                          In relationship relationship_data /\ mentions relationship v)).
  - intros s x s' Hx Hs Hbody Hv.
    destruct (collect_relationship_sound _ _ _ _ _ Hbody Hv) as [Hold | Hnew]; eauto.
  - intros [].
Qed.

(** On payloads of the expected shape the loop runs to its end. *)
Lemma collect_lei_total (input_lei : string) (acc : list value) (entry lei : value) :
  entry_lei entry = Ok lei -> exists acc', collect_lei input_lei acc entry = Ok acc'.
Proof.
  unfold collect_lei, entry_lei. intros H. bind_inv H. rewrite Ha. simpl. rewrite H. simpl.
  destruct (truthy lei && negb (eq_str lei input_lei)); eauto.
Qed.

Lemma collect_relationship_total (input_lei : string) (acc : list value)
  (relationship : value) :
  well_shaped relationship ->
  exists acc', collect_relationship input_lei acc relationship = Ok acc'.
Proof.
  unfold well_shaped, collect_relationship, payload_entries.
  intros [[d ->] Hentries]. simpl in *.
  destruct (match dict_lookup "data" d with Some x => x | None => VNone end)
    as [| b | z | f | s | entries | d']; simpl; eauto.
  - apply for_each_total. intros s x Hx.
    destruct (Hentries x Hx) as (lei & Hlei & _). eauto using collect_lei_total.
  - destruct (Hentries (VDict d') (or_introl eq_refl)) as (lei & Hlei & _).
    eauto using collect_lei_total.
Qed.

(** A cell that is not a dict stops the extraction: [relationship.get]
    raises [AttributeError], and nothing else is ever raised by the loop. *)
Lemma collect_lei_raises (input_lei : string) (acc : list value) (entry : value) (e : exn) :
  collect_lei input_lei acc entry = Raise e -> e = AttributeError.
Proof.
  unfold collect_lei. intros H.
  destruct entry; simpl in H; try congruence.
  destruct (match dict_lookup "attributes" d with Some x => x | None => VDict [] end);
    simpl in H; try congruence;
  match type of H with context [if ?c then _ else _] => destruct c end; discriminate.
Qed.

Lemma collect_relationship_raises (input_lei : string) (acc : list value)
  (relationship : value) (e : exn) :
  collect_relationship input_lei acc relationship = Raise e -> e = AttributeError.
Proof.
  unfold collect_relationship. intros H.
  destruct relationship; simpl in H; try congruence.
  destruct (match dict_lookup "data" d with Some x => x | None => VNone end);
    simpl in H; try discriminate.
  - revert acc H. induction l as [| x l IH]; simpl; intros acc H; [discriminate |].
    apply bind_raise in H as [H | (a & _ & H)]; eauto using collect_lei_raises.
  - eauto using collect_lei_raises.
Qed.

Lemma collected_leis_NaN (relationship_data : list value) (input_lei : string) :
  In NaN relationship_data ->
  collected_leis relationship_data input_lei = Raise AttributeError.
Proof.
  unfold collected_leis. apply for_each_raise_in.
  - reflexivity.
  - eauto using collect_relationship_raises.
Qed.

(** ** Dict displays and one-row tables *)

Lemma dict_display_keys (entries : list (string * result value)) (d : list (string * value)) :
  dict_display entries = Ok d -> dict_keys d = map fst entries.
Proof.
  revert d. induction entries as [| [k e] rest IH]; simpl; intros d H.
  - now injection H as <-.
  - bind_inv H. bind_inv H. injection H as <-. simpl. f_equal. auto.
Qed.

Lemma dict_display_lookup (entries : list (string * result value)) (d : list (string * value))
  (k : string) (e : result value) :
  dict_display entries = Ok d -> entry_of k entries = Some e ->
  exists v, e = Ok v /\ dict_lookup k d = Some v.
Proof.
  revert d. induction entries as [| [k' e'] rest IH]; simpl; intros d H Hk.
  - discriminate.
  - bind_inv H. bind_inv H. injection H as <-. simpl.
    destruct (String.eqb k k'); [injection Hk as <-; eauto | eauto].
Qed.

Lemma dict_display_total (entries : list (string * result value)) :
  Forall (fun ke => exists v, snd ke = Ok v) entries ->
  exists d, dict_display entries = Ok d.
Proof.
  induction 1 as [| [k e] rest [v Hv] _ [d IH]]; simpl in *.
  - eauto.
  - subst e. simpl. rewrite IH. simpl. eauto.
Qed.

Lemma dict_display_raise (entries : list (string * result value)) (e : exn) :
  dict_display entries = Raise e -> exists k, In (k, Raise e) entries.
Proof.
  induction entries as [| [k x] rest IH]; simpl; intros H.
  - discriminate.
  - apply bind_raise in H as [-> | (v & -> & H)]; [eauto |].
    apply bind_raise in H as [H | (d & _ & H)]; [| discriminate].
    destruct (IH H) as [k' Hk']. eauto.
Qed.

Lemma mem_string_In (k : string) (l : list string) : mem_string k l = true <-> In k l.
Proof.
  unfold mem_string. rewrite existsb_exists. split.
  - intros (x & Hx & Heq). apply String.eqb_eq in Heq. now subst.
  - intros H. exists k. split; [assumption | apply String.eqb_refl].
Qed.

Lemma add_columns_seen (k : string) (keys seen : list string) :
  In k seen -> In k (add_columns seen keys).
Proof.
  revert seen. induction keys as [| k' keys IH]; simpl; intros seen H; [assumption |].
  destruct (mem_string k' seen); auto using in_or_app.
Qed.

Lemma add_columns_In (k : string) (keys seen : list string) :
  In k keys -> In k (add_columns seen keys).
Proof.
  revert seen. induction keys as [| k' keys IH]; simpl; intros seen H; [contradiction |].
  destruct H as [-> | H].
  - destruct (mem_string k seen) eqn:Hk.
    + apply add_columns_seen. now apply mem_string_In.
    + apply add_columns_seen, in_or_app. right. now left.
  - destruct (mem_string k' seen); auto.
Qed.

Lemma dict_lookup_In_keys (k : string) (d : list (string * value)) (v : value) :
  dict_lookup k d = Some v -> In k (dict_keys d).
Proof.
  induction d as [| [k' v'] d IH]; simpl; [discriminate |].
  destruct (String.eqb k k') eqn:Hk; [apply String.eqb_eq in Hk; auto | auto].
Qed.

Lemma dict_lookup_remove_key (k k' : string) (d : list (string * value)) :
  k <> k' -> dict_lookup k (remove_key k' d) = dict_lookup k d.
Proof.
  intros Hne. induction d as [| [k0 v0] d IH]; simpl; [reflexivity |].
  destruct (String.eqb k' k0) eqn:Hk0; simpl.
  - apply String.eqb_eq in Hk0. subst k0.
    apply String.eqb_neq in Hne. now rewrite Hne.
  - now rewrite IH.
Qed.

(** The table of one row that [json_to_dataframe] builds from a dict
    that has the key ["Legal Name"]. *)
Lemma set_index_one_row (flat_data : list (string * value)) (name : value) :
  dict_lookup "Legal Name" flat_data = Some name ->
  set_index "Legal Name" (pd_DataFrame [flat_data])
  = Ok [{| row_index := name; row_cells := remove_key "Legal Name" flat_data |}].
Proof.
  intros H. unfold set_index, pd_DataFrame, columns, cell. simpl.
  rewrite (proj2 (mem_string_In _ _)); [now rewrite H |].
  apply add_columns_In. eauto using dict_lookup_In_keys.
Qed.

Lemma one_row_getitem (name : value) (cells : list (string * value)) (k : string) (v : value) :
  dict_lookup k cells = Some v ->
  df_getitem [{| row_index := name; row_cells := cells |}] k = Ok [v].
Proof.
  intros H. unfold df_getitem, columns, cell. simpl.
  rewrite (proj2 (mem_string_In _ _)); [now rewrite H |].
  apply add_columns_In. eauto using dict_lookup_In_keys.
Qed.

(** ** [json_to_dataframe]: the row it returns *)

Lemma json_to_dataframe_inv (data : value) (df : DataFrame) :
  json_to_dataframe data = Ok df ->
  exists attributes entity registration flat_data name,
    parts data attributes entity registration
    /\ dict_display (flat_data_entries attributes entity registration) = Ok flat_data
    /\ dict_lookup "Legal Name" flat_data = Some name
    /\ df = [{| row_index := name; row_cells := remove_key "Legal Name" flat_data |}].
Proof.
  unfold json_to_dataframe. intros H.
  apply bind_ok in H as (attributes & Ha & H).
  apply bind_ok in H as (entity & He & H).
  apply bind_ok in H as (registration & Hr & H).
  apply bind_ok in H as (flat_data & Hf & H).
  destruct (dict_display_lookup _ _ "Legal Name" _ Hf eq_refl) as (name & _ & Hname).
  rewrite (set_index_one_row _ _ Hname) in H. injection H as <-.
  exists attributes, entity, registration, flat_data, name.
  unfold parts. auto.
Qed.

(** A row is returned as soon as the three objects are there and every
    entry of the dict display evaluates. *)
Lemma json_to_dataframe_total (data attributes entity registration : value) :
  parts data attributes entity registration ->
  Forall (fun ke => exists v, snd ke = Ok v)
         (flat_data_entries attributes entity registration) ->
  exists df, json_to_dataframe data = Ok df.
Proof.
  intros (Ha & He & Hr) Hall. unfold json_to_dataframe.
  rewrite Ha. cbn [bind Monad_result]. rewrite He. cbn [bind Monad_result].
  rewrite Hr. cbn [bind Monad_result].
  destruct (dict_display_total _ Hall) as [flat_data Hf]. rewrite Hf.
  cbn [bind Monad_result].
  destruct (dict_display_lookup _ _ "Legal Name" _ Hf eq_refl) as (name & _ & Hname).
  rewrite (set_index_one_row _ _ Hname). eauto.
Qed.

(** The cell of a column is the value of the column's expression. *)
Lemma json_to_dataframe_column (data attributes entity registration : value)
  (df : DataFrame) (k : string) (e : result value) :
  json_to_dataframe data = Ok df ->
  parts data attributes entity registration ->
  entry_of k (flat_data_entries attributes entity registration) = Some e ->
  k <> "Legal Name" ->
  exists v, e = Ok v /\ df_getitem df k = Ok [v].
Proof.
  intros H (Ha & He & Hr) Hk Hne.
  destruct (json_to_dataframe_inv _ _ H)
    as (a' & e' & r' & flat_data & name & (Ha' & He' & Hr') & Hf & _ & ->).
  assert (a' = attributes) by congruence. subst a'.
  assert (e' = entity) by congruence. subst e'.
  assert (r' = registration) by congruence. subst r'.
  destruct (dict_display_lookup _ _ _ _ Hf Hk) as (v & -> & Hv).
  exists v. split; [reflexivity |].
  apply one_row_getitem. now rewrite dict_lookup_remove_key.
Qed.

Lemma if_else_false (a c b : result value) (t : value) :
  c = Ok t -> truthy t = false -> (a IF c ELSE b) = b.
Proof. intros -> Ht. unfold if_else. simpl. now rewrite Ht. Qed.

Lemma if_else_true (a c b : result value) (t : value) :
  c = Ok t -> truthy t = true -> (a IF c ELSE b) = a.
Proof. intros -> Ht. unfold if_else. simpl. now rewrite Ht. Qed.

Lemma if_else_ok (a c b : result value) (v : value) :
  (a IF c ELSE b) = Ok v -> exists t, c = Ok t.
Proof. unfold if_else. intros H. bind_inv H. eauto. Qed.

Lemma if_else_condition_raises (a c b : result value) (e : exn) :
  c = Raise e -> (a IF c ELSE b) = Raise e.
Proof. intros ->. reflexivity. Qed.

Lemma join_ok (sep : string) (x : result value) (v : value) :
  join sep x = Ok v -> exists t, x = Ok t.
Proof. unfold join. intros H. bind_inv H. eauto. Qed.

(** C4, as amended. In the row that [json_to_dataframe] returns, a
    ["bic"] that is an empty list or [None] gives [None] for
    ["BIC Codes"], and a ["spglobal"] likewise for ["SP Global IDs"],
    whereas empty address lines give the empty string for
    ["Legal Address"], not [None].  A record whose attributes have no
    ["bic"] or no ["spglobal"] key gets no row at all: the function
    raises. *)
Theorem code_lists_and_address_lines (data attributes entity registration : value) :
  parts data attributes entity registration ->
  (forall df, json_to_dataframe data = Ok df ->
     (attributes.["bic"] = Ok (VList []) \/ attributes.["bic"] = Ok VNone ->
      df_getitem df "BIC Codes" = Ok [VNone])
     /\ (attributes.["spglobal"] = Ok (VList []) \/ attributes.["spglobal"] = Ok VNone ->
         df_getitem df "SP Global IDs" = Ok [VNone])
     /\ (entity.["legalAddress"].["addressLines"] = Ok (VList []) ->
         df_getitem df "Legal Address" = Ok [VStr empty]))
  /\ (attributes.["bic"] = Raise (KeyError "bic")
      \/ attributes.["spglobal"] = Raise (KeyError "spglobal") ->
      exists e, json_to_dataframe data = Raise e).
Proof.
  intros Hparts. split.
  - intros df Hdf. repeat split.
    + intros Hbic.
      destruct (json_to_dataframe_column _ _ _ _ _ "BIC Codes" _ Hdf Hparts eq_refl)
        as (v & Hv & ->); [discriminate |].
      destruct Hbic as [Hbic | Hbic];
        rewrite (if_else_false _ _ _ _ Hbic eq_refl) in Hv; now injection Hv as <-.
    + intros Hsp.
      destruct (json_to_dataframe_column _ _ _ _ _ "SP Global IDs" _ Hdf Hparts eq_refl)
        as (v & Hv & ->); [discriminate |].
      destruct Hsp as [Hsp | Hsp];
        rewrite (if_else_false _ _ _ _ Hsp eq_refl) in Hv; now injection Hv as <-.
    + intros Hlines.
      destruct (json_to_dataframe_column _ _ _ _ _ "Legal Address" _ Hdf Hparts eq_refl)
        as (v & Hv & ->); [discriminate |].
      unfold join in Hv. rewrite Hlines in Hv. now injection Hv as <-.
  - intros Habsent.
    destruct (json_to_dataframe data) as [df | e] eqn:Hdf; [exfalso | eauto].
    destruct Habsent as [Hbic | Hsp].
    + destruct (json_to_dataframe_column _ _ _ _ _ "BIC Codes" _ Hdf Hparts eq_refl)
        as (v & Hv & _); [discriminate |].
      rewrite (if_else_condition_raises _ _ _ _ Hbic) in Hv. discriminate.
    + destruct (json_to_dataframe_column _ _ _ _ _ "SP Global IDs" _ Hdf Hparts eq_refl)
        as (v & Hv & _); [discriminate |].
      rewrite (if_else_condition_raises _ _ _ _ Hsp) in Hv. discriminate.
Qed.

(** The theorem at a record whose lists are all empty. *)
Lemma code_lists_and_address_lines_witness :
  exists df,
    json_to_dataframe Sample.record_empty_lists = Ok df
    /\ df_getitem df "BIC Codes" = Ok [VNone]
    /\ df_getitem df "SP Global IDs" = Ok [VNone]
    /\ df_getitem df "Legal Address" = Ok [VStr empty].
Proof.
  destruct (json_to_dataframe Sample.record_empty_lists) as [df | e] eqn:Hdf;
    [| vm_compute in Hdf; discriminate].
  exists df. split; [reflexivity |].
  destruct (code_lists_and_address_lines Sample.record_empty_lists
              (Sample.attributes
                 (Sample.entity (VList []) (VList []) Sample.legal_form)
                 [("bic", VList []); ("spglobal", VList [])])
              (Sample.entity (VList []) (VList []) Sample.legal_form)
              Sample.registration) as [Hrow _].
  - repeat split; reflexivity.
  - destruct (Hrow df Hdf) as (Hbic & Hsp & Hlines).
    repeat split; [apply Hbic | apply Hsp | apply Hlines]; auto.
Defined.

(** C4, as stated, fails when the list is absent: without the key
    ["bic"] the function raises [KeyError] and there is no row, hence
    no null ["BIC Codes"]. *)
Lemma absent_code_list_raises :
  (Sample.attributes (Sample.entity Sample.names Sample.lines Sample.legal_form)
                     [("spglobal", VList [])]).["bic"] = Raise (KeyError "bic")
  /\ json_to_dataframe Sample.record_without_bic = Raise (KeyError "bic")
  /\ ~ (exists df, json_to_dataframe Sample.record_without_bic = Ok df
                   /\ df_getitem df "BIC Codes" = Ok [VNone]).
Proof.
  repeat split; try reflexivity.
  intros (df & Hdf & _). vm_compute in Hdf. discriminate.
Qed.

Lemma first_of_list (e : result value) (first : value) (rest : list value) (k : string) :
  e = Ok (VList (first :: rest)) -> e.[Idx 0].[k] = getitem first k.
Proof. intros ->. reflexivity. Qed.

(** C6. When [entity.transliteratedOtherNames] is an empty list the
    three transliteration columns raise nothing: if the other columns
    evaluate, [json_to_dataframe] returns a row, and in it the three
    are [None].  When the list is not empty, a row that is returned
    has in them the name, language and type of the first entry only. *)
Theorem transliterated_names (data attributes entity registration : value) :
  parts data attributes entity registration ->
  (entity.["transliteratedOtherNames"] = Ok (VList []) ->
   (forall k e, In (k, e) (flat_data_entries attributes entity registration) ->
                ~ In k transliterated_columns -> exists v, e = Ok v) ->
   exists df,
     json_to_dataframe data = Ok df
     /\ df_getitem df "Transliterated Legal Name" = Ok [VNone]
     /\ df_getitem df "Transliterated Legal Name Language" = Ok [VNone]
     /\ df_getitem df "Transliterated Legal Name Type" = Ok [VNone])
  /\ (forall first rest df,
        entity.["transliteratedOtherNames"] = Ok (VList (first :: rest)) ->
        json_to_dataframe data = Ok df ->
        exists name language type,
          getitem first "name" = Ok name
          /\ getitem first "language" = Ok language
          /\ getitem first "type" = Ok type
          /\ df_getitem df "Transliterated Legal Name" = Ok [name]
          /\ df_getitem df "Transliterated Legal Name Language" = Ok [language]
          /\ df_getitem df "Transliterated Legal Name Type" = Ok [type]).
Proof.
  intros Hparts. split.
  - intros Hnames Hothers.
    destruct (json_to_dataframe_total _ _ _ _ Hparts) as [df Hdf].
    { apply Forall_forall. intros [k e] Hin.
      destruct (in_dec string_dec k transliterated_columns) as [Hk | Hk];
        [| eauto].
      simpl in Hin, Hk.
      repeat (destruct Hin as [Hin | Hin];
              [injection Hin as <- <-;
               first [ exists VNone; apply (if_else_false _ _ _ _ Hnames eq_refl)
                     | exfalso; decompose [or] Hk;
                       first [discriminate | contradiction] ] |]).
      contradiction. }
    exists df. split; [assumption |].
    repeat split.
    + destruct (json_to_dataframe_column _ _ _ _ _ "Transliterated Legal Name" _
                  Hdf Hparts eq_refl) as (v & Hv & ->); [discriminate |].
      rewrite (if_else_false _ _ _ _ Hnames eq_refl) in Hv. now injection Hv as <-.
    + destruct (json_to_dataframe_column _ _ _ _ _ "Transliterated Legal Name Language" _
                  Hdf Hparts eq_refl) as (v & Hv & ->); [discriminate |].
      rewrite (if_else_false _ _ _ _ Hnames eq_refl) in Hv. now injection Hv as <-.
    + destruct (json_to_dataframe_column _ _ _ _ _ "Transliterated Legal Name Type" _
                  Hdf Hparts eq_refl) as (v & Hv & ->); [discriminate |].
      rewrite (if_else_false _ _ _ _ Hnames eq_refl) in Hv. now injection Hv as <-.
  - intros first rest df Hnames Hdf.
    destruct (json_to_dataframe_column _ _ _ _ _ "Transliterated Legal Name" _
                Hdf Hparts eq_refl) as (name & Hname & ->); [discriminate |].
    destruct (json_to_dataframe_column _ _ _ _ _ "Transliterated Legal Name Language" _
                Hdf Hparts eq_refl) as (language & Hlanguage & ->); [discriminate |].
    destruct (json_to_dataframe_column _ _ _ _ _ "Transliterated Legal Name Type" _
                Hdf Hparts eq_refl) as (type & Htype & ->); [discriminate |].
    rewrite (if_else_true _ _ _ _ Hnames eq_refl), (first_of_list _ _ _ _ Hnames) in Hname.
    rewrite (if_else_true _ _ _ _ Hnames eq_refl), (first_of_list _ _ _ _ Hnames) in Hlanguage.
    rewrite (if_else_true _ _ _ _ Hnames eq_refl), (first_of_list _ _ _ _ Hnames) in Htype.
    exists name, language, type. auto 10.
Qed.

(** The theorem at a record without transliterated names and at one
    with two of them. *)
Lemma transliterated_names_witness :
  (exists df,
     json_to_dataframe Sample.record_empty_lists = Ok df
     /\ df_getitem df "Transliterated Legal Name" = Ok [VNone]
     /\ df_getitem df "Transliterated Legal Name Language" = Ok [VNone]
     /\ df_getitem df "Transliterated Legal Name Type" = Ok [VNone])
  /\ (exists df,
        json_to_dataframe Sample.record = Ok df
        /\ df_getitem df "Transliterated Legal Name" = Ok [VStr "MUSTER AG"]
        /\ df_getitem df "Transliterated Legal Name Language" = Ok [VStr "en"]
        /\ df_getitem df "Transliterated Legal Name Type"
           = Ok [VStr "AUTO_ASCII_TRANSLITERATED_LEGAL_NAME"]).
Proof.
  split.
  - destruct (transliterated_names Sample.record_empty_lists
                (Sample.attributes
                   (Sample.entity (VList []) (VList []) Sample.legal_form)
                   [("bic", VList []); ("spglobal", VList [])])
                (Sample.entity (VList []) (VList []) Sample.legal_form)
                Sample.registration) as [Hempty _].
    + repeat split; reflexivity.
    + apply Hempty; [reflexivity |].
      intros k e Hin _. simpl in Hin.
      repeat (destruct Hin as [Hin | Hin];
              [injection Hin as <- <-; eexists; vm_compute; reflexivity |]).
      contradiction.
  - destruct (json_to_dataframe Sample.record) as [df | e] eqn:Hdf;
      [| vm_compute in Hdf; discriminate].
    exists df. split; [reflexivity |].
    destruct (transliterated_names Sample.record
                (Sample.attributes
                   (Sample.entity Sample.names Sample.lines Sample.legal_form)
                   Sample.codes)
                (Sample.entity Sample.names Sample.lines Sample.legal_form)
                Sample.registration) as [_ Hfirst].
    + repeat split; reflexivity.
    + destruct (Hfirst _ _ df eq_refl Hdf)
        as (name & language & type & Hn & Hl & Ht & Hname & Hlanguage & Htype).
      vm_compute in Hn, Hl, Ht.
      injection Hn as <-. injection Hl as <-. injection Ht as <-. auto.
Defined.

(** ** [json_to_dataframe]: the paths it reads *)

(** The table says what the dict display is. *)
Lemma flat_data_entries_table (attributes entity registration : value) :
  flat_data_entries attributes entity registration
  = map (fun ks => (fst ks, denote (snd ks) attributes entity registration)) columns_table.
Proof. reflexivity. Qed.

Lemma entry_of_table (attributes entity registration : value) (name : string) (sh : shape) :
  In (name, sh) columns_table ->
  entry_of name (flat_data_entries attributes entity registration)
  = Some (denote sh attributes entity registration).
Proof.
  intros H. unfold columns_table in H. simpl in H.
  repeat (destruct H as [H | H]; [injection H as <- <-; reflexivity |]).
  contradiction.
Qed.

Lemma walk_snoc (v : value) (path : list index) (i : index) :
  walk v (path ++ [i]) = (walk v path).[i].
Proof. unfold walk. now rewrite fold_left_app. Qed.

Lemma subscripts_raise (path : list index) (e : exn) :
  fold_left subscript path (Raise e) = Raise e.
Proof. induction path as [| i path IH]; simpl; auto. Qed.


Lemma walk_app (v : value) (p q : list index) :
  walk v (p ++ q) = (x <- walk v p ;; walk x q).
Proof.
  unfold walk. rewrite fold_left_app.
  destruct (fold_left subscript p (returned v)) as [x | e]; simpl.
  - reflexivity.
  - apply subscripts_raise.
Qed.

Lemma getitem_raise (v : value) (i : index) (e : exn) :
  getitem v i = Raise e ->
  e = TypeError \/ (e = IndexError /\ exists z, i = Idx z)
  \/ (e = KeyError i /\ exists d, v = VDict d).
Proof.
  destruct v as [| b | z | f | s | l | d], i as [k | z']; simpl; intros H;
    try (injection H as <-; auto; fail).
  - destruct (seq_index (list_ascii_of_string s) z'); [discriminate |].
    injection H as <-. eauto.
  - destruct (seq_index l z'); [discriminate |]. injection H as <-. eauto.
  - destruct (dict_lookup k d); [discriminate |]. injection H as <-. eauto.
  - injection H as <-. eauto.
Qed.

(** Why following a path of keys raises: a value on the way is not a
    dict, or it is a dict without the key. *)
Lemma walk_keys_raise (v : value) (ks : list string) (e : exn) :
  walk v (map Key ks) = Raise e ->
  e = TypeError
  \/ exists before k after d,
       ks = (before ++ k :: after)%list
       /\ walk v (map Key before) = Ok (VDict d)
       /\ getitem (VDict d) (Key k) = Raise (KeyError (Key k))
       /\ e = KeyError (Key k).
Proof.
  induction ks as [| k ks IH] using rev_ind; intros H.
  - discriminate.
  - rewrite map_app in H. change (map Key [k]) with [Key k] in H.
    rewrite walk_snoc in H. unfold subscript in H.
    apply bind_raise in H as [H | (x & Hx & H)].
    + destruct (IH H) as [-> | (before & k' & after & d & -> & Hb & Hk & ->)]; auto.
      right. exists before, k', (after ++ [k])%list, d. now rewrite <- app_assoc.
    + destruct (getitem_raise _ _ _ H) as [-> | [(_ & z & Hz) | (-> & d & ->)]]; auto.
      * discriminate.
      * right. exists ks, k, [], d. auto.
Qed.

Lemma parts_walk (data attributes entity registration : value) (x : root) :
  parts data attributes entity registration ->
  walk data (root_path x) = Ok (root_value x attributes entity registration).
Proof.
  intros (Ha & He & Hr). destruct x; unfold walk; simpl.
  - exact Ha.
  - rewrite Ha. exact He.
  - rewrite Ha. exact Hr.
Qed.

Lemma parts_shape_path (data attributes entity registration : value) (x : root)
  (ks : list index) :
  parts data attributes entity registration ->
  walk data (root_path x ++ ks) = walk (root_value x attributes entity registration) ks.
Proof.
  intros Hparts. rewrite walk_app, (parts_walk _ _ _ _ x Hparts). reflexivity.
Qed.

Lemma dict_display_all_ok (entries : list (string * result value)) (d : list (string * value)) :
  dict_display entries = Ok d -> Forall (fun ke => exists v, snd ke = Ok v) entries.
Proof.
  revert d. induction entries as [| [k e] rest IH]; simpl; intros d H.
  - constructor.
  - bind_inv H. bind_inv H. constructor; simpl; eauto.
Qed.

(** A column whose expression evaluates has its path in the record. *)
Lemma denote_ok_path (data attributes entity registration : value) (sh : shape) (v : value) :
  parts data attributes entity registration ->
  denote sh attributes entity registration = Ok v ->
  exists t, walk data (shape_path sh) = Ok t.
Proof.
  intros Hparts H.
  destruct sh as [x ks | x ks | x ks | x ks k]; simpl in *;
    rewrite (parts_shape_path _ _ _ _ _ _ Hparts).
  - eauto.
  - eapply join_ok; eauto.
  - eapply if_else_ok; eauto.
  - eapply if_else_ok; eauto.
Qed.

Lemma required_paths_covered (path : list index) :
  In path required_paths ->
  (exists x, path = root_path x)
  \/ exists name sh, In (name, sh) columns_table /\ path = shape_path sh.
Proof.
  intros H.
  assert (Hin : In path (map root_path [Attributes; Entity; Registration]
                         ++ map (fun ns => shape_path (snd ns)) columns_table)).
  { unfold required_paths in H. simpl in H.
    repeat (destruct H as [<- | H];
            [simpl; repeat (first [left; reflexivity | right]) |]).
    contradiction. }
  apply in_app_or in Hin as [Hin | Hin]; apply in_map_iff in Hin.
  - destruct Hin as (x & <- & _). eauto.
  - destruct Hin as ([name sh] & <- & Hin). eauto.
Qed.

(** Where a row is returned, every required path is there. *)
Lemma required_paths_present (data : value) (df : DataFrame) (path : list index) :
  json_to_dataframe data = Ok df -> In path required_paths ->
  exists v, walk data path = Ok v.
Proof.
  intros Hdf Hpath.
  destruct (json_to_dataframe_inv _ _ Hdf)
    as (attributes & entity & registration & flat_data & name & Hparts & Hf & _).
  destruct (required_paths_covered _ Hpath) as [(x & ->) | (column & sh & Hin & ->)].
  - rewrite (parts_walk _ _ _ _ x Hparts). eauto.
  - apply dict_display_all_ok in Hf. rewrite flat_data_entries_table in Hf.
    rewrite Forall_map, Forall_forall in Hf.
    destruct (Hf _ Hin) as [v Hv]. eauto using denote_ok_path.
Qed.

Lemma all_strings_raise (l : list value) (e : exn) :
  all_strings l = Raise e -> e = TypeError.
Proof.
  induction l as [| v l IH]; simpl; [discriminate |].
  destruct v; try congruence.
  destruct (all_strings l); simpl; [discriminate | intros H; injection H as <-; auto].
Qed.

Lemma str_join_raise (sep : string) (v : value) (e : exn) :
  str_join sep v = Raise e -> e = TypeError.
Proof.
  destruct v; simpl; try congruence.
  destruct (all_strings l) eqn:Hl; simpl; [discriminate |].
  intros H; injection H as <-. eauto using all_strings_raise.
Qed.

Lemma join_raise (sep : string) (x : result value) (e : exn) :
  join sep x = Raise e -> x = Raise e \/ e = TypeError.
Proof.
  unfold join. intros H. apply bind_raise in H as [H | (t & _ & H)];
    eauto using str_join_raise.
Qed.

(** A truthy value has a first element, if it has elements at all. *)
Lemma truthy_first (t : value) :
  truthy t = true -> getitem t (Idx 0) <> Raise IndexError.
Proof.
  destruct t as [| b | z | f | s | l | d]; simpl; try discriminate.
  - destruct s; [discriminate | discriminate].
  - destruct l; [discriminate | discriminate].
Qed.

Lemma root_paths_read (x : root) : In (root_path x) read_paths.
Proof.
  destruct x; unfold read_paths, required_paths; simpl; auto.
Qed.

Lemma table_paths_read (name : string) (sh : shape) :
  In (name, sh) columns_table ->
  In (shape_path sh) read_paths
  /\ match sh with
     | FirstIfAny x ks k => In (shape_path sh ++ [Idx 0; Key k])%list read_paths
     | _ => True
     end.
Proof.
  intros H. unfold columns_table in H. simpl in H.
  repeat (destruct H as [H | H];
          [injection H as <- <-; split;
           [simpl; repeat (first [left; reflexivity | right])
           | simpl; first [exact I | repeat (first [left; reflexivity | right])]] |]).
  contradiction.
Qed.

Lemma key_path_raise (data : value) (ks : list string) (e : exn) :
  walk data (map Key ks) = Raise e -> In (map Key ks) read_paths -> explained data e.
Proof.
  intros H Hin.
  destruct (walk_keys_raise _ _ _ H) as [-> | (before & k & after & d & -> & Hb & Hk & ->)].
  - now left.
  - right. exists (Key k). split; [reflexivity |].
    exists (map Key (before ++ k :: after)), (map Key before), (map Key after), d.
    rewrite map_app in *. auto.
Qed.

(** Why the expression of a column raises. *)
Lemma denote_raise (data attributes entity registration : value) (name : string)
  (sh : shape) (e : exn) :
  parts data attributes entity registration ->
  In (name, sh) columns_table ->
  denote sh attributes entity registration = Raise e ->
  explained data e.
Proof.
  intros Hparts Hin H.
  destruct (table_paths_read _ _ Hin) as [Hread Hfirst].
  assert (Hcond : forall x ks e',
             shape_path sh = (root_path x ++ map Key ks)%list ->
             walk (root_value x attributes entity registration) (map Key ks) = Raise e' ->
             explained data e').
  { intros x ks e' Hp Hw. rewrite Hp in Hread.
    rewrite <- (parts_shape_path _ _ _ _ _ _ Hparts) in Hw.
    unfold root_path in *. rewrite <- map_app in *. eauto using key_path_raise. }
  destruct sh as [x ks | x ks | x ks | x ks k]; simpl in H;
    pose proof (fun e' => Hcond x ks e' eq_refl) as Hraise.
  - eauto.
  - apply join_raise in H as [H | ->]; [eauto | now left].
  - unfold if_else in H. apply bind_raise in H as [H | (t & Ht & H)]; [eauto |].
    destruct (truthy t); [| discriminate].
    apply join_raise in H as [H | ->]; [eauto | now left].
  - unfold if_else in H. apply bind_raise in H as [H | (t & Ht & H)]; [eauto |].
    destruct (truthy t) eqn:Htruthy; [| discriminate].
    rewrite Ht in H. unfold subscript in H. simpl in H.
    rewrite <- (parts_shape_path _ _ _ _ _ _ Hparts) in Ht.
    destruct (getitem t (Idx 0)) as [first |] eqn:Hfirst0; simpl in H.
    + destruct (getitem_raise _ _ _ H) as [-> | [(_ & z & Hz) | (-> & d & ->)]].
      * now left.
      * discriminate.
      * right. exists (Key k). split; [reflexivity |].
        exists (shape_path (FirstIfAny x ks k) ++ [Idx 0; Key k])%list,
               (shape_path (FirstIfAny x ks k) ++ [Idx 0])%list, [], d.
        repeat split; auto.
        -- now rewrite <- app_assoc.
        -- rewrite walk_snoc. simpl. rewrite Ht. exact Hfirst0.
    + injection H as ->.
      destruct (getitem_raise _ _ _ Hfirst0) as [-> | [(-> & _) | (-> & d & ->)]].
      * now left.
      * now apply truthy_first in Htruthy.
      * right. exists (Idx 0). split; [reflexivity |].
        exists (shape_path (FirstIfAny x ks k) ++ [Idx 0; Key k])%list,
               (shape_path (FirstIfAny x ks k)), [Key k], d.
        repeat split; auto.
Qed.

(** Why [json_to_dataframe] raises. *)
Lemma json_to_dataframe_raise (data : value) (e : exn) :
  json_to_dataframe data = Raise e -> explained data e.
Proof.
  unfold json_to_dataframe. intros H.
  apply bind_raise in H as [H | (attributes & Ha & H)].
  { apply (key_path_raise data (root_keys Attributes)); [exact H |].
    apply root_paths_read. }
  apply bind_raise in H as [H | (entity & He & H)].
  { apply (key_path_raise data (root_keys Entity)); [| apply root_paths_read].
    unfold walk. simpl. rewrite Ha. exact H. }
  apply bind_raise in H as [H | (registration & Hr & H)].
  { apply (key_path_raise data (root_keys Registration)); [| apply root_paths_read].
    unfold walk. simpl. rewrite Ha. exact H. }
  assert (Hparts : parts data attributes entity registration) by (unfold parts; auto).
  apply bind_raise in H as [H | (flat_data & Hf & H)].
  - apply dict_display_raise in H as [name H].
    rewrite flat_data_entries_table in H. apply in_map_iff in H as ([name' sh] & Heq & Hin).
    injection Heq as _ Heq. eauto using denote_raise.
  - destruct (dict_display_lookup _ _ "Legal Name" _ Hf eq_refl) as (name & _ & Hname).
    rewrite (set_index_one_row _ _ Hname) in H. discriminate.
Qed.

(** C8, as amended. When a required path is absent from the record,
    [json_to_dataframe] raises and returns no row: no default stands in
    for the missing value.  The exception is a [KeyError] carrying a
    key that a dict of the record lacks on a path the function reads
    (the key, not the path), or a [TypeError], which names nothing. *)
Theorem missing_path_raises (data : value) (path : list index) :
  In path required_paths -> absent data path ->
  exists e, json_to_dataframe data = Raise e /\ explained data e.
Proof.
  intros Hpath [e0 Habsent].
  destruct (json_to_dataframe data) as [df | e] eqn:Hdf.
  - destruct (required_paths_present _ _ _ Hdf Hpath) as [v Hv]. congruence.
  - eauto using json_to_dataframe_raise.
Qed.

(** The theorem at a record without the key ["bic"]. *)
Lemma missing_path_raises_witness :
  json_to_dataframe Sample.record_without_bic = Raise (KeyError "bic")
  /\ names_missing_key Sample.record_without_bic "bic".
Proof.
  destruct (missing_path_raises Sample.record_without_bic
              (map Key ["data"; "attributes"; "bic"])) as (e & He & Hexplained).
  - unfold required_paths. apply in_map. simpl. auto 40.
  - exists (KeyError "bic"). reflexivity.
  - vm_compute in He. injection He as <-. split; [reflexivity |].
    destruct Hexplained as [Hwrong | (k & Hk & Hmissing)]; [discriminate |].
    injection Hk as <-. exact Hmissing.
Defined.

(** C8, as stated, fails when the value before the missing key is not
    a dict: with a [null] legal form the path [entity.legalForm.id] is
    absent, and the [TypeError] raised names no path. *)
Lemma null_object_names_no_path :
  In (map Key ["data"; "attributes"; "entity"; "legalForm"; "id"]) required_paths
  /\ absent Sample.record_null_legal_form
            (map Key ["data"; "attributes"; "entity"; "legalForm"; "id"])
  /\ json_to_dataframe Sample.record_null_legal_form = Raise TypeError
  /\ ~ (exists k, json_to_dataframe Sample.record_null_legal_form = Raise (KeyError k)).
Proof.
  repeat split.
  - unfold required_paths. apply in_map. simpl. auto 40.
  - exists TypeError. reflexivity.
  - intros [k Hk]. vm_compute in Hk. discriminate.
Qed.

(** The row depends on nothing but [data["data"]["attributes"]]: the
    relationships and whatever else the record holds leave it as it is. *)
Lemma json_to_dataframe_reads_attributes (data data' : value) :
  data.["data"].["attributes"] = data'.["data"].["attributes"] ->
  json_to_dataframe data = json_to_dataframe data'.
Proof. unfold json_to_dataframe. now intros ->. Qed.

(** ** [json_to_dataframe]: what the result depends on *)

Lemma getitem_key_ok (v : value) (k : string) (y : value) :
  getitem v (Key k) = Ok y -> exists d, v = VDict d.
Proof. destruct v; simpl; try discriminate; eauto. Qed.














Section Properties.

Variable net : nat -> request -> outcome.
Variable py_str : value -> string.
Variable iteration_order : list value -> list value.
Hypothesis iteration_order_perm : forall l, Permutation (iteration_order l) l.
Variable display_error : DataFrame -> option exn.

Lemma extract_related_leis_inv (relationship_data out : list value) (input_lei : string) :
  extract_related_leis iteration_order relationship_data input_lei = Ok out ->
  exists leis members,
    collected_leis relationship_data input_lei = Ok leis
    /\ py_set leis = Ok members
    /\ Permutation out members.
Proof.
  unfold extract_related_leis. intros H. bind_inv H. bind_inv H.
  injection H as <-. eauto.
Qed.

(** X21. On payloads of the expected shape, where every entry that
    names an identifier names a hashable one, [extract_related_leis]
    returns a list: no payload of this shape makes it raise. *)
Lemma extract_related_leis_total (relationship_data : list value) (input_lei : string) :
  Forall well_shaped relationship_data ->
  exists out, extract_related_leis iteration_order relationship_data input_lei = Ok out.
Proof.
  intros Hshaped. rewrite Forall_forall in Hshaped. unfold extract_related_leis.
  destruct (for_each_total (collect_relationship input_lei) relationship_data) with (s := @nil value)
    as [leis Hleis].
  { intros s x Hx. auto using collect_relationship_total. }
  fold (collected_leis relationship_data input_lei) in Hleis. rewrite Hleis. simpl.
  destruct (py_set_total leis) as [members ->]; [| simpl; eauto].
  apply Forall_forall. intros v Hv.
  destruct (collected_leis_sound _ _ _ _ Hleis Hv) as (relationship & Hin & entry & Hentry & Hlei).
  destruct (Hshaped _ Hin) as [_ Hentries].
  destruct (Hentries _ Hentry) as (lei & Hlei' & Hhash). congruence.
Qed.

(** C2. Whatever the payloads are, and whether their ["data"] field is
    one object or a list of objects, a value that [extract_related_leis]
    returns is never the input identifier and never an empty or missing
    one: it is truthy, hence neither [None] nor the empty string. *)
Theorem extract_related_leis_excludes_input
  (relationship_data out : list value) (input_lei : string) :
  extract_related_leis iteration_order relationship_data input_lei = Ok out ->
  forall v, In v out ->
    v <> VStr input_lei /\ eq_str v input_lei = false
    /\ truthy v = true /\ v <> VNone /\ v <> VStr empty.
Proof.
  intros H v Hv.
  destruct (extract_related_leis_inv _ _ _ H) as (leis & members & Hleis & Hset & Hperm).
  apply py_set_spec in Hset as (_ & Hsub & _).
  apply collected_leis_kept in Hleis. rewrite Forall_forall in Hleis.
  assert (Hk : kept input_lei v) by eauto using Permutation_in.
  destruct (kept_not_input _ _ Hk) as (? & ? & ?). destruct Hk. auto.
Qed.

(** C3. The list that [extract_related_leis] returns has no duplicates,
    and an identifier that the payloads mention, however many of them
    do and however often, is in it exactly once. *)
Theorem extract_related_leis_no_duplicates
  (relationship_data out : list value) (input_lei : string) :
  extract_related_leis iteration_order relationship_data input_lei = Ok out ->
  NoDup out
  /\ (forall relationship lei,
        In relationship relationship_data -> mentions relationship lei ->
        kept input_lei lei ->
        length (filter (same_element lei) out) = 1%nat)
  /\ (forall relationship s,
        In relationship relationship_data -> mentions relationship (VStr s) ->
        s <> empty -> s <> input_lei ->
        exists before after,
          out = (before ++ VStr s :: after)%list
          /\ ~ In (VStr s) before /\ ~ In (VStr s) after).
Proof.
  intros H.
  destruct (extract_related_leis_inv _ _ _ H) as (leis & members & Hleis & Hset & Hperm).
  apply py_set_spec in Hset as (Hd & Hsub & Hall).
  assert (Hout : distinct out) by eauto using distinct_Permutation, Permutation_sym.
  assert (Hnodup : NoDup out) by auto using distinct_NoDup.
  assert (Hcount : forall relationship lei,
             In relationship relationship_data -> mentions relationship lei ->
             kept input_lei lei -> length (filter (same_element lei) out) = 1%nat).
  { intros relationship lei Hin Hm Hk.
    destruct (Hall lei) as (m & Hm' & Hsame);
      [eauto using collected_leis_complete |].
    eapply distinct_count; eauto using Permutation_in, Permutation_sym. }
  repeat split; auto.
  intros relationship s Hin Hm Hne Hinput.
  assert (Hk : kept input_lei (VStr s)).
  { split; simpl; [apply negb_true_iff | ]; now apply String.eqb_neq. }
  assert (Hs : In (VStr s) out).
  { destruct (Hall (VStr s)) as (m & Hm' & Hsame);
      [eauto using collected_leis_complete |].
    apply same_element_str in Hsame. subst m.
    eauto using Permutation_in, Permutation_sym. }
  apply in_split in Hs as (before & after & ->).
  exists before, after. split; [reflexivity |].
  apply NoDup_remove_2 in Hnodup.
  split; intros Hx; apply Hnodup, in_or_app; auto.
Qed.

(** ** [get_lei_information] *)

Lemma get_lei_information_run (lei : value) (w : world) :
  get_lei_information net py_str lei w
  = (fetched (net (requests_sent w) (lei_request (py_str lei))),
     after w 1 [HttpGet (lei_request (py_str lei))]).
Proof.
  unfold get_lei_information, try_except, requests_get, lei_url, lei_request, after, fetched.
  simpl. destruct (net _ _) as [msg | r]; simpl; [reflexivity |].
  destruct (status_code r =? 200); [| reflexivity].
  unfold lift, response_json. destruct (json r) as [[] |]; reflexivity.
Qed.

(** C5. With status 200, [get_lei_information] returns the parsed body
    of the response.  With any other status it returns the error dict,
    whose message carries the status code and whose details are the
    text of the response as it came, not parsed. *)
Theorem get_lei_information_result (lei : value) (w : world) :
  (forall r v,
     net (requests_sent w) (lei_request (py_str lei)) = Received r ->
     status_code r = 200 -> json r = inr v ->
     fst (get_lei_information net py_str lei w) = Ok v)
  /\ (forall r,
        net (requests_sent w) (lei_request (py_str lei)) = Received r ->
        status_code r <> 200 ->
        fst (get_lei_information net py_str lei w)
        = Ok (VDict [("error", VStr ("Error retrieving data (status code "
                                     ++ str_int (status_code r) ++ ")."));
                     ("details", VStr (text r))])).
Proof.
  split.
  - intros r v Hnet Hstatus Hjson.
    rewrite get_lei_information_run, Hnet. unfold fetched.
    rewrite Hstatus, Hjson. reflexivity.
  - intros r Hnet Hstatus.
    rewrite get_lei_information_run, Hnet. unfold fetched.
    apply Z.eqb_neq in Hstatus. rewrite Hstatus. reflexivity.
Qed.

(** ** Runs of the page *)

Lemma after_after (w : world) (n m : nat) (evs evs' : list event) :
  after (after w n evs) m evs' = after w (m + n) (evs ++ evs').
Proof.
  unfold after. simpl. f_equal.
  - apply Nat.add_assoc.
  - symmetry. apply app_assoc.
Qed.

Lemma after_nothing (w : world) : after w 0 [] = w.
Proof. destruct w. unfold after. simpl. now rewrite app_nil_r. Qed.

Lemma emit_run (e : event) (w : world) : emit e w = (Ok tt, after w 0 [e]).
Proof. reflexivity. Qed.

Lemma bind_io_run {A B : Type} (m : IO A) (k : A -> IO B) (w : world) :
  (x <- m ;; k x)%io w
  = match m w with
    | (Ok a, w') => k a w'
    | (Raise e, w') => (Raise e, w')
    end.
Proof. reflexivity. Qed.

(** What [show_error] does with a dict that has the key ["error"]:
    the error is shown, then the details if there are any. *)
Lemma show_error_run (d : list (string * value)) (error : value) (w : world) :
  dict_lookup "error" d = Some error ->
  show_error (VDict d) w
  = match dict_lookup "details" d with
    | Some details => (Ok tt, after w 0 [StError error; StWrite details])
    | None => (Raise (KeyError "details"), after w 0 [StError error])
    end.
Proof.
  intros Herror. unfold show_error, lift, subscript, emit, after. simpl.
  rewrite Herror. destruct (dict_lookup "details" d) as [details |].
  - now rewrite <- app_assoc.
  - reflexivity.
Qed.

(** The test ["error" in data] alone decides what a lookup does with
    what was fetched: when it holds, the lookup is [show_error]. *)
Lemma lookup_error_branch (input_lei : string) (w w' : world) (data : value) :
  get_lei_information net py_str (VStr input_lei) (after w 0 [StSpinner "Retrieving data..."])
  = (Ok data, w') ->
  contains data "error" = Ok true ->
  lookup net py_str iteration_order display_error input_lei w = show_error data w'.
Proof.
  intros Hget Hcontains. unfold lookup.
  rewrite bind_io_run, emit_run, bind_io_run, Hget, bind_io_run.
  unfold lift. rewrite Hcontains. reflexivity.
Qed.

Lemma main_clicked (input_lei : string) (w : world) :
  main net py_str iteration_order display_error input_lei true w
  = lookup net py_str iteration_order display_error input_lei (after w 0 page_header).
Proof.
  unfold main, emit, after, page_header. simpl. do 2 f_equal.
  now rewrite <- !app_assoc.
Qed.

(** A lookup whose fetch gave a dict with the key ["error"]. *)
Lemma main_error_run (input_lei : string) (w : world) (d : list (string * value))
  (error : value) :
  fst (get_lei_information net py_str (VStr input_lei) w) = Ok (VDict d) ->
  dict_lookup "error" d = Some error ->
  main net py_str iteration_order display_error input_lei true w
  = let shown := (page_header
                  ++ [StSpinner "Retrieving data...";
                      HttpGet (lei_request (py_str (VStr input_lei)));
                      StError error])%list in
    match dict_lookup "details" d with
    | Some details => (Ok tt, after w 1 (shown ++ [StWrite details]))
    | None => (Raise (KeyError "details"), after w 1 shown)
    end.
Proof.
  intros Hget Herror. rewrite get_lei_information_run in Hget. simpl in Hget.
  rewrite main_clicked.
  rewrite (lookup_error_branch _ _
             (after w 1 (page_header
                         ++ [StSpinner "Retrieving data...";
                             HttpGet (lei_request (py_str (VStr input_lei)))]))
             (VDict d)).
  - rewrite (show_error_run _ _ _ Herror).
    destruct (dict_lookup "details" d); rewrite after_after; reflexivity.
  - rewrite get_lei_information_run, !after_after. f_equal. simpl.
    exact Hget.
  - simpl. f_equal. apply mem_string_In. eauto using dict_lookup_In_keys.
Qed.

Lemma dict_keys_lookup (k : string) (d : list (string * value)) :
  In k (dict_keys d) -> exists v, dict_lookup k d = Some v.
Proof.
  induction d as [| [k' v'] d IH]; simpl; [contradiction |].
  intros [-> | H].
  - rewrite String.eqb_refl. eauto.
  - destruct (String.eqb k k'); eauto.
Qed.

(** C7. When the fetch of the identifier fails, by an exception of the
    request or by a status other than 200, the lookup shows the error
    and its details and stops: it sends no other request than the one
    that failed, hence follows no relationship link, and it shows no
    table. *)
Theorem primary_failure_halts (input_lei : string) (w : world) :
  let req := lei_request (py_str (VStr input_lei)) in
  let failure error details :=
    (page_header ++ [StSpinner "Retrieving data..."; HttpGet req;
                     StError (VStr error); StWrite (VStr details)])%list in
  (forall msg,
     net (requests_sent w) req = Failed msg ->
     let evs := failure "An error occurred during the request." msg in
     main net py_str iteration_order display_error input_lei true w = (Ok tt, after w 1 evs)
     /\ shown_tables evs = [] /\ requests_of evs = [req])
  /\ (forall r,
        net (requests_sent w) req = Received r -> status_code r <> 200 ->
        let evs := failure ("Error retrieving data (status code "
                            ++ str_int (status_code r) ++ ").") (text r) in
        main net py_str iteration_order display_error input_lei true w = (Ok tt, after w 1 evs)
        /\ shown_tables evs = [] /\ requests_of evs = [req]).
Proof.
  intros req failure. split.
  - intros msg Hnet evs. split; [| split; reflexivity].
    rewrite (main_error_run input_lei w
               [("error", VStr "An error occurred during the request.");
                ("details", VStr msg)]
               (VStr "An error occurred during the request.")).
    + reflexivity.
    + rewrite get_lei_information_run. fold req. now rewrite Hnet.
    + reflexivity.
  - intros r Hnet Hstatus evs. split; [| split; reflexivity].
    rewrite (main_error_run input_lei w
               [("error", VStr ("Error retrieving data (status code "
                                ++ str_int (status_code r) ++ ")."));
                ("details", VStr (text r))]
               (VStr ("Error retrieving data (status code "
                      ++ str_int (status_code r) ++ ")."))).
    + reflexivity.
    + rewrite get_lei_information_run. fold req. rewrite Hnet. unfold fetched.
      apply Z.eqb_neq in Hstatus. now rewrite Hstatus.
    + reflexivity.
Qed.

(** C10. Success and failure of a fetch are told apart by the key
    ["error"] alone.  When a response with status 200 parses to a dict
    that has this key, the fetch returns that dict, and the lookup
    treats it as a failure: it shows the value under ["error"], then
    the details (or raises [KeyError] if there are none), sends no
    other request and shows no table. *)
Theorem error_key_means_failure (input_lei : string) (w : world) (r : response)
  (d : list (string * value)) :
  let req := lei_request (py_str (VStr input_lei)) in
  net (requests_sent w) req = Received r ->
  status_code r = 200 ->
  json r = inr (VDict d) ->
  In "error" (dict_keys d) ->
  fst (get_lei_information net py_str (VStr input_lei) w) = Ok (VDict d)
  /\ exists error result evs,
       dict_lookup "error" d = Some error
       /\ main net py_str iteration_order display_error input_lei true w = (result, after w 1 evs)
       /\ (let shown := (page_header ++ [StSpinner "Retrieving data..."; HttpGet req;
                                         StError error])%list in
           (result, evs) = match dict_lookup "details" d with
                           | Some details => (Ok tt, (shown ++ [StWrite details])%list)
                           | None => (Raise (KeyError "details"), shown)
                           end)
       /\ shown_tables evs = []
       /\ requests_of evs = [req].
Proof.
  intros req Hnet Hstatus Hjson Hkey.
  assert (Hget : fst (get_lei_information net py_str (VStr input_lei) w) = Ok (VDict d)).
  { rewrite get_lei_information_run. fold req. rewrite Hnet. unfold fetched.
    now rewrite Hstatus, Hjson. }
  split; [exact Hget |].
  destruct (dict_keys_lookup _ _ Hkey) as [error Herror].
  pose proof (main_error_run input_lei w d error Hget Herror) as Hmain.
  fold req in Hmain. simpl in Hmain.
  destruct (dict_lookup "details" d) as [details |];
    exists error; eexists; eexists; (split; [exact Herror |]);
    (split; [exact Hmain |]); repeat split.
Qed.

(** ** Relationships *)

(** Every relationship that has a link gets its row, whatever the
    request meets, and the loop goes on: a failure of the request is
    recorded in the row.  Only an exception of the decoder that is no
    [RequestException] escapes. *)
Lemma fetch_link_run (results : list (list (string * value))) (rel_name : string)
  (rel_data related_link : value) (w : world) :
  (links <- dict_get rel_data "links" (VDict []) ;; dict_get links "related" VNone)
  = Ok related_link ->
  truthy related_link = true ->
  let req := {| url := related_link; headers := [] |} in
  fetch_link net results (rel_name, rel_data) w
  = (match link_escape (net (requests_sent w) req) with
     | Some e => Raise e
     | None => Ok (results ++ [link_row rel_name related_link
                                 (net (requests_sent w) req)])%list
     end,
     after w 1 [HttpGet req]).
Proof.
  intros Hlink Htruthy req. unfold fetch_link, lift. rewrite bind_io_run, Hlink, Htruthy.
  unfold try_except, requests_get, link_row, link_escape, raise_for_status, response_json, lift.
  rewrite !bind_io_run. fold req.
  destruct (net (requests_sent w) req) as [msg | r]; [reflexivity |].
  destruct ((400 <=? status_code r) && (status_code r <? 600)); [reflexivity |].
  rewrite bind_io_run. destruct (json r) as [[] |]; reflexivity.
Qed.

(** A key of a row is a column of the table. *)
Lemma columns_In (df : DataFrame) (r : row) (k : string) :
  In r df -> In k (dict_keys (row_cells r)) -> In k (columns df).
Proof.
  unfold columns. generalize (@nil string).
  induction df as [| r' df IH]; simpl; intros seen Hr Hk; [contradiction |].
  destruct Hr as [-> | Hr]; [| auto].
  assert (Hseen : In k (add_columns seen (dict_keys (row_cells r))))
    by auto using add_columns_In.
  clear -Hseen. revert Hseen. generalize (add_columns seen (dict_keys (row_cells r))).
  induction df as [| r' df IH]; simpl; intros seen' Hseen; auto using add_columns_seen.
Qed.

(** A row without ["Data"] leaves NaN in the column. *)
Lemma missing_data_cell (df : DataFrame) (r : row) (column : list value) :
  In r df -> dict_lookup "Data" (row_cells r) = None ->
  df_getitem df "Data" = Ok column -> In NaN column.
Proof.
  unfold df_getitem. intros Hin Hnone H.
  destruct (mem_string "Data" (columns df)); [| discriminate].
  injection H as <-. apply in_map_iff. exists r. split; [| assumption].
  unfold cell. now rewrite Hnone.
Qed.

(** And NaN in the column stops the extraction. *)
Lemma extract_related_leis_NaN (relationship_data : list value) (input_lei : string) :
  In NaN relationship_data ->
  extract_related_leis iteration_order relationship_data input_lei = Raise AttributeError.
Proof.
  intros H. unfold extract_related_leis. now rewrite collected_leis_NaN.
Qed.

(** So whenever the table of relationships has a row with a payload
    and a row with an error, the identifiers cannot be extracted. *)
Lemma failed_row_stops_extraction (relationship_df : DataFrame) (fetched failed : row)
  (payload : value) (input_lei : string) :
  In fetched relationship_df -> dict_lookup "Data" (row_cells fetched) = Some payload ->
  In failed relationship_df -> dict_lookup "Data" (row_cells failed) = None ->
  exists relationship_data,
    df_getitem relationship_df "Data" = Ok relationship_data
    /\ extract_related_leis iteration_order relationship_data input_lei
       = Raise AttributeError.
Proof.
  intros Hfetched Hdata Hfailed Hnone.
  assert (Hcol : mem_string "Data" (columns relationship_df) = true).
  { apply mem_string_In. eauto using columns_In, dict_lookup_In_keys. }
  exists (map (cell "Data") relationship_df). split.
  - unfold df_getitem. now rewrite Hcol.
  - apply extract_related_leis_NaN, in_map_iff. exists failed.
    split; [| assumption]. unfold cell. now rewrite Hnone.
Qed.

End Properties.

(** ** Runs on the sample network *)

(** C1. The parent link answers 404 while the other link answers.
    [fetch_relationship_data] records the failure in the row of that
    relationship and keeps the payload of the other one; but the
    ["Data"] column then holds NaN for the failed relationship, and
    [extract_related_leis] raises [AttributeError] on it: the lookup
    stops there, without the identifiers of the payload that was
    fetched. *)
Theorem failed_link_stops_lookup :
  let net := Sample.net Sample.not_found in
  let order := fun l : list value => l in
  let w := after start 1
             [StSpinner "Retrieving data...";
              HttpGet (lei_request Sample.lei);
              StSubheader "Company Information";
              StSubheader "Company Relationships"] in
  let lou := {| url := VStr "https://api.gleif.org/lou"; headers := [] |} in
  let parent := {| url := VStr "https://api.gleif.org/parent"; headers := [] |} in
  let relationship_df :=
    pd_DataFrame
      [link_row "managing-lou" (url lou) (Sample.ok Sample.lou_payload);
       link_row "direct-parent" (url parent) Sample.not_found] in
  fetch_relationship_data net Sample.record w
  = (Ok relationship_df, after w 2 [HttpGet lou; HttpGet parent])
  /\ df_getitem relationship_df "Error"
     = Ok [NaN; VStr "404 Client Error: Not Found for url: https://api.gleif.org/parent"]
  /\ df_getitem relationship_df "Data" = Ok [Sample.lou_payload; NaN]
  /\ extract_related_leis order [Sample.lou_payload; NaN] Sample.lei = Raise AttributeError
  /\ extract_related_leis order [Sample.lou_payload] Sample.lei = Ok [VStr Sample.lou_lei]
  /\ fst (main net Sample.str order Sample.styler Sample.lei true start) = Raise AttributeError
  /\ requests_of (effects (snd (main net Sample.str order Sample.styler
                                   Sample.lei true start)))
     = [lei_request Sample.lei; lou; parent]
  /\ length (shown_tables
               (effects (snd (main net Sample.str order Sample.styler
                                Sample.lei true start)))) = 1%nat.
Proof. repeat split; vm_compute; reflexivity. Qed.

(** ** The theorems on the samples *)

Lemma rev_rearranges (l : list value) : Permutation (rev l) l.
Proof. apply Permutation_sym, Permutation_rev. Defined.

Lemma extract_related_leis_excludes_input_witness :
  extract_related_leis (@rev value) [Sample.lou_payload; Sample.parent_payload] Sample.lei
  = Ok [VStr Sample.parent_lei; VStr Sample.lou_lei]
  /\ forall v, In v [VStr Sample.parent_lei; VStr Sample.lou_lei] ->
       v <> VStr Sample.lei /\ eq_str v Sample.lei = false
       /\ truthy v = true /\ v <> VNone /\ v <> VStr empty.
Proof.
  split; [reflexivity |].
  apply (extract_related_leis_excludes_input (@rev value) rev_rearranges
           [Sample.lou_payload; Sample.parent_payload]).
  reflexivity.
Defined.

Lemma extract_related_leis_no_duplicates_witness :
  NoDup [VStr Sample.parent_lei; VStr Sample.lou_lei]
  /\ length (filter (same_element (VStr Sample.lou_lei))
                    [VStr Sample.parent_lei; VStr Sample.lou_lei]) = 1%nat.
Proof.
  destruct (extract_related_leis_no_duplicates (@rev value) rev_rearranges
              [Sample.lou_payload; Sample.parent_payload]
              [VStr Sample.parent_lei; VStr Sample.lou_lei] Sample.lei eq_refl)
    as (Hnodup & Hcount & _).
  split; [exact Hnodup |].
  apply (Hcount Sample.lou_payload).
  - now left.
  - exists (Sample.entry Sample.lou_lei). split; [now left | reflexivity].
  - split; reflexivity.
Defined.


Lemma get_lei_information_result_witness :
  fst (get_lei_information (Sample.always (Sample.ok Sample.record)) Sample.str
         (VStr Sample.lei) start) = Ok Sample.record
  /\ fst (get_lei_information (Sample.always Sample.not_found) Sample.str
            (VStr Sample.lei) start)
     = Ok (VDict [("error", VStr "Error retrieving data (status code 404).");
                  ("details", VStr "Not Found")]).
Proof.
  split.
  - eapply (proj1 (get_lei_information_result
                     (Sample.always (Sample.ok Sample.record)) Sample.str
                     (VStr Sample.lei) start)); reflexivity.
  - apply (proj2 (get_lei_information_result
                    (Sample.always Sample.not_found) Sample.str
                    (VStr Sample.lei) start) _ eq_refl).
    discriminate.
Defined.

Lemma primary_failure_halts_witness :
  fst (main (Sample.always Sample.unreachable) Sample.str (@rev value) Sample.styler
         Sample.lei true start)
  = Ok tt
  /\ shown_tables
       (effects (snd (main (Sample.always Sample.not_found) Sample.str (@rev value)
                        Sample.styler Sample.lei true start))) = [].
Proof.
  split.
  - destruct (proj1 (primary_failure_halts (Sample.always Sample.unreachable) Sample.str
                       (@rev value) Sample.styler Sample.lei start) _ eq_refl) as (Hrun & _).
    now rewrite Hrun.
  - destruct (proj2 (primary_failure_halts (Sample.always Sample.not_found) Sample.str
                       (@rev value) Sample.styler Sample.lei start) _ eq_refl)
      as (Hrun & _ & _).
    + discriminate.
    + now rewrite Hrun.
Defined.

Lemma error_key_means_failure_witness :
  exists result evs,
    main (Sample.always (Sample.ok (VDict Sample.error_body))) Sample.str (@rev value)
      Sample.styler Sample.lei true start = (result, after start 1 evs)
    /\ result = Raise (KeyError "details")
    /\ shown_tables evs = [].
Proof.
  destruct (error_key_means_failure
              (Sample.always (Sample.ok (VDict Sample.error_body))) Sample.str
              (@rev value) Sample.styler Sample.lei start _ Sample.error_body
              eq_refl eq_refl eq_refl)
    as (_ & error & result & evs & _ & Hrun & Hshown & Htables & _).
  - now left.
  - exists result, evs. repeat split; try assumption.
    simpl in Hshown. now injection Hshown as -> _.
Defined.

(** * Further properties *)

(** ** [json_to_dataframe]: the table *)

Lemma dict_keys_remove_key (k : string) (d : list (string * value)) :
  dict_keys (remove_key k d) = filter (fun k' => negb (String.eqb k k')) (dict_keys d).
Proof.
  induction d as [| [k' v] d IH]; simpl; [reflexivity |].
  destruct (String.eqb k k'); simpl; now rewrite IH.
Qed.

Lemma json_to_dataframe_keys (data : value) (name : value) (cells : list (string * value)) :
  json_to_dataframe data = Ok [{| row_index := name; row_cells := cells |}] ->
  dict_keys cells = flat_columns.
Proof.
  intros H.
  destruct (json_to_dataframe_inv _ _ H)
    as (attributes & entity & registration & flat_data & name' & _ & Hf & _ & Heq).
  injection Heq as _ ->.
  rewrite dict_keys_remove_key, (dict_display_keys _ _ Hf). reflexivity.
Qed.

(** X1. The table that [json_to_dataframe] returns has one row; its
    label is the legal name, which is no column any more, and its
    columns are the forty-one others, in the order of the source,
    whatever the record. *)
Theorem json_to_dataframe_shape (data : value) (df : DataFrame) :
  json_to_dataframe data = Ok df ->
  exists name cells,
    df = [{| row_index := name; row_cells := cells |}]
    /\ walk data (map Key ["data"; "attributes"; "entity"; "legalName"; "name"]) = Ok name
    /\ dict_keys cells = flat_columns
    /\ columns df = flat_columns
    /\ df_getitem df "Legal Name" = Raise (KeyError "Legal Name").
Proof.
  intros H.
  destruct (json_to_dataframe_inv _ _ H)
    as (attributes & entity & registration & flat_data & name & Hparts & Hf & Hname & ->).
  pose proof (json_to_dataframe_keys _ _ _ H) as Hkeys.
  exists name, (remove_key "Legal Name" flat_data).
  split; [reflexivity |]. split.
  - destruct (dict_display_lookup _ _ "Legal Name" _ Hf eq_refl) as (v & Hv & Hv').
    assert (v = name) by congruence. subst v.
    change (map Key ["data"; "attributes"; "entity"; "legalName"; "name"])
      with (root_path Entity ++ map Key ["legalName"; "name"])%list.
    rewrite (parts_shape_path _ _ _ _ Entity _ Hparts). exact Hv.
  - split; [exact Hkeys |].
    assert (Hcols : columns [{| row_index := name;
                                row_cells := remove_key "Legal Name" flat_data |}]
                    = flat_columns).
    { unfold columns. simpl. rewrite Hkeys. reflexivity. }
    split; [exact Hcols |].
    unfold df_getitem. rewrite Hcols. reflexivity.
Qed.

(** X2. Flattening loses nothing of a plain column: the cell holds the
    very value found in the record at the path of the column. *)
Theorem plain_columns_round_trip (data : value) (df : DataFrame) (name : string)
  (x : root) (ks : list string) :
  json_to_dataframe data = Ok df ->
  In (name, Get x ks) columns_table ->
  name <> "Legal Name" ->
  exists v, walk data (root_path x ++ map Key ks) = Ok v
            /\ df_getitem df name = Ok [v].
Proof.
  intros H Hin Hname.
  destruct (json_to_dataframe_inv _ _ H)
    as (attributes & entity & registration & flat_data & label & Hparts & _).
  destruct (json_to_dataframe_column _ _ _ _ _ name _ H Hparts
              (entry_of_table _ _ _ _ _ Hin) Hname) as (v & Hv & Hcell).
  exists v. split; [| exact Hcell].
  rewrite (parts_shape_path _ _ _ _ _ _ Hparts). exact Hv.
Qed.

Lemma all_strings_map (ss : list string) : all_strings (map VStr ss) = Ok ss.
Proof. induction ss as [| s ss IH]; simpl; [reflexivity | now rewrite IH]. Qed.

Lemma legal_name_shape (name : string) (sh : shape) :
  In (name, sh) columns_table -> name = "Legal Name" ->
  sh = Get Entity ["legalName"; "name"].
Proof.
  intros H. unfold columns_table in H. simpl in H.
  repeat (destruct H as [H | H];
          [injection H as <- <-; intros Hname; first [discriminate Hname | reflexivity] |]).
  contradiction.
Qed.

(** X3. A column made of a list keeps every element: where the record
    holds a list of strings, the cell of an address column, or of a
    code column whose list is not empty, is these strings separated by
    a comma and a space, in their order. *)
Theorem joined_columns (data : value) (df : DataFrame) (name : string)
  (x : root) (ks ss : list string) :
  json_to_dataframe data = Ok df ->
  In (name, Join x ks) columns_table
  \/ (In (name, JoinIfAny x ks) columns_table /\ ss <> []) ->
  walk data (root_path x ++ map Key ks) = Ok (VList (map VStr ss)) ->
  df_getitem df name = Ok [VStr (String.concat ", " ss)].
Proof.
  intros H Hshape Hlist.
  destruct (json_to_dataframe_inv _ _ H)
    as (attributes & entity & registration & flat_data & label & Hparts & _).
  rewrite (parts_shape_path _ _ _ _ _ _ Hparts) in Hlist.
  destruct Hshape as [Hin | [Hin Hss]].
  - destruct (json_to_dataframe_column _ _ _ _ _ name _ H Hparts
                (entry_of_table _ _ _ _ _ Hin)) as (v & Hv & ->).
    + intros Hname. now apply (legal_name_shape _ _ Hin) in Hname.
    + simpl in Hv. unfold join in Hv. rewrite Hlist in Hv. simpl in Hv.
      rewrite all_strings_map in Hv. now injection Hv as <-.
  - destruct (json_to_dataframe_column _ _ _ _ _ name _ H Hparts
                (entry_of_table _ _ _ _ _ Hin)) as (v & Hv & ->).
    + intros Hname. now apply (legal_name_shape _ _ Hin) in Hname.
    + simpl in Hv. rewrite (if_else_true _ _ _ _ Hlist) in Hv.
      * unfold join in Hv. rewrite Hlist in Hv. simpl in Hv.
        rewrite all_strings_map in Hv. now injection Hv as <-.
      * destruct ss; [congruence | reflexivity].
Qed.

(** ** [json_to_dataframe]: the order of evaluation *)

Lemma dict_display_first_raise (entries : list (string * result value)) (n : nat)
  (k : string) (e : exn) :
  nth_error entries n = Some (k, Raise e) ->
  (forall m k' x, (m < n)%nat -> nth_error entries m = Some (k', x) -> exists v, x = Ok v) ->
  dict_display entries = Raise e.
Proof.
  revert n. induction entries as [| [k0 x0] rest IH]; intros n Hn Hbefore.
  - destruct n; discriminate.
  - destruct n as [| n]; simpl in *.
    + injection Hn as -> ->. reflexivity.
    + destruct (Hbefore 0%nat k0 x0 (Nat.lt_0_succ n) eq_refl) as [v ->]. simpl.
      rewrite (IH n Hn); [reflexivity |].
      intros m k' x Hm Hx. apply (Hbefore (S m) k' x); [now apply -> Nat.succ_lt_mono | exact Hx].
Qed.

Lemma dict_display_raise_first (entries : list (string * result value)) (e : exn) :
  dict_display entries = Raise e ->
  exists n k,
    nth_error entries n = Some (k, Raise e)
    /\ forall m k' x, (m < n)%nat -> nth_error entries m = Some (k', x) -> exists v, x = Ok v.
Proof.
  induction entries as [| [k0 x0] rest IH]; simpl; intros H.
  - discriminate.
  - apply bind_raise in H as [-> | (v & -> & H)].
    + exists 0%nat, k0. split; [reflexivity |]. intros m k' x Hm. now apply Nat.nlt_0_r in Hm.
    + apply bind_raise in H as [H | (d & _ & H)]; [| discriminate].
      destruct (IH H) as (n & k & Hn & Hbefore).
      exists (S n), k. split; [exact Hn |].
      intros [| m] k' x Hm Hx; simpl in Hx.
      * injection Hx as <- <-. eauto.
      * apply (Hbefore m k' x); [now apply Nat.succ_lt_mono | exact Hx].
Qed.

(** X4. Once the three objects are found, [json_to_dataframe] raises
    exactly when an entry of the dict display fails, and the exception
    is that of the first such entry in the order of the source. *)
Theorem first_failure_is_raised (data attributes entity registration : value) (e : exn) :
  parts data attributes entity registration ->
  json_to_dataframe data = Raise e
  <-> exists n name,
        nth_error (flat_data_entries attributes entity registration) n = Some (name, Raise e)
        /\ forall m name' x,
             (m < n)%nat ->
             nth_error (flat_data_entries attributes entity registration) m = Some (name', x) ->
             exists v, x = Ok v.
Proof.
  intros (Ha & He & Hr). unfold json_to_dataframe.
  rewrite Ha. cbn [bind Monad_result]. rewrite He. cbn [bind Monad_result].
  rewrite Hr. cbn [bind Monad_result]. split.
  - intros H. apply bind_raise in H as [H | (flat_data & Hf & H)].
    + now apply dict_display_raise_first.
    + destruct (dict_display_lookup _ _ "Legal Name" _ Hf eq_refl) as (name & _ & Hname).
      rewrite (set_index_one_row _ _ Hname) in H. discriminate.
  - intros (n & name & Hn & Hbefore).
    now rewrite (dict_display_first_raise _ _ _ _ Hn Hbefore).
Qed.

Section Further.

Variable net : nat -> request -> outcome.
Variable py_str : value -> string.
Variable iteration_order : list value -> list value.
Hypothesis iteration_order_perm : forall l, Permutation (iteration_order l) l.
Variable display_error : DataFrame -> option exn.

(** ** [get_lei_information]: what escapes *)

Lemma get_lei_information_fetched (lei : value) (w : world) :
  get_lei_information net py_str lei w
  = (fetched (net (requests_sent w) (lei_request (py_str lei))),
     after w 1 [HttpGet (lei_request (py_str lei))]).
Proof. apply get_lei_information_run. Qed.




(** X6. A request that raises and a response with status 200 whose
    body is no JSON, on which the decoder raises [JSONDecodeError],
    are reported alike: under ["error"] the fixed message of a failed
    request, under ["details"] the text of the exception. *)
Theorem request_errors_are_reported (lei : value) (w : world) (msg : string) :
  net (requests_sent w) (lei_request (py_str lei)) = Failed msg
  \/ (exists r, net (requests_sent w) (lei_request (py_str lei)) = Received r
                /\ status_code r = 200 /\ json r = inl (RequestException msg)) ->
  fst (get_lei_information net py_str lei w)
  = Ok (VDict [("error", VStr "An error occurred during the request.");
               ("details", VStr msg)]).
Proof.
  intros H. rewrite get_lei_information_fetched. simpl.
  destruct H as [-> | (r & -> & Hstatus & Hjson)]; simpl.
  - reflexivity.
  - now rewrite Hstatus, Hjson.
Qed.

(** ** [fetch_relationship_data]: the whole loop *)

Lemma fetch_link_skip (results : list (list (string * value))) (rel_name : string)
  (rel_data l : value) (w : world) :
  related_link rel_data = Ok l -> truthy l = false ->
  fetch_link net results (rel_name, rel_data) w = (Ok results, w).
Proof.
  unfold related_link. intros Hlink Hfalse.
  unfold fetch_link, lift. rewrite bind_io_run, Hlink, Hfalse. reflexivity.
Qed.

Lemma fetch_links_run (items : list (string * value)) :
  (forall rel_name rel_data, In (rel_name, rel_data) items ->
                             exists l, related_link rel_data = Ok l) ->
  forall results w,
    links_answered net (requests_sent w) (linked items) ->
    for_each_io items results (fetch_link net) w
    = (Ok (results ++ link_rows net (requests_sent w) (linked items))%list,
       after w (length (linked items))
             (map (fun nl => HttpGet (link_request (snd nl))) (linked items))).
Proof.
  induction items as [| [rel_name rel_data] items IH]; intros Hlinks results w Hanswered.
  - simpl. now rewrite app_nil_r, after_nothing.
  - destruct (Hlinks rel_name rel_data (or_introl eq_refl)) as [l Hl].
    assert (Hrest : forall n d, In (n, d) items -> exists l, related_link d = Ok l)
      by (intros n d Hin; apply (Hlinks n d); now right).
    cbn [for_each_io linked] in *. rewrite bind_io_run. rewrite Hl in *.
    destruct (truthy l) eqn:Htruthy.
    + destruct Hanswered as [Hfirst Hanswered].
      rewrite (fetch_link_run net results rel_name rel_data l w Hl Htruthy).
      fold (link_request l). rewrite Hfirst.
      rewrite (IH Hrest); [| exact Hanswered].
      cbn [link_rows length map snd]. rewrite after_after.
      rewrite <- app_assoc. f_equal. f_equal. apply Nat.add_1_r.
    + rewrite (fetch_link_skip results rel_name rel_data l w Hl Htruthy).
      now rewrite (IH Hrest).
Qed.

(** And a loop that comes to its end met no exception that escapes. *)
Lemma fetch_links_answered (items : list (string * value)) :
  (forall rel_name rel_data, In (rel_name, rel_data) items ->
                             exists l, related_link rel_data = Ok l) ->
  forall results w rows w',
    for_each_io items results (fetch_link net) w = (Ok rows, w') ->
    links_answered net (requests_sent w) (linked items).
Proof.
  induction items as [| [rel_name rel_data] items IH]; intros Hlinks results w rows w' H.
  - exact I.
  - destruct (Hlinks rel_name rel_data (or_introl eq_refl)) as [l Hl].
    assert (Hrest : forall n d, In (n, d) items -> exists l, related_link d = Ok l)
      by (intros n d Hin; apply (Hlinks n d); now right).
    cbn [for_each_io linked] in *. rewrite bind_io_run in H. rewrite Hl.
    destruct (truthy l) eqn:Htruthy.
    + rewrite (fetch_link_run net results rel_name rel_data l w Hl Htruthy) in H.
      fold (link_request l) in H.
      destruct (link_escape (net (requests_sent w) (link_request l))) eqn:Hfirst;
        [discriminate |].
      split; [exact Hfirst |]. apply (IH Hrest _ _ _ _ H).
    + rewrite (fetch_link_skip results rel_name rel_data l w Hl Htruthy) in H.
      apply (IH Hrest _ _ _ _ H).
Qed.


(** ** [fetch_relationship_data]: what the rows are and what is raised *)

Lemma link_row_data (rel_name : string) (l : value) (o : outcome) :
  dict_lookup "Data" (link_row rel_name l o) = delivered o.
Proof.
  unfold link_row, delivered. destruct o as [msg | r]; [reflexivity |].
  destruct ((400 <=? status_code r) && (status_code r <? 600)); [reflexivity |].
  destruct (json r) as [[] |]; reflexivity.
Qed.

Lemma link_row_is_row (rel_name : string) (l : value) (o : outcome) :
  truthy l = true -> link_escape o = None -> relationship_row (link_row rel_name l o).
Proof.
  intros Hl Hescape. exists rel_name, l. unfold link_row, link_escape in *.
  destruct o as [msg | r]; [simpl; eauto 10 |].
  destruct ((400 <=? status_code r) && (status_code r <? 600)); [simpl; eauto 10 |].
  destruct (json r) as [[] |]; try discriminate; simpl; eauto 10.
Qed.


Lemma for_each_io_invariant {A S : Type} (P : S -> Prop) (body : S -> A -> IO S) :
  (forall s x w s' w', P s -> body s x w = (Ok s', w') -> P s') ->
  forall xs s w s' w', P s -> for_each_io xs s body w = (Ok s', w') -> P s'.
Proof.
  intros Hbody xs. induction xs as [| x xs IH]; intros s w s' w' Hs H.
  - injection H as <- _. exact Hs.
  - cbn [for_each_io] in H. rewrite bind_io_run in H.
    destruct (body s x w) as [[s1 | e] w1] eqn:Hx; [eauto | discriminate].
Qed.


Lemma dict_get_raise (v : value) (k : string) (default : value) (e : exn) :
  dict_get v k default = Raise e -> e = AttributeError.
Proof. destruct v; simpl; congruence. Qed.

Lemma related_link_raise (rel_data : value) (e : exn) :
  related_link rel_data = Raise e -> e = AttributeError.
Proof.
  unfold related_link. intros H.
  apply bind_raise in H as [H | (links & _ & H)]; eauto using dict_get_raise.
Qed.

(** One turn of the loop: a row is added, or nothing changes, or the
    relationship is no object and [AttributeError] is raised, or an
    exception escapes the request. *)
Lemma fetch_link_cases (results : list (list (string * value))) (item : string * value)
  (w : world) :
  (exists l o, truthy l = true /\ link_escape o = None
               /\ fetch_link net results item w
                  = (Ok (results ++ [link_row (fst item) l o])%list,
                     after w 1 [HttpGet (link_request l)]))
  \/ fetch_link net results item w = (Ok results, w)
  \/ fetch_link net results item w = (Raise AttributeError, w)
  \/ (exists l e, link_escape (net (requests_sent w) (link_request l)) = Some e
                  /\ fetch_link net results item w
                     = (Raise e, after w 1 [HttpGet (link_request l)])).
Proof.
  destruct item as [rel_name rel_data].
  destruct (related_link rel_data) as [l | e] eqn:Hl.
  - destruct (truthy l) eqn:Htruthy.
    + pose proof (fetch_link_run net results rel_name rel_data l w Hl Htruthy) as Hrun.
      fold (link_request l) in Hrun. cbv zeta in Hrun.
      destruct (link_escape (net (requests_sent w) (link_request l))) as [e |] eqn:Hescape.
      * right. right. right. exists l, e. split; [exact Hescape | exact Hrun].
      * left. exists l, (net (requests_sent w) (link_request l)). auto.
    + right. left. now apply (fetch_link_skip results rel_name rel_data l).
  - right. right. left. rewrite (related_link_raise _ _ Hl) in Hl.
    unfold related_link in Hl. unfold fetch_link, lift. now rewrite bind_io_run, Hl.
Qed.

Lemma number_rows_In (r : row) (records : list (list (string * value))) (i : Z) :
  In r (number_rows i records) -> In (row_cells r) records.
Proof.
  revert i. induction records as [| d records IH]; simpl; intros i H; [contradiction |].
  destruct H as [<- | H]; [now left | right; eauto].
Qed.

(** X8. Whatever the links answer, every row of the table that
    [fetch_relationship_data] returns names its relationship and its
    link, which is truthy, and holds either the payload under ["Data"]
    or the text of an exception under ["Error"], never both and never
    neither. *)
Theorem relationship_rows_invariant (base_data : value) (w w' : world) (df : DataFrame) :
  fetch_relationship_data net base_data w = (Ok df, w') ->
  forall r, In r df -> relationship_row (row_cells r).
Proof.
  unfold fetch_relationship_data. intros H r Hr.
  rewrite bind_io_run in H.
  destruct (lift _ w) as [[relationships | e] w1]; [| discriminate].
  rewrite bind_io_run in H.
  destruct (lift (dict_items relationships) w1) as [[items | e] w2]; [| discriminate].
  rewrite bind_io_run in H.
  destruct (for_each_io items [] (fetch_link net) w2) as [[results | e] w3] eqn:Hloop;
    [| discriminate].
  injection H as <- _.
  apply number_rows_In in Hr. revert Hr. generalize (row_cells r).
  apply Forall_forall.
  apply (for_each_io_invariant (Forall relationship_row) (fetch_link net))
    with (xs := items) (s := @nil (list (string * value))) (w := w2) (w' := w3);
    [| constructor | exact Hloop].
  intros s x w0 s' w0' Hs Hx.
  destruct (fetch_link_cases s x w0)
    as [(l & o & Hl & Hescape & Hrun) | [Hrun | [Hrun | (l & e & _ & Hrun)]]];
    rewrite Hrun in Hx; [| | discriminate | discriminate].
  - injection Hx as <- _. apply Forall_app. split; [exact Hs |].
    constructor; [| constructor]. now apply link_row_is_row.
  - now injection Hx as <- _.
Qed.




(** ** [extract_related_leis]: what is in the list *)

(** X10. [extract_related_leis] invents nothing and forgets nothing:
    every value it returns is the identifier of an entry of some
    payload, and an identifier is returned exactly when it is not
    empty, is not the input identifier and is carried by an entry of
    some payload. *)
Theorem extract_related_leis_content
  (relationship_data out : list value) (input_lei : string) :
  extract_related_leis iteration_order relationship_data input_lei = Ok out ->
  (forall v, In v out ->
     exists relationship, In relationship relationship_data /\ mentions relationship v)
  /\ (forall s, In (VStr s) out
                <-> s <> empty /\ s <> input_lei
                    /\ exists relationship,
                         In relationship relationship_data
                         /\ mentions relationship (VStr s)).
Proof.
  intros H.
  destruct (extract_related_leis_inv iteration_order iteration_order_perm _ _ _ H) as (leis & members & Hleis & Hset & Hperm).
  apply py_set_spec in Hset as (_ & Hsub & Hall).
  assert (Hsound : forall v, In v out ->
            exists relationship, In relationship relationship_data /\ mentions relationship v).
  { intros v Hv. eapply collected_leis_sound; eauto using Permutation_in. }
  split; [exact Hsound |].
  intros s. split.
  - intros Hs.
    assert (Hk : kept input_lei (VStr s)).
    { pose proof (collected_leis_kept _ _ _ Hleis) as Hkept.
      rewrite Forall_forall in Hkept. eauto using Permutation_in. }
    destruct (kept_not_input _ _ Hk) as (Hinput & _ & Hempty).
    repeat split; [congruence | congruence | auto].
  - intros (Hempty & Hinput & relationship & Hin & Hm).
    assert (Hk : kept input_lei (VStr s)).
    { split; simpl; [apply negb_true_iff |]; now apply String.eqb_neq. }
    destruct (Hall (VStr s)) as (m & Hm' & Hsame);
      [eauto using collected_leis_complete |].
    apply same_element_str in Hsame. subst m.
    eauto using Permutation_in, Permutation_sym.
Qed.

Lemma set_add_all_unhashable (l : list value) (v : value) :
  In v l -> hash_key v = None ->
  forall members, set_add_all members l = Raise TypeError.
Proof.
  induction l as [| x l IH]; simpl; intros Hin Hv members; [contradiction |].
  destruct (hash_key x) eqn:Hx; [| reflexivity].
  destruct Hin as [-> | Hin]; [congruence |].
  destruct (existsb (same_element x) members); auto.
Qed.

(** X11. An identifier that is a list or an object cannot be a member
    of a set: when the loop over the payloads comes to its end and
    has kept such a value, [extract_related_leis] raises [TypeError]
    and returns no identifier at all. *)
Theorem unhashable_identifier_raises
  (relationship_data leis : list value) (input_lei : string) (relationship lei : value) :
  collected_leis relationship_data input_lei = Ok leis ->
  In relationship relationship_data -> mentions relationship lei ->
  kept input_lei lei -> hash_key lei = None ->
  extract_related_leis iteration_order relationship_data input_lei = Raise TypeError.
Proof.
  intros Hleis Hin Hm Hk Hhash. unfold extract_related_leis. rewrite Hleis.
  cbn [bind Monad_result]. unfold py_set.
  rewrite (set_add_all_unhashable leis lei); [reflexivity | | exact Hhash].
  eauto using collected_leis_complete.
Qed.

(** ** Runs of the page: a record is fetched *)

Lemma lookup_record (input_lei : string) (w : world) (data : value) :
  record_fetched net py_str input_lei w data ->
  main net py_str iteration_order display_error input_lei true w
  = (emit (StSubheader "Company Information") ;;
     company_df <- lift (json_to_dataframe data) ;;
     st_dataframe display_error company_df ;;
     emit (StSubheader "Company Relationships") ;;
     relationship_df <- fetch_relationship_data net data ;;
     if negb (df_empty relationship_df) then
       relationship_data <- lift (df_getitem relationship_df "Data") ;;
       related_leis <- lift (extract_related_leis iteration_order relationship_data input_lei) ;;
       relationship_df_display <- for_each_io related_leis [] (add_related net py_str) ;;
       if negb (df_empty relationship_df_display) then
         st_dataframe display_error relationship_df_display
       else
         emit (StInfo "No relationships found.")
     else
       emit (StInfo "No relationships found."))%io
      (after w 1 (page_header ++ [StSpinner "Retrieving data...";
                                  HttpGet (lei_request (py_str (VStr input_lei)))])).
Proof.
  intros (r & Hnet & Hstatus & Hjson & Herror).
  rewrite main_clicked. unfold lookup at 1.
  rewrite bind_io_run, emit_run, bind_io_run, get_lei_information_run.
  rewrite !after_after. cbn [requests_sent after Nat.add].
  rewrite Hnet. unfold fetched. rewrite Hstatus, Hjson. cbn [Z.eqb Pos.eqb].
  rewrite bind_io_run. unfold lift at 1. rewrite Herror. reflexivity.
Qed.

(** X12. A record that is fetched but does not flatten stops the
    lookup: the exception of [json_to_dataframe] is raised under the
    first subheader, no table is shown and no relationship link is
    asked. *)
Theorem flatten_failure_stops_lookup (input_lei : string) (w : world) (data : value)
  (e : exn) :
  record_fetched net py_str input_lei w data ->
  json_to_dataframe data = Raise e ->
  main net py_str iteration_order display_error input_lei true w
  = (Raise e,
     after w 1 (page_header ++ [StSpinner "Retrieving data...";
                                HttpGet (lei_request (py_str (VStr input_lei)));
                                StSubheader "Company Information"])).
Proof.
  intros Hfetched Hflat. rewrite (lookup_record _ _ _ Hfetched).
  rewrite bind_io_run, emit_run, bind_io_run. unfold lift. rewrite Hflat.
  now rewrite after_after.
Qed.

Lemma lookup_relationships (input_lei : string) (w : world) (data : value)
  (company_df : DataFrame) :
  record_fetched net py_str input_lei w data ->
  json_to_dataframe data = Ok company_df ->
  display_error company_df = None ->
  main net py_str iteration_order display_error input_lei true w
  = (relationship_df <- fetch_relationship_data net data ;;
     if negb (df_empty relationship_df) then
       relationship_data <- lift (df_getitem relationship_df "Data") ;;
       related_leis <- lift (extract_related_leis iteration_order relationship_data input_lei) ;;
       relationship_df_display <- for_each_io related_leis [] (add_related net py_str) ;;
       if negb (df_empty relationship_df_display) then
         st_dataframe display_error relationship_df_display
       else
         emit (StInfo "No relationships found.")
     else
       emit (StInfo "No relationships found."))%io
      (after w 1 (company_shown (py_str (VStr input_lei)) company_df)).
Proof.
  intros Hfetched Hflat Hshown. rewrite (lookup_record _ _ _ Hfetched).
  rewrite bind_io_run, emit_run, bind_io_run. unfold lift at 1. rewrite Hflat.
  rewrite bind_io_run. unfold st_dataframe at 1. rewrite Hshown.
  rewrite emit_run, bind_io_run, emit_run, !after_after.
  unfold company_shown. now rewrite <- !app_assoc.
Qed.

Lemma fetch_relationship_data_of (data : value) (rels : list (string * value)) (w : world) :
  relationships_of data rels ->
  links_answered net (requests_sent w) (linked rels) ->
  fetch_relationship_data net data w
  = (Ok (pd_DataFrame (link_rows net (requests_sent w) (linked rels))),
     after w (length (linked rels))
           (map (fun nl => HttpGet (link_request (snd nl))) (linked rels))).
Proof.
  intros [Hrels Hlinks] Hanswered. apply bind_ok in Hrels as (d & Hd & Hrels).
  unfold fetch_relationship_data, lift.
  rewrite bind_io_run, Hd. cbn [bind Monad_result]. rewrite Hrels.
  rewrite bind_io_run. cbn [dict_items]. rewrite bind_io_run.
  rewrite (fetch_links_run rels Hlinks); [reflexivity | exact Hanswered].
Qed.

Lemma fetch_relationship_data_answered (data : value) (rels : list (string * value))
  (w w' : world) (df : DataFrame) :
  relationships_of data rels ->
  fetch_relationship_data net data w = (Ok df, w') ->
  links_answered net (requests_sent w) (linked rels).
Proof.
  intros [Hrels Hlinks] H. apply bind_ok in Hrels as (d & Hd & Hrels).
  unfold fetch_relationship_data, lift in H.
  rewrite bind_io_run, Hd in H. cbn [bind Monad_result] in H. rewrite Hrels in H.
  rewrite bind_io_run in H. cbn [dict_items] in H. rewrite bind_io_run in H.
  destruct (for_each_io rels [] (fetch_link net) w) as [[rows | e] w1] eqn:Hloop;
    [| discriminate].
  apply (fetch_links_answered rels Hlinks _ _ _ _ Hloop).
Qed.

Lemma lookup_refused (input_lei : string) (w : world) (data : value)
  (company_df : DataFrame) (e : exn) :
  record_fetched net py_str input_lei w data ->
  json_to_dataframe data = Ok company_df ->
  display_error company_df = Some e ->
  main net py_str iteration_order display_error input_lei true w
  = (Raise e,
     after w 1 (page_header ++ [StSpinner "Retrieving data...";
                                HttpGet (lei_request (py_str (VStr input_lei)));
                                StSubheader "Company Information"])).
Proof.
  intros Hfetched Hflat Hshown. rewrite (lookup_record _ _ _ Hfetched).
  rewrite bind_io_run, emit_run, bind_io_run. unfold lift at 1. rewrite Hflat.
  rewrite bind_io_run. unfold st_dataframe at 1. rewrite Hshown.
  unfold lift. now rewrite after_after.
Qed.

(** X13. A record whose table is displayed and none of whose
    relationships has a link, or that has no relationships at all, is
    shown with its table and the notice that no relationships were
    found; the lookup sends no request but the one for the record. *)
Theorem no_links_no_requests (input_lei : string) (w : world) (data : value)
  (company_df : DataFrame) (rels : list (string * value)) :
  record_fetched net py_str input_lei w data ->
  json_to_dataframe data = Ok company_df ->
  display_error company_df = None ->
  relationships_of data rels ->
  linked rels = [] ->
  main net py_str iteration_order display_error input_lei true w
  = (Ok tt, after w 1 (company_shown (py_str (VStr input_lei)) company_df
                       ++ [StInfo "No relationships found."])).
Proof.
  intros Hfetched Hflat Hshown Hrels Hnone.
  rewrite (lookup_relationships _ _ _ _ Hfetched Hflat Hshown).
  rewrite bind_io_run, (fetch_relationship_data_of _ _ _ Hrels);
    [| rewrite Hnone; exact I].
  rewrite Hnone.
  cbn [link_rows pd_DataFrame number_rows df_empty negb length map].
  now rewrite emit_run, !after_after.
Qed.

(** ** Runs of the page: links that fail *)

Lemma link_rows_nth (n : nat) (links : list (string * value)) (i : nat)
  (rel_name : string) (l : value) :
  nth_error links i = Some (rel_name, l) ->
  In (link_row rel_name l (net (n + i) (link_request l))) (link_rows net n links).
Proof.
  revert n i. induction links as [| [name0 l0] links IH]; intros n i H.
  - destruct i; discriminate.
  - destruct i as [| i]; simpl in *.
    + injection H as -> ->. left. now rewrite Nat.add_0_r.
    + right. rewrite <- Nat.add_succ_comm. auto.
Qed.

Lemma link_rows_In (n : nat) (links : list (string * value)) (cells : list (string * value)) :
  In cells (link_rows net n links) ->
  exists i rel_name l,
    nth_error links i = Some (rel_name, l)
    /\ cells = link_row rel_name l (net (n + i) (link_request l)).
Proof.
  revert n. induction links as [| [name0 l0] links IH]; simpl; intros n H; [contradiction |].
  destruct H as [<- | H].
  - exists 0%nat, name0, l0. now rewrite Nat.add_0_r.
  - destruct (IH _ H) as (i & rel_name & l & Hi & ->).
    exists (S i), rel_name, l. now rewrite <- Nat.add_succ_comm.
Qed.

Lemma number_rows_cells (records : list (list (string * value))) (cells : list (string * value))
  (i : Z) :
  In cells records -> exists r, In r (number_rows i records) /\ row_cells r = cells.
Proof.
  revert i. induction records as [| d records IH]; simpl; intros i H; [contradiction |].
  destruct H as [-> | H].
  - eexists. split; [left; reflexivity | reflexivity].
  - destruct (IH (i + 1) H) as (r & Hr & Hcells). eauto.
Qed.

Lemma add_columns_inv (k : string) (keys seen : list string) :
  In k (add_columns seen keys) -> In k seen \/ In k keys.
Proof.
  revert seen. induction keys as [| k' keys IH]; simpl; intros seen H; [auto |].
  destruct (mem_string k' seen).
  - destruct (IH _ H); auto.
  - destruct (IH _ H) as [Hseen | Hkeys]; [| auto].
    apply in_app_or in Hseen as [? | [<- | []]]; auto.
Qed.

Lemma columns_inv (df : DataFrame) (k : string) :
  In k (columns df) -> exists r, In r df /\ In k (dict_keys (row_cells r)).
Proof.
  unfold columns.
  assert (H : forall seen, In k (fold_left (fun seen r => add_columns seen (dict_keys (row_cells r)))
                                           df seen) ->
                           In k seen \/ exists r, In r df /\ In k (dict_keys (row_cells r))).
  { induction df as [| r df IH]; simpl; intros seen Hk; [auto |].
    destruct (IH _ Hk) as [Hseen | (r' & Hr' & Hk')]; [| eauto].
    destruct (add_columns_inv _ _ _ Hseen); eauto. }
  intros Hk. destruct (H [] Hk) as [[] | ?]; assumption.
Qed.

(** The table of the linked relationships is not empty as soon as
    there is one. *)
Lemma linked_table_not_empty (n : nat) (links : list (string * value)) :
  links <> [] -> links_answered net n links ->
  df_empty (pd_DataFrame (link_rows net n links)) = false.
Proof.
  destruct links as [| [rel_name l] links]; [congruence |]. intros _ [Hfirst _].
  unfold df_empty, pd_DataFrame. cbn [link_rows number_rows].
  match goal with |- context [columns ?df] =>
    assert (Hcol : In "Relationship Name" (columns df)) end.
  { eapply columns_In; [left; reflexivity |]. simpl.
    unfold link_row, link_escape in *.
    destruct (net n (link_request l)) as [msg | r]; [now left |].
    destruct ((400 <=? status_code r) && (status_code r <? 600)); [now left |].
    destruct (json r) as [[] |]; try discriminate; now left. }
  destruct (columns _); [contradiction | reflexivity].
Qed.

(** X14. When the company table is displayed, the record has linked
    relationships and not one link delivers, every request being
    answered or failing with a [RequestException], the table of
    relationships has no ["Data"] column and the lookup raises
    [KeyError] on it, after the company table and one request per
    link. *)
Theorem no_link_delivers_raises (input_lei : string) (w : world) (data : value)
  (company_df : DataFrame) (rels : list (string * value)) :
  record_fetched net py_str input_lei w data ->
  json_to_dataframe data = Ok company_df ->
  display_error company_df = None ->
  relationships_of data rels ->
  linked rels <> [] ->
  links_answered net (S (requests_sent w)) (linked rels) ->
  (forall i rel_name l,
     nth_error (linked rels) i = Some (rel_name, l) ->
     delivered (net (S (requests_sent w) + i) (link_request l)) = None) ->
  main net py_str iteration_order display_error input_lei true w
  = (Raise (KeyError "Data"),
     after w (S (length (linked rels)))
           (company_shown (py_str (VStr input_lei)) company_df
            ++ map (fun nl => HttpGet (link_request (snd nl))) (linked rels))).
Proof.
  intros Hfetched Hflat Hshown Hrels Hsome Hanswered Hfail.
  rewrite (lookup_relationships _ _ _ _ Hfetched Hflat Hshown).
  rewrite bind_io_run, (fetch_relationship_data_of _ _ _ Hrels); [| exact Hanswered].
  cbn [requests_sent after Nat.add].
  rewrite (linked_table_not_empty _ _ Hsome Hanswered). cbn [negb].
  rewrite bind_io_run. unfold lift, df_getitem.
  destruct (mem_string "Data" (columns _)) eqn:Hcol.
  - exfalso. apply mem_string_In, columns_inv in Hcol as (r & Hr & Hk).
    apply number_rows_In, link_rows_In in Hr as (i & rel_name & l & Hi & Hcells).
    apply dict_keys_lookup in Hk as [v Hv].
    rewrite Hcells, link_row_data, (Hfail _ _ _ Hi) in Hv. discriminate.
  - rewrite after_after. f_equal. f_equal. apply Nat.add_1_r.
Qed.

(** X15. When the company table is displayed, every request of a
    link is answered or fails with a [RequestException], one link
    delivers and another does not, the ["Data"] column holds NaN for
    the latter and the lookup raises [AttributeError] while extracting
    the identifiers, after the company table and one request per
    link: no related entity is shown, whatever the payloads that were
    delivered hold. *)
Theorem some_link_failing_raises (input_lei : string) (w : world) (data : value)
  (company_df : DataFrame) (rels : list (string * value))
  (i j : nat) (name_i name_j : string) (l_i l_j : value) :
  record_fetched net py_str input_lei w data ->
  json_to_dataframe data = Ok company_df ->
  display_error company_df = None ->
  relationships_of data rels ->
  links_answered net (S (requests_sent w)) (linked rels) ->
  nth_error (linked rels) i = Some (name_i, l_i) ->
  delivered (net (S (requests_sent w) + i) (link_request l_i)) = None ->
  nth_error (linked rels) j = Some (name_j, l_j) ->
  delivered (net (S (requests_sent w) + j) (link_request l_j)) <> None ->
  main net py_str iteration_order display_error input_lei true w
  = (Raise AttributeError,
     after w (S (length (linked rels)))
           (company_shown (py_str (VStr input_lei)) company_df
            ++ map (fun nl => HttpGet (link_request (snd nl))) (linked rels))).
Proof.
  intros Hfetched Hflat Hshown Hrels Hanswered Hi Hfail Hj Hdelivers.
  rewrite (lookup_relationships _ _ _ _ Hfetched Hflat Hshown).
  rewrite bind_io_run, (fetch_relationship_data_of _ _ _ Hrels); [| exact Hanswered].
  cbn [requests_sent after Nat.add].
  rewrite linked_table_not_empty;
    [| intros Hnil; rewrite Hnil in Hi; destruct i; discriminate | exact Hanswered].
  cbn [negb]. rewrite bind_io_run.
  destruct (number_rows_cells _ _ 0 (link_rows_nth (S (requests_sent w)) _ _ _ _ Hi))
    as (failed & Hfailed & Hcells_i).
  destruct (number_rows_cells _ _ 0 (link_rows_nth (S (requests_sent w)) _ _ _ _ Hj))
    as (fetched_row & Hfetched_row & Hcells_j).
  destruct (delivered (net (S (requests_sent w) + j) (link_request l_j)))
    as [payload |] eqn:Hpayload; [| congruence].
  destruct (failed_row_stops_extraction iteration_order
              (pd_DataFrame (link_rows net (S (requests_sent w)) (linked rels)))
              fetched_row failed payload input_lei) as (column & Hcolumn & Hextract).
  - exact Hfetched_row.
  - now rewrite Hcells_j, link_row_data.
  - exact Hfailed.
  - now rewrite Hcells_i, link_row_data.
  - unfold lift at 1. unfold pd_DataFrame in Hcolumn. unfold pd_DataFrame.
    rewrite Hcolumn. rewrite bind_io_run. unfold lift. rewrite Hextract.
    rewrite after_after. f_equal. f_equal. apply Nat.add_1_r.
Qed.

(** ** The related entities *)

Lemma add_related_fetched (display : DataFrame) (related_lei : value) (w : world) :
  add_related net py_str display related_lei w
  = (data <- lift (fetched (net (requests_sent w) (lei_request (py_str related_lei)))) ;;
     has_error <- lift (contains data "error") ;;
     if has_error : bool then
       show_error data ;;
       ret display
     else
       df <- lift (json_to_dataframe data) ;;
       ret (pd_concat display df))%io
      (after w 1 [HttpGet (lei_request (py_str related_lei))]).
Proof.
  unfold add_related. now rewrite !bind_io_run, get_lei_information_run.
Qed.

(** X16. One related entity that cannot be fetched does not stop the
    others: when its request raises or is answered with a status other
    than 200, the error and its details are shown, the table of
    related entities is left as it is and the loop goes on. *)
Theorem related_fetch_failure_is_isolated (display : DataFrame) (related_lei : value)
  (w : world) :
  let req := lei_request (py_str related_lei) in
  (forall msg,
     net (requests_sent w) req = Failed msg ->
     add_related net py_str display related_lei w
     = (Ok display,
        after w 1 [HttpGet req;
                   StError (VStr "An error occurred during the request.");
                   StWrite (VStr msg)]))
  /\ (forall r,
        net (requests_sent w) req = Received r -> status_code r <> 200 ->
        add_related net py_str display related_lei w
        = (Ok display,
           after w 1 [HttpGet req;
                      StError (VStr ("Error retrieving data (status code "
                                     ++ str_int (status_code r) ++ ")."));
                      StWrite (VStr (text r))])).
Proof.
  intros req. split.
  - intros msg Hnet. rewrite add_related_fetched. fold req. rewrite Hnet.
    unfold fetched, request_error, show_error, lift, subscript, emit, after, contains.
    simpl. now rewrite <- !app_assoc.
  - intros r Hnet Hstatus. rewrite add_related_fetched. fold req. rewrite Hnet.
    apply Z.eqb_neq in Hstatus.
    unfold fetched, upstream_error, show_error, lift, subscript, emit, after, contains.
    rewrite Hstatus. simpl. now rewrite <- !app_assoc.
Qed.

(** X17. A related record that is fetched adds its row under the rows
    already there, and nothing is shown for it yet; if it does not
    flatten, the exception stops the loop: the failure of a fetch is
    isolated, the failure of a flattening is not. *)
Theorem related_record_is_appended (display : DataFrame) (related_lei : value)
  (w : world) (r : response) (data : value) :
  let req := lei_request (py_str related_lei) in
  net (requests_sent w) req = Received r ->
  status_code r = 200 ->
  json r = inr data ->
  contains data "error" = Ok false ->
  add_related net py_str display related_lei w
  = (match json_to_dataframe data with
     | Ok df => Ok (display ++ df)%list
     | Raise e => Raise e
     end,
     after w 1 [HttpGet req]).
Proof.
  intros req Hnet Hstatus Hjson Herror. rewrite add_related_fetched. fold req.
  rewrite Hnet. cbn [fetched]. rewrite Hstatus, Hjson. cbn [Z.eqb Pos.eqb].
  rewrite bind_io_run. unfold lift at 1.
  rewrite bind_io_run. unfold lift. rewrite Herror. rewrite bind_io_run.
  destruct (json_to_dataframe data); reflexivity.
Qed.

Lemma show_error_cases (data : value) (w : world) :
  show_error data w
  = match data.["error"] with
    | Raise e => (Raise e, w)
    | Ok error =>
        match data.["details"] with
        | Raise e => (Raise e, after w 0 [StError error])
        | Ok details => (Ok tt, after w 0 [StError error; StWrite details])
        end
    end.
Proof.
  unfold show_error, lift, emit, after. rewrite bind_io_run.
  destruct (data.["error"]) as [error | e]; [| reflexivity].
  rewrite !bind_io_run. cbn [requests_sent effects Nat.add].
  destruct (data.["details"]) as [details | e]; [| reflexivity].
  now rewrite <- app_assoc.
Qed.

Lemma requests_of_app (evs evs' : list event) :
  requests_of (evs ++ evs') = (requests_of evs ++ requests_of evs')%list.
Proof.
  induction evs as [| ev evs IH]; simpl; [reflexivity |].
  destruct ev; simpl; now rewrite ?IH.
Qed.

Lemma shown_tables_app (evs evs' : list event) :
  shown_tables (evs ++ evs') = (shown_tables evs ++ shown_tables evs')%list.
Proof.
  induction evs as [| ev evs IH]; simpl; [reflexivity |].
  destruct ev; simpl; now rewrite ?IH.
Qed.

(** One turn of the loop over the related identifiers that ends well. *)
Lemma add_related_ok (display display' : DataFrame) (related_lei : value) (w w' : world) :
  add_related net py_str display related_lei w = (Ok display', w') ->
  exists rows evs,
    display' = (display ++ rows)%list
    /\ Forall (fun r => dict_keys (row_cells r) = flat_columns) rows
    /\ (length rows <= 1)%nat
    /\ w' = after w 1 evs
    /\ requests_of evs = [lei_request (py_str related_lei)]
    /\ shown_tables evs = [].
Proof.
  rewrite add_related_fetched.
  destruct (fetched (net (requests_sent w) (lei_request (py_str related_lei))))
    as [data | e]; intros H; rewrite bind_io_run in H; unfold lift at 1 in H;
    [| discriminate].
  rewrite bind_io_run in H. unfold lift in H.
  destruct (contains data "error") as [[|] | e]; [| | discriminate].
  - rewrite bind_io_run, show_error_cases in H.
    destruct (data.["error"]) as [error | e]; [| discriminate].
    destruct (data.["details"]) as [details | e]; [| discriminate].
    injection H as <- <-. rewrite after_after.
    exists [], [HttpGet (lei_request (py_str related_lei)); StError error; StWrite details].
    rewrite app_nil_r. repeat split; auto.
  - rewrite bind_io_run in H.
    destruct (json_to_dataframe data) as [df |] eqn:Hdf; [| discriminate].
    injection H as <- <-.
    exists df, [HttpGet (lei_request (py_str related_lei))].
    destruct (json_to_dataframe_inv _ _ Hdf) as (_ & _ & _ & flat_data & name & _ & _ & _ & ->).
    repeat split; auto.
    constructor; [| constructor]. simpl. now apply (json_to_dataframe_keys data name).
Qed.

Lemma related_loop (related_leis : list value) :
  forall display0 w display w',
    for_each_io related_leis display0 (add_related net py_str) w = (Ok display, w') ->
    exists rows evs,
      display = (display0 ++ rows)%list
      /\ Forall (fun r => dict_keys (row_cells r) = flat_columns) rows
      /\ (length rows <= length related_leis)%nat
      /\ w' = after w (length related_leis) evs
      /\ requests_of evs = map (fun l => lei_request (py_str l)) related_leis
      /\ shown_tables evs = [].
Proof.
  induction related_leis as [| lei leis IH]; intros display0 w display w' H.
  - injection H as <- <-. exists [], []. rewrite app_nil_r, after_nothing.
    repeat split; auto.
  - cbn [for_each_io] in H. rewrite bind_io_run in H.
    destruct (add_related net py_str display0 lei w) as [[display1 | e] w1] eqn:Hstep;
      [| discriminate].
    destruct (add_related_ok _ _ _ _ _ Hstep) as (rows1 & evs1 & -> & Hrows1 & Hlen1 & -> & Hreq1 & Hshown1).
    destruct (IH _ _ _ _ H) as (rows & evs & -> & Hrows & Hlen & -> & Hreq & Hshown).
    exists (rows1 ++ rows)%list, (evs1 ++ evs)%list.
    rewrite after_after, requests_of_app, shown_tables_app, Hreq1, Hreq, Hshown1, Hshown.
    rewrite <- app_assoc, length_app. repeat split; auto.
    + now apply Forall_app.
    + simpl. apply (Nat.add_le_mono _ 1 _ _ Hlen1 Hlen).
    + f_equal. apply Nat.add_1_r.
Qed.

Lemma columns_uniform (df : DataFrame) :
  df <> [] ->
  Forall (fun r => dict_keys (row_cells r) = flat_columns) df ->
  columns df = flat_columns.
Proof.
  destruct df as [| r df]; [congruence |]. intros _ Hall.
  inversion Hall as [| ? ? Hr Hrest]; subst. clear Hall. unfold columns. simpl. rewrite Hr.
  change (add_columns [] flat_columns) with flat_columns.
  induction Hrest as [| r' df Hr' _ IH]; simpl; [reflexivity |].
  rewrite Hr'. change (add_columns flat_columns flat_columns) with flat_columns. exact IH.
Qed.

(** X18. The table of related entities is made of flattened records
    only: each of its rows has the forty-one columns of the company
    table, so that stacking fills no cell with NaN; it has at most one
    row per related identifier, and the loop that builds it asks each
    identifier once, in order, and shows no table itself. *)
Theorem related_table (related_leis : list value) (w w' : world) (display : DataFrame) :
  for_each_io related_leis [] (add_related net py_str) w = (Ok display, w') ->
  Forall (fun r => dict_keys (row_cells r) = flat_columns) display
  /\ (display = [] \/ columns display = flat_columns)
  /\ (length display <= length related_leis)%nat
  /\ exists evs,
       w' = after w (length related_leis) evs
       /\ requests_of evs = map (fun l => lei_request (py_str l)) related_leis
       /\ shown_tables evs = [].
Proof.
  intros H.
  destruct (related_loop _ _ _ _ _ H) as (rows & evs & -> & Hrows & Hlen & -> & Hreq & Hshown).
  simpl. repeat split; eauto.
  destruct rows as [| r rows]; [now left | right].
  apply columns_uniform; [discriminate | exact Hrows].
Qed.

(** ** What a lookup can raise *)












(** ** Runs of the page: the whole lookup *)

Lemma requests_of_links (links : list (string * value)) :
  requests_of (map (fun nl => HttpGet (link_request (snd nl))) links)
  = map (fun nl => link_request (snd nl)) links.
Proof. induction links as [| nl links IH]; simpl; [reflexivity | now rewrite IH]. Qed.

Lemma shown_tables_links (links : list (string * value)) :
  shown_tables (map (fun nl => HttpGet (link_request (snd nl))) links) = [].
Proof. induction links as [| nl links IH]; simpl; [reflexivity | exact IH]. Qed.

(** X20. A lookup over linked relationships that ends well has sent
    one request for the record, then one per link, then one per
    related identifier, in this order and no other; it has shown the
    company table first and at most one table more, the one of the
    related entities. *)
Theorem lookup_requests (input_lei : string) (w w' : world) (data : value)
  (company_df : DataFrame) (rels : list (string * value)) :
  record_fetched net py_str input_lei w data ->
  json_to_dataframe data = Ok company_df ->
  relationships_of data rels ->
  linked rels <> [] ->
  main net py_str iteration_order display_error input_lei true w = (Ok tt, w') ->
  exists relationship_data related_leis evs,
    df_getitem (pd_DataFrame (link_rows net (S (requests_sent w)) (linked rels))) "Data"
    = Ok relationship_data
    /\ extract_related_leis iteration_order relationship_data input_lei = Ok related_leis
    /\ w' = after w (1 + length (linked rels) + length related_leis) evs
    /\ requests_of evs
       = (lei_request (py_str (VStr input_lei))
          :: map (fun nl => link_request (snd nl)) (linked rels)
          ++ map (fun l => lei_request (py_str l)) related_leis)%list
    /\ (shown_tables evs = [company_df]
        \/ exists display, shown_tables evs = [company_df; display]
                           /\ (length display <= length related_leis)%nat).
Proof.
  intros Hfetched Hflat Hrels Hsome Hrun.
  destruct (display_error company_df) as [e |] eqn:Hdisplayed;
    [rewrite (lookup_refused _ _ _ _ _ Hfetched Hflat Hdisplayed) in Hrun; discriminate |].
  rewrite (lookup_relationships _ _ _ _ Hfetched Hflat Hdisplayed) in Hrun.
  rewrite bind_io_run in Hrun.
  destruct (fetch_relationship_data net data _) as [[relationship_df | e] w2] eqn:Hrel;
    [| discriminate].
  pose proof (fetch_relationship_data_answered _ _ _ _ _ Hrels Hrel) as Hanswered.
  rewrite (fetch_relationship_data_of _ _ _ Hrels Hanswered) in Hrel.
  injection Hrel as <- <-.
  cbn [requests_sent after Nat.add] in Hrun, Hanswered.
  rewrite (linked_table_not_empty _ _ Hsome Hanswered) in Hrun. cbn [negb] in Hrun.
  rewrite bind_io_run in Hrun. unfold lift at 1 in Hrun.
  destruct (df_getitem _ "Data") as [relationship_data |] eqn:Hcol; [| discriminate].
  rewrite bind_io_run in Hrun. unfold lift at 1 in Hrun.
  destruct (extract_related_leis iteration_order relationship_data input_lei)
    as [related_leis |] eqn:Hextract; [| discriminate].
  rewrite bind_io_run in Hrun.
  destruct (for_each_io related_leis [] (add_related net py_str) _)
    as [[display |] w3] eqn:Hloop; [| discriminate].
  destruct (related_loop _ _ _ _ _ Hloop)
    as (rows & evs & Hdisplay & _ & Hlen & -> & Hreq & Hshown).
  simpl in Hdisplay. subst rows.
  assert (Hrequests : forall last,
            requests_of last = [] ->
            requests_of ((company_shown (py_str (VStr input_lei)) company_df
                          ++ map (fun nl => HttpGet (link_request (snd nl))) (linked rels))
                         ++ evs ++ last)
            = (lei_request (py_str (VStr input_lei))
               :: map (fun nl => link_request (snd nl)) (linked rels)
               ++ map (fun l => lei_request (py_str l)) related_leis)%list).
  { intros last Hlast.
    rewrite !requests_of_app, Hreq, Hlast, app_nil_r, requests_of_links.
    reflexivity. }
  assert (Htables : forall last,
            shown_tables ((company_shown (py_str (VStr input_lei)) company_df
                           ++ map (fun nl => HttpGet (link_request (snd nl))) (linked rels))
                          ++ evs ++ last)
            = (company_df :: shown_tables last)).
  { intros last. rewrite !shown_tables_app, Hshown, shown_tables_links. reflexivity. }
  exists relationship_data, related_leis.
  destruct (negb (df_empty display)) eqn:Hempty;
    [unfold st_dataframe in Hrun;
     destruct (display_error display); [discriminate |] |];
    rewrite emit_run, !after_after in Hrun; injection Hrun as <-.
  - exists ((company_shown (py_str (VStr input_lei)) company_df
             ++ map (fun nl => HttpGet (link_request (snd nl))) (linked rels))
            ++ evs ++ [StDataframe display])%list.
    split; [reflexivity |]. split; [exact Hextract |].
    split; [f_equal; lia |]. split; [now apply Hrequests |].
    rewrite Htables. simpl. eauto.
  - exists ((company_shown (py_str (VStr input_lei)) company_df
             ++ map (fun nl => HttpGet (link_request (snd nl))) (linked rels))
            ++ evs ++ [StInfo "No relationships found."])%list.
    split; [reflexivity |]. split; [exact Hextract |].
    split; [f_equal; lia |]. split; [now apply Hrequests |].
    rewrite Htables. simpl. eauto.
Qed.

(** ** Runs of the page: what escapes *)

(** X22. A company table that is refused for display stops the
    lookup: the refusal is raised under the first subheader, no table
    is shown and no relationship link is asked. *)
Theorem refused_table_stops_lookup (input_lei : string) (w : world) (data : value)
  (company_df : DataFrame) (e : exn) :
  record_fetched net py_str input_lei w data ->
  json_to_dataframe data = Ok company_df ->
  display_error company_df = Some e ->
  exists evs,
    main net py_str iteration_order display_error input_lei true w
    = (Raise e, after w 1 evs)
    /\ shown_tables evs = []
    /\ requests_of evs = [lei_request (py_str (VStr input_lei))].
Proof.
  intros Hfetched Hflat Hrefused.
  rewrite (lookup_refused _ _ _ _ _ Hfetched Hflat Hrefused).
  eexists. split; [reflexivity |]. split; reflexivity.
Qed.

Lemma fetch_links_escape (items : list (string * value)) :
  (forall rel_name rel_data, In (rel_name, rel_data) items ->
                             exists l, related_link rel_data = Ok l) ->
  forall i rel_name l e results w,
    nth_error (linked items) i = Some (rel_name, l) ->
    links_answered net (requests_sent w) (firstn i (linked items)) ->
    link_escape (net (requests_sent w + i) (link_request l)) = Some e ->
    for_each_io items results (fetch_link net) w
    = (Raise e,
       after w (S i) (map (fun nl => HttpGet (link_request (snd nl)))
                          (firstn (S i) (linked items)))).
Proof.
  induction items as [| [name0 rel_data] items IH];
    intros Hlinks i rel_name l e results w Hi Hanswered Hescape.
  - destruct i; discriminate.
  - destruct (Hlinks name0 rel_data (or_introl eq_refl)) as [l0 Hl0].
    assert (Hrest : forall n d, In (n, d) items -> exists l, related_link d = Ok l)
      by (intros n d Hin; apply (Hlinks n d); now right).
    cbn [for_each_io linked] in *. rewrite bind_io_run. rewrite Hl0 in *.
    destruct (truthy l0) eqn:Htruthy.
    + rewrite (fetch_link_run net results name0 rel_data l0 w Hl0 Htruthy).
      fold (link_request l0). destruct i as [| i].
      * injection Hi as -> ->. rewrite Nat.add_0_r in Hescape. rewrite Hescape.
        reflexivity.
      * cbn [nth_error firstn links_answered] in Hi, Hanswered.
        destruct Hanswered as [Hfirst Hanswered]. rewrite Hfirst.
        rewrite (IH Hrest i rel_name l e); [| exact Hi | exact Hanswered |].
        -- rewrite after_after. cbn [firstn map snd]. f_equal. f_equal.
           apply Nat.add_1_r.
        -- replace (requests_sent (after w 1 [HttpGet (link_request l0)]) + i)%nat
             with (requests_sent w + S i)%nat;
             [exact Hescape | cbn [requests_sent after]; lia].
    + rewrite (fetch_link_skip results name0 rel_data l0 w Hl0 Htruthy).
      now apply (IH Hrest i rel_name l e).
Qed.

(** X23. The first link on whose response the decoder raises an
    exception of its own stops [fetch_relationship_data]: the
    exception goes through, the rows recorded so far are lost with
    the table, and the links that follow are not asked. *)
Theorem escaping_link_stops_fetch (data : value) (rels : list (string * value))
  (w : world) (i : nat) (rel_name : string) (l : value) (e : exn) :
  relationships_of data rels ->
  nth_error (linked rels) i = Some (rel_name, l) ->
  links_answered net (requests_sent w) (firstn i (linked rels)) ->
  link_escape (net (requests_sent w + i) (link_request l)) = Some e ->
  fetch_relationship_data net data w
  = (Raise e,
     after w (S i) (map (fun nl => HttpGet (link_request (snd nl)))
                        (firstn (S i) (linked rels)))).
Proof.
  intros [Hrels Hlinks] Hi Hanswered Hescape.
  apply bind_ok in Hrels as (d & Hd & Hrels).
  unfold fetch_relationship_data, lift.
  rewrite bind_io_run, Hd. cbn [bind Monad_result]. rewrite Hrels.
  rewrite bind_io_run. cbn [dict_items]. rewrite bind_io_run.
  now rewrite (fetch_links_escape rels Hlinks i rel_name l e [] w Hi Hanswered Hescape).
Qed.

(** X24. When the decoder raises an exception of its own on the
    response to the first request, a response with status 200, the
    lookup ends with this exception after that one request: nothing
    is shown, not even an error. *)
Theorem decoder_error_stops_lookup (input_lei : string) (w : world) (r : response)
  (e : exn) :
  let req := lei_request (py_str (VStr input_lei)) in
  net (requests_sent w) req = Received r ->
  status_code r = 200 ->
  json r = inl e ->
  not_request e ->
  main net py_str iteration_order display_error input_lei true w
  = (Raise e, after w 1 (page_header ++ [StSpinner "Retrieving data..."; HttpGet req])).
Proof.
  intros req Hnet Hstatus Hjson Hnot.
  rewrite main_clicked. unfold lookup.
  rewrite bind_io_run, emit_run, bind_io_run, get_lei_information_fetched.
  rewrite !after_after. cbn [requests_sent after Nat.add]. fold req.
  rewrite Hnet. unfold fetched. rewrite Hstatus, Hjson. cbn [Z.eqb Pos.eqb].
  destruct e; try reflexivity. now destruct (Hnot msg).
Qed.

End Further.

(** ** The further properties on the samples *)

Lemma record_flattens : json_to_dataframe Sample.record = Ok (Sample.flattened Sample.record).
Proof. vm_compute. reflexivity. Defined.

Lemma json_to_dataframe_shape_witness :
  columns (Sample.flattened Sample.record) = flat_columns
  /\ df_getitem (Sample.flattened Sample.record) "Legal Name" = Raise (KeyError "Legal Name").
Proof.
  destruct (json_to_dataframe_shape Sample.record _ record_flattens)
    as (name & cells & _ & _ & _ & Hcolumns & Hname).
  split; assumption.
Defined.

Lemma plain_columns_round_trip_witness :
  df_getitem (Sample.flattened Sample.record) "Jurisdiction" = Ok [VStr "DE"].
Proof.
  destruct (plain_columns_round_trip Sample.record _ "Jurisdiction" Entity ["jurisdiction"]
              record_flattens) as (v & Hv & Hcell).
  - unfold columns_table. simpl. auto 30.
  - discriminate.
  - vm_compute in Hv. injection Hv as <-. exact Hcell.
Defined.

Lemma joined_columns_witness :
  df_getitem (Sample.flattened Sample.record) "Legal Address"
  = Ok [VStr "Hauptstrasse 1, 2. Stock"]
  /\ df_getitem (Sample.flattened Sample.record) "BIC Codes"
     = Ok [VStr "MUSTDEFFXXX, MUSTDEFF500"].
Proof.
  split.
  - apply (joined_columns Sample.record _ "Legal Address" Entity
             ["legalAddress"; "addressLines"] ["Hauptstrasse 1"; "2. Stock"] record_flattens).
    + left. unfold columns_table. simpl. auto 30.
    + reflexivity.
  - apply (joined_columns Sample.record _ "BIC Codes" Attributes
             ["bic"] ["MUSTDEFFXXX"; "MUSTDEFF500"] record_flattens).
    + right. split; [unfold columns_table; simpl; auto 40 | discriminate].
    + reflexivity.
Defined.

Lemma first_failure_is_raised_witness :
  json_to_dataframe Sample.record_null_legal_form = Raise TypeError.
Proof.
  apply (first_failure_is_raised Sample.record_null_legal_form
           (Sample.attributes (Sample.entity Sample.names Sample.lines VNone) Sample.codes)
           (Sample.entity Sample.names Sample.lines VNone)
           Sample.registration TypeError).
  - repeat split; reflexivity.
  - exists 20%nat, "Legal Form ID". split; [reflexivity |].
    intros m name' x Hm Hx.
    do 20 (destruct m as [| m]; [injection Hx as <- <-; eexists; vm_compute; reflexivity |]).
    lia.
Defined.

Lemma request_errors_are_reported_witness :
  fst (get_lei_information (Sample.always Sample.garbled) Sample.str (VStr Sample.lei) start)
  = Ok (VDict [("error", VStr "An error occurred during the request.");
               ("details", VStr "Expecting value: line 1 column 1 (char 0)")]).
Proof.
  apply (request_errors_are_reported (Sample.always Sample.garbled) Sample.str).
  right. eexists. repeat split; reflexivity.
Defined.

Lemma sample_relationships :
  relationships_of Sample.record
    [("managing-lou", Sample.link "https://api.gleif.org/lou");
     ("direct-parent", Sample.link "https://api.gleif.org/parent")].
Proof.
  split; [reflexivity |].
  intros rel_name rel_data [H | [H | []]]; injection H as <- <-; eexists; reflexivity.
Defined.


Lemma relationship_rows_invariant_witness :
  relationship_row (link_row "direct-parent" (VStr "https://api.gleif.org/parent")
                             Sample.not_found).
Proof.
  apply (relationship_rows_invariant (Sample.net Sample.not_found) Sample.record start
           (snd (fetch_relationship_data (Sample.net Sample.not_found) Sample.record start))
           (pd_DataFrame
              [link_row "managing-lou" (VStr "https://api.gleif.org/lou")
                        (Sample.ok Sample.lou_payload);
               link_row "direct-parent" (VStr "https://api.gleif.org/parent")
                        Sample.not_found])
           eq_refl
           {| row_index := VInt 1;
              row_cells := link_row "direct-parent" (VStr "https://api.gleif.org/parent")
                                    Sample.not_found |}).
  right. now left.
Defined.


Lemma extract_related_leis_content_witness :
  In (VStr Sample.lou_lei) [VStr Sample.parent_lei; VStr Sample.lou_lei]
  /\ ~ In (VStr Sample.lei) [VStr Sample.parent_lei; VStr Sample.lou_lei].
Proof.
  destruct (extract_related_leis_content (@rev value) rev_rearranges
              [Sample.lou_payload; Sample.parent_payload]
              [VStr Sample.parent_lei; VStr Sample.lou_lei] Sample.lei eq_refl)
    as [_ Hiff].
  split.
  - apply Hiff. split; [discriminate |]. split; [discriminate |].
    exists Sample.lou_payload. split; [now left |].
    exists (Sample.entry Sample.lou_lei). split; [now left | reflexivity].
  - intros Hin. apply Hiff in Hin as (_ & Hne & _). now apply Hne.
Defined.

Lemma unhashable_identifier_raises_witness :
  extract_related_leis (@rev value) [Sample.lou_payload; Sample.odd_payload] Sample.lei
  = Raise TypeError.
Proof.
  apply (unhashable_identifier_raises (@rev value)
           [Sample.lou_payload; Sample.odd_payload]
           [VStr Sample.lou_lei; VList [VStr Sample.lou_lei]] Sample.lei
           Sample.odd_payload (VList [VStr Sample.lou_lei])).
  - reflexivity.
  - right. now left.
  - eexists. split; [left; reflexivity | reflexivity].
  - split; reflexivity.
  - reflexivity.
Defined.

Lemma extract_related_leis_total_witness :
  exists out,
    extract_related_leis (@rev value) [Sample.lou_payload; Sample.parent_payload] Sample.lei
    = Ok out.
Proof.
  apply (extract_related_leis_total (@rev value)).
  repeat constructor; try (eexists; reflexivity);
    intros entry Hentry; simpl in Hentry;
    repeat (destruct Hentry as [<- | Hentry];
            [eexists; split; [reflexivity | discriminate] |]);
    contradiction.
Defined.

Lemma flatten_failure_stops_lookup_witness :
  fst (main (Sample.always (Sample.ok Sample.record_null_legal_form)) Sample.str
         (@rev value) Sample.styler Sample.lei true start) = Raise TypeError.
Proof.
  rewrite (flatten_failure_stops_lookup
             (Sample.always (Sample.ok Sample.record_null_legal_form)) Sample.str
             (@rev value) Sample.styler
             Sample.lei start Sample.record_null_legal_form TypeError).
  - reflexivity.
  - eexists. repeat split; reflexivity.
  - reflexivity.
Defined.

Lemma no_links_no_requests_witness :
  requests_of (effects (snd (main (Sample.always (Sample.ok Sample.record_empty_lists))
                               Sample.str (@rev value) Sample.styler Sample.lei true start)))
  = [lei_request Sample.lei].
Proof.
  rewrite (no_links_no_requests
             (Sample.always (Sample.ok Sample.record_empty_lists)) Sample.str
             (@rev value) Sample.styler
             Sample.lei start Sample.record_empty_lists
             (Sample.flattened Sample.record_empty_lists) []).
  - reflexivity.
  - eexists. repeat split; reflexivity.
  - vm_compute. reflexivity.
  - reflexivity.
  - split; [reflexivity | intros ? ? []].
  - reflexivity.
Defined.

Lemma sample_record_fetched (parent : outcome) :
  record_fetched (Sample.net parent) Sample.str Sample.lei start Sample.record.
Proof. eexists. repeat split; reflexivity. Defined.

Lemma no_link_delivers_raises_witness :
  fst (main Sample.links_down Sample.str (@rev value) Sample.styler Sample.lei true start)
  = Raise (KeyError "Data").
Proof.
  rewrite (no_link_delivers_raises Sample.links_down Sample.str (@rev value) Sample.styler
             Sample.lei start Sample.record (Sample.flattened Sample.record) _
             (ex_intro _ _ (conj eq_refl (conj eq_refl (conj eq_refl eq_refl))))
             record_flattens eq_refl sample_relationships).
  - reflexivity.
  - discriminate.
  - repeat split.
  - intros [| [| [| i]]] rel_name l Hi; simpl in Hi; try discriminate;
      injection Hi as <- <-; reflexivity.
Defined.

Lemma some_link_failing_raises_witness :
  fst (main (Sample.net Sample.not_found) Sample.str (@rev value) Sample.styler
         Sample.lei true start)
  = Raise AttributeError.
Proof.
  rewrite (some_link_failing_raises (Sample.net Sample.not_found) Sample.str (@rev value)
             Sample.styler
             Sample.lei start Sample.record (Sample.flattened Sample.record) _
             1 0 "direct-parent" "managing-lou"
             (VStr "https://api.gleif.org/parent") (VStr "https://api.gleif.org/lou")
             (sample_record_fetched Sample.not_found) record_flattens eq_refl
             sample_relationships).
  - reflexivity.
  - repeat split.
  - reflexivity.
  - reflexivity.
  - reflexivity.
  - discriminate.
Defined.

Lemma related_fetch_failure_is_isolated_witness :
  fst (add_related (Sample.always Sample.unreachable) Sample.str
         (Sample.flattened Sample.record) (VStr Sample.lou_lei) start)
  = Ok (Sample.flattened Sample.record)
  /\ fst (add_related (Sample.always Sample.not_found) Sample.str
            (Sample.flattened Sample.record) (VStr Sample.lou_lei) start)
     = Ok (Sample.flattened Sample.record).
Proof.
  split.
  - rewrite (proj1 (related_fetch_failure_is_isolated
                      (Sample.always Sample.unreachable) Sample.str
                      (Sample.flattened Sample.record) (VStr Sample.lou_lei) start)
               _ eq_refl).
    reflexivity.
  - rewrite (proj2 (related_fetch_failure_is_isolated
                      (Sample.always Sample.not_found) Sample.str
                      (Sample.flattened Sample.record) (VStr Sample.lou_lei) start)
               _ eq_refl).
    + reflexivity.
    + discriminate.
Defined.

Lemma related_record_is_appended_witness :
  fst (add_related (Sample.always (Sample.ok Sample.lou_record)) Sample.str
         (Sample.flattened Sample.record) (VStr Sample.lou_lei) start)
  = Ok (Sample.flattened Sample.record ++ Sample.flattened Sample.lou_record)%list.
Proof.
  rewrite (related_record_is_appended (Sample.always (Sample.ok Sample.lou_record)) Sample.str
             (Sample.flattened Sample.record) (VStr Sample.lou_lei) start
             _ Sample.lou_record eq_refl eq_refl eq_refl eq_refl).
  vm_compute. reflexivity.
Defined.

Lemma related_table_witness :
  exists display,
    fst (for_each_io [VStr Sample.lou_lei; VStr Sample.parent_lei] []
           (add_related (Sample.net Sample.not_found) Sample.str) start) = Ok display
    /\ columns display = flat_columns
    /\ (length display <= 2)%nat.
Proof.
  destruct (for_each_io [VStr Sample.lou_lei; VStr Sample.parent_lei] []
              (add_related (Sample.net Sample.not_found) Sample.str) start)
    as [[display | e] w'] eqn:Hloop; [| vm_compute in Hloop; discriminate].
  exists display. split; [reflexivity |].
  destruct (related_table _ _ _ _ _ _ Hloop) as (_ & [Hempty | Hcolumns] & Hlength & _).
  - subst display. vm_compute in Hloop. discriminate.
  - split; assumption.
Defined.


Lemma lookup_requests_witness :
  exists evs,
    snd (main (Sample.net (Sample.ok Sample.parent_payload)) Sample.str (@rev value)
           Sample.styler Sample.lei true start) = after start 5 evs
    /\ requests_of evs
       = [lei_request Sample.lei;
          link_request (VStr "https://api.gleif.org/lou");
          link_request (VStr "https://api.gleif.org/parent");
          lei_request Sample.parent_lei;
          lei_request Sample.lou_lei].
Proof.
  destruct (lookup_requests (Sample.net (Sample.ok Sample.parent_payload)) Sample.str
              (@rev value) Sample.styler Sample.lei start
              (snd (main (Sample.net (Sample.ok Sample.parent_payload)) Sample.str
                      (@rev value) Sample.styler Sample.lei true start))
              Sample.record (Sample.flattened Sample.record) _
              (sample_record_fetched (Sample.ok Sample.parent_payload))
              record_flattens sample_relationships)
    as (relationship_data & related_leis & evs & Hcolumn & Hextract & Hworld & Hrequests & _).
  - discriminate.
  - vm_compute. reflexivity.
  - vm_compute in Hcolumn. injection Hcolumn as <-.
    vm_compute in Hextract. injection Hextract as <-.
    exists evs. split; [exact Hworld | exact Hrequests].
Defined.

Lemma refused_table_stops_lookup_witness :
  fst (main (Sample.always (Sample.ok Sample.record_odd_name)) Sample.str (@rev value)
         Sample.styler Sample.lei true start) = Raise TypeError.
Proof.
  destruct (refused_table_stops_lookup
              (Sample.always (Sample.ok Sample.record_odd_name)) Sample.str (@rev value)
              Sample.styler Sample.lei start Sample.record_odd_name
              (Sample.flattened Sample.record_odd_name) TypeError)
    as (evs & Hrun & _).
  - eexists. repeat split; reflexivity.
  - vm_compute. reflexivity.
  - reflexivity.
  - now rewrite Hrun.
Defined.

Lemma escaping_link_stops_fetch_witness :
  fetch_relationship_data (Sample.net Sample.oversized) Sample.record start
  = (Raise ValueError,
     after start 2 [HttpGet (link_request (VStr "https://api.gleif.org/lou"));
                    HttpGet (link_request (VStr "https://api.gleif.org/parent"))]).
Proof.
  apply (escaping_link_stops_fetch (Sample.net Sample.oversized) Sample.record _ start
           1 "direct-parent" (VStr "https://api.gleif.org/parent") ValueError
           sample_relationships eq_refl).
  - repeat split.
  - reflexivity.
Defined.

Lemma decoder_error_stops_lookup_witness :
  main (Sample.always Sample.oversized) Sample.str (@rev value) Sample.styler
    Sample.lei true start
  = (Raise ValueError,
     after start 1 (page_header ++ [StSpinner "Retrieving data...";
                                    HttpGet (lei_request Sample.lei)])).
Proof.
  apply (decoder_error_stops_lookup (Sample.always Sample.oversized) Sample.str
           (@rev value) Sample.styler Sample.lei start _ ValueError eq_refl eq_refl eq_refl).
  intros msg. discriminate.
Defined.
